(** * inference.py: bounded prompt, continuation extraction, session drivers

    A shallow embedding of [src/inference.py].  Python values are modelled
    the way the interpreter has them:

    - a [str] is a sequence of Unicode code points ([list N]); [len],
      slicing, [str.rfind] and [str.strip] follow CPython;
    - token ids are integers ([Z]);
    - calls on the outside world (tokenizer, model, terminal, file system)
      are actions of a small state-and-exception monad that records every
      call in a chronological log. *)

From Stdlib Require Import String Ascii ZArith NArith Lia Bool List.
From Stdlib Require QArith_base.
Import ListNotations.

#[local] Open Scope Z_scope.

(* ====================================================================== *)
(** ** Python built-ins used by the source *)
(* ====================================================================== *)

Module Py.

(** A character is a code point, a [str] a sequence of them. *)
Definition char := N.
Definition str := list char.

(** A literal of the source, written in ASCII. *)
Fixpoint lit (s : string) : str :=
  match s with
  | EmptyString => []
  | String a s' => N_of_ascii a :: lit s'
  end.

(** The line feed. *)
Definition nl : str := [10%N].

Definition len {A : Type} (l : list A) : Z := Z.of_nat (List.length l).

(** Index normalisation of a slice bound (step 1): a negative bound counts
    from the end, and every bound is clamped into [0, n]. *)
Definition adjust (n i : Z) : Z :=
  if i <? 0 then Z.max (i + n) 0 else Z.min i n.

(** [l[start:stop]] *)
Definition slice {A : Type} (l : list A) (start stop : Z) : list A :=
  let lo := adjust (len l) start in
  let hi := adjust (len l) stop in
  firstn (Z.to_nat (hi - lo)) (skipn (Z.to_nat lo) l).

(** [l[start:]] *)
Definition slice_from {A : Type} (l : list A) (start : Z) : list A :=
  skipn (Z.to_nat (adjust (len l) start)) l.

(** [l[:stop]] *)
Definition slice_to {A : Type} (l : list A) (stop : Z) : list A :=
  firstn (Z.to_nat (adjust (len l) stop)) l.

(** [s.startswith(sub)] *)
Fixpoint startswith (s sub : str) : bool :=
  match sub, s with
  | [], _ => true
  | _ :: _, [] => false
  | c :: sub', d :: s' => N.eqb c d && startswith s' sub'
  end.

(** Candidates [lo + k - 1], ..., [lo], highest first. *)
Fixpoint rscan (s sub : str) (lo k : nat) : option nat :=
  match k with
  | O => None
  | S k' =>
      if startswith (skipn (lo + k') s) sub then Some (lo + k')%nat
      else rscan s sub lo k'
  end.

(** [s.rfind(sub, start)]: the highest index [i >= start] such that
    [s[i:i+len(sub)] == sub], or [-1].  A negative [start] counts from the
    end; a [start] beyond the end finds nothing, not even the empty
    string. *)
Definition rfind (s sub : str) (start : Z) : Z :=
  let n := len s in
  let m := len sub in
  let lo := if start <? 0 then Z.max (start + n) 0 else start in
  if n - lo <? m then -1
  else match rscan s sub (Z.to_nat lo) (Z.to_nat (n - lo - m + 1)) with
       | Some i => Z.of_nat i
       | None => -1
       end.

(** [str.isspace] on one character: the code points CPython treats as
    whitespace. *)
Definition whitespace : list char :=
  [9; 10; 11; 12; 13; 28; 29; 30; 31; 32; 133; 160; 5760;
   8192; 8193; 8194; 8195; 8196; 8197; 8198; 8199; 8200; 8201; 8202;
   8232; 8233; 8239; 8287; 12288]%N.

Definition isspace (c : char) : bool := existsb (N.eqb c) whitespace.

Fixpoint lstrip_by (p : char -> bool) (s : str) : str :=
  match s with
  | [] => []
  | c :: s' => if p c then lstrip_by p s' else s
  end.

Definition rstrip_by (p : char -> bool) (s : str) : str :=
  rev (lstrip_by p (rev s)).

(** [s.strip()] *)
Definition strip (s : str) : str := rstrip_by isspace (lstrip_by isspace s).

(** [s.rstrip(chars)] *)
Definition rstrip_chars (s chars : str) : str :=
  rstrip_by (fun c => existsb (N.eqb c) chars) s.

(** [str(n)] for a non-negative integer. *)
Fixpoint digits (d : Decimal.uint) : str :=
  match d with
  | Decimal.Nil => []
  | Decimal.D0 d' => 48%N :: digits d'
  | Decimal.D1 d' => 49%N :: digits d'
  | Decimal.D2 d' => 50%N :: digits d'
  | Decimal.D3 d' => 51%N :: digits d'
  | Decimal.D4 d' => 52%N :: digits d'
  | Decimal.D5 d' => 53%N :: digits d'
  | Decimal.D6 d' => 54%N :: digits d'
  | Decimal.D7 d' => 55%N :: digits d'
  | Decimal.D8 d' => 56%N :: digits d'
  | Decimal.D9 d' => 57%N :: digits d'
  end.

Definition str_of_nat (n : nat) : str := digits (Nat.to_uint n).

(** [s.splitlines(keepends=True)] restricted to the line feed, which is how
    [f.readlines()] cuts a text file opened with universal newlines: every
    line keeps its terminator, the last one may lack it. *)
Fixpoint readlines_acc (cur : str) (s : str) : list str :=
  match s with
  | [] => match cur with [] => [] | _ => [rev cur] end
  | c :: s' =>
      if N.eqb c 10 then rev (c :: cur) :: readlines_acc [] s'
      else readlines_acc (c :: cur) s'
  end.

Definition readlines (content : str) : list str := readlines_acc [] content.

(** [os.path.dirname] (posixpath):
    [i = p.rfind('/') + 1; head = p[:i];
     if head and head != '/'*len(head): head = head.rstrip('/')]. *)
Definition os_path_dirname (p : str) : str :=
  let sep := lit "/" in
  let i := rfind p sep 0 + 1 in
  let head := slice_to p i in
  if negb (forallb (N.eqb 47) head) then rstrip_chars head sep else head.

End Py.

Import Py.

(* ====================================================================== *)
(** ** Exceptions, collaborators and the effect monad *)
(* ====================================================================== *)

Definition token := Z.

(** The exceptions the program meets: those its own statements raise or
    catch, and [OtherError] for whatever a collaborator raises. *)
Inductive exn : Type :=
| EOFError
| FileNotFoundError
| IndexError
| UnicodeEncodeError
| OtherError (code : N).

Inductive outcome (A : Type) : Type :=
| Ok (a : A)
| Raise (e : exn).
Arguments Ok {A} a.
Arguments Raise {A} e.

(** The [generation_config] dictionary; the decimal literals are kept as
    fractions. *)
Record GenerationConfig := {
  max_new_tokens : Z;
  temperature : QArith_base.Q;
  top_k : Z;
  top_p : QArith_base.Q;
  do_sample : bool;
  num_beams : Z;
  repetition_penalty : QArith_base.Q
}.

(** The tokenizer capability: [tokenizer(prompt).input_ids],
    [tokenizer.decode(ids, skip_special_tokens=False)] and
    [tokenizer.eos_token]. *)
Record Tokenizer := {
  input_ids_of : str -> list token;
  decode : list token -> str;
  eos_token : str
}.

(** The model capability: [model.generate] on a batch of one sequence
    returns the output sequence or raises; sampling ([do_sample=True])
    reads and advances the generator state [RNG]. *)
Record Model (RNG : Type) := {
  generate : list token -> GenerationConfig -> RNG ->
             outcome (list token) * RNG
}.
Arguments generate {RNG} _ _ _ _.

(** Modelled from the spec: the class [Conversation] is declared in
    [supervised_finetuning], which is not among the sources.  The program
    reads [conv.roles[0]], [conv.roles[1]] and [conv.messages[-1][-1]]; the
    spec gives a conversation a template identifier, two role labels and
    the ordered message history, a list of [[role, content]] pairs. *)
Record Conversation := {
  name : str;
  roles : str * str;
  messages : list (str * str)
}.

(** Modelled from the spec: [get_conv_template] and
    [Conversation.get_prompt] are defined in [supervised_finetuning], which
    is not among the sources, and are taken as parameters.  By the spec the
    lookup by name fails on an unknown name and otherwise gives a
    conversation that no other session or example shares, and the rendering
    is a function of the conversation alone. *)
Record Templates := {
  get_conv_template : str -> outcome Conversation;
  get_prompt : Conversation -> str
}.

(** Modelled from the spec: [Conversation.append_message] lives in
    [supervised_finetuning], which is not among the sources; the spec has
    it add the message at the end of the sequence, with no validation. *)
Definition append_message (conv : Conversation) (role message : str)
  : Conversation :=
  {| name := name conv;
     roles := roles conv;
     messages := messages conv ++ [(role, message)] |}.

(** One entry of [results]. *)
Record PredictionRecord := { Input : str; Output : str }.

(** What the file system answers: the decoded text of a file opened for
    reading, the error, if any, of creating a directory with a non-empty
    name or of opening a file for writing, and which characters beyond
    ASCII the encoding of the locale can write ([open(path, 'w')] names no
    encoding, so the predictions file gets that one). *)
Record Env := {
  fs_read : str -> outcome str;
  fs_makedirs : str -> option exn;
  fs_open_w : str -> option exn;
  fs_encodable : char -> bool
}.

(** Every call on the outside world, in the order it happens. *)
Inductive Event : Type :=
| EvTokenize (prompt : str)
| EvGenerate (input_ids : list token) (config : GenerationConfig)
| EvDecode (ids : list token)
| EvStdout (text : str)
| EvInput (prompt : str)
| EvOpenR (path : str)
| EvMakedirs (dirname : str)
| EvOpenW (path : str)
| EvJsonDump (path : str) (results : list PredictionRecord).
(* [EvJsonDump] records the call of [json.dump], whether it completes or
   not. *)

Record World (RNG : Type) := {
  rng : RNG;
  stdin : list str;
  log : list Event
}.
Arguments rng {RNG} _.
Arguments stdin {RNG} _.
Arguments log {RNG} _.

Definition M (RNG A : Type) : Type := World RNG -> outcome A * World RNG.

Definition ret {RNG A : Type} (a : A) : M RNG A := fun w => (Ok a, w).

Definition raise {RNG A : Type} (e : exn) : M RNG A := fun w => (Raise e, w).

Definition bind {RNG A B : Type} (m : M RNG A) (k : A -> M RNG B) : M RNG B :=
  fun w =>
    match m w with
    | (Ok a, w') => k a w'
    | (Raise e, w') => (Raise e, w')
    end.

Notation "x <- m ;; k" := (bind m (fun x => k))
  (at level 61, m at next level, right associativity).
Notation "m ;; k" := (bind m (fun _ => k))
  (at level 61, right associativity).

(** [try: m  except <the exceptions h accepts>: h e] *)
Definition try_except {RNG A : Type} (m : M RNG A)
  (h : exn -> option (M RNG A)) : M RNG A :=
  fun w =>
    match m w with
    | (Ok a, w') => (Ok a, w')
    | (Raise e, w') =>
        match h e with
        | Some k => k w'
        | None => (Raise e, w')
        end
    end.

Definition emit {RNG : Type} (e : Event) : M RNG unit :=
  fun w => (Ok tt, {| rng := rng w; stdin := stdin w; log := log w ++ [e] |}).

Definition of_outcome {RNG A : Type} (o : outcome A) : M RNG A :=
  fun w => (o, w).

Definition of_error {RNG : Type} (o : option exn) : M RNG unit :=
  match o with
  | Some e => raise e
  | None => ret tt
  end.

(** What a loop body asks for: another iteration, or [break]. *)
Inductive ctl (S : Type) : Type :=
| Continue (s : S)
| Break (s : S).
Arguments Continue {S} s.
Arguments Break {S} s.

(** [while True: body], run for at most [fuel] iterations; [None] when the
    fuel runs out before the body breaks. *)
Fixpoint while_true {RNG S : Type} (fuel : nat) (body : S -> M RNG (ctl S))
  (s : S) : M RNG (option S) :=
  match fuel with
  | O => ret None
  | Datatypes.S fuel' =>
      c <- body s ;;
      match c with
      | Break s' => ret (Some s')
      | Continue s' => while_true fuel' body s'
      end
  end.

(** [print(text)] and [print(text, end="")] *)
Definition print {RNG : Type} (text : str) : M RNG unit :=
  emit (EvStdout (text ++ nl)).

Definition print_noend {RNG : Type} (text : str) : M RNG unit :=
  emit (EvStdout text).

(** [input(prompt)]: shows the prompt and reads one line, without its
    terminator; raises [EOFError] when the input is exhausted. *)
Definition input {RNG : Type} (prompt : str) : M RNG str :=
  emit (EvInput prompt) ;;
  fun w =>
    match stdin w with
    | [] => (Raise EOFError, w)
    | line :: rest =>
        (Ok line, {| rng := rng w; stdin := rest; log := log w |})
    end.

(* ====================================================================== *)
(** ** The program *)
(* ====================================================================== *)

(** The command-line arguments the modelled part of [main] reads. *)
Record Args := {
  template_name : str;
  data_file : option str;
  interactive : bool;
  predictions_file : str
}.

Section Program.

Variable RNG : Type.
Variable tokenizer : Tokenizer.
Variable model : Model RNG.
Variable templates : Templates.
Variable env : Env.

#[local] Abbreviation M := (M RNG).

(** *** Calls on the collaborators *)

(** [tokenizer(prompt).input_ids] *)
Definition tokenizer_call (prompt : str) : M (list token) :=
  emit (EvTokenize prompt) ;;
  ret (input_ids_of tokenizer prompt).

(** [tokenizer.decode(ids, skip_special_tokens=False)] *)
Definition tokenizer_decode (ids : list token) : M str :=
  emit (EvDecode ids) ;;
  ret (decode tokenizer ids).

(** [model.generate(input_ids=torch.as_tensor([input_ids]).to(device),
    **generation_config)[0]] *)
Definition model_generate (input_ids : list token) (config : GenerationConfig)
  : M (list token) :=
  emit (EvGenerate input_ids config) ;;
  fun w =>
    let (r, g) := generate model input_ids config (rng w) in
    (r, {| rng := g; stdin := stdin w; log := log w |}).

(** Text mode with universal newlines: a carriage return, alone or before
    a line feed, is read as a line feed. *)
Fixpoint universal_newlines (s : str) : str :=
  match s with
  | [] => []
  | c :: s' =>
      if N.eqb c 13 then
        match s' with
        | d :: _ => if N.eqb d 10 then universal_newlines s'
                    else 10%N :: universal_newlines s'
        | [] => [10%N]
        end
      else c :: universal_newlines s'
  end.

(** [with open(path, 'r') as f: f.readlines()] *)
Definition open_readlines (path : str) : M (list str) :=
  emit (EvOpenR path) ;;
  content <- of_outcome (fs_read env path) ;;
  ret (readlines (universal_newlines content)).

(** [os.makedirs(name, exist_ok=True)]: the empty name is no directory and
    cannot be created, [mkdir] fails on it with ENOENT and the error is
    raised again since [os.path.isdir('')] is false; any other name is up
    to the file system. *)
Definition os_makedirs (dirname : str) : M unit :=
  emit (EvMakedirs dirname) ;;
  match dirname with
  | [] => raise FileNotFoundError
  | _ :: _ => of_error (fs_makedirs env dirname)
  end.

(** [open(path, 'w')] *)
Definition open_w (path : str) : M unit :=
  emit (EvOpenW path) ;;
  of_error (fs_open_w env path).

(** A character the predictions file can take: ASCII always, any other
    one when the encoding of the file has it. *)
Definition encodable (c : char) : bool :=
  (c <? 128)%N || fs_encodable env c.

Definition writable_record (record : PredictionRecord) : bool :=
  forallb encodable (Input record) && forallb encodable (Output record).

(** [json.dump(results, f, ensure_ascii=False, indent=2)]: the document
    is the array of the records, in the order of [results].  With
    [ensure_ascii=False] what is not ASCII goes to the file as it is, and
    the call raises [UnicodeEncodeError] part-way, leaving the file
    incomplete, when the encoding of the file lacks one of these
    characters. *)
Definition json_dump (results : list PredictionRecord) (path : str) : M unit :=
  emit (EvJsonDump path results) ;;
  if forallb writable_record results then ret tt
  else raise UnicodeEncodeError.

(** [conv.messages[-1][-1] = content] *)
Definition set_last_content (conv : Conversation) (content : str)
  : M Conversation :=
  match rev (messages conv) with
  | [] => raise IndexError
  | (role, _) :: before =>
      ret {| name := name conv;
             roles := roles conv;
             messages := rev before ++ [(role, content)] |}
  end.

(** *** class SimpleChatIO *)

Definition prompt_for_input (role : str) : M str :=
  input (role ++ lit ": ").

Definition prompt_for_output (role : str) : M unit :=
  print_noend (role ++ lit ": ").

Definition stream_output (output_stream : str) : M str :=
  print output_stream ;;
  ret output_stream.

(** *** generate_answer *)

Definition default_context_len : Z := 2048.

Definition generate_answer (prompt : str) (context_len : Z) : M str :=
  let max_new_tokens := 400 in
  let generation_config :=
    {| max_new_tokens := max_new_tokens;
       temperature := QArith_base.Qmake 2 10;
       top_k := 40;
       top_p := QArith_base.Qmake 9 10;
       do_sample := true;
       num_beams := 1;
       repetition_penalty := QArith_base.Qmake 13 10 |} in
  input_ids <- tokenizer_call prompt ;;
  let max_src_len := context_len - max_new_tokens - 8 in
  let input_ids := slice_from input_ids (- max_src_len) in
  generation_output <- model_generate input_ids generation_config ;;
  let output_ids := generation_output in
  output <- tokenizer_decode output_ids ;;
  let stop_str := eos_token tokenizer in
  prompt_text <- tokenizer_decode input_ids ;;
  let l_prompt := len prompt_text in
  let pos := rfind output stop_str l_prompt in
  if negb (pos =? -1) then ret (slice output l_prompt pos)
  else ret (slice_from output l_prompt).

(** *** main: the examples *)

Definition builtin_examples : list str :=
  [ [20171; 32461; 19979; 21271; 20140]%N;
    [20057; 32925; 21644; 19993; 32925; 30340; 21306; 21035; 65311]%N ].

Fixpoint print_each (lines : list str) : M unit :=
  match lines with
  | [] => ret tt
  | example :: rest => print example ;; print_each rest
  end.

Definition load_examples (data_file : option str) : M (list str) :=
  match data_file with
  | None => ret builtin_examples
  | Some path =>
      lines <- open_readlines path ;;
      let examples := map strip lines in
      print (lit "first 10 examples:") ;;
      print_each (slice_to examples 10) ;;
      ret examples
  end.

(** *** main: interactive mode *)

Definition is_EOFError {A : Type} (k : M A) (e : exn) : option (M A) :=
  match e with
  | EOFError => Some k
  | _ => None
  end.

(** One pass through the body of [while True]. *)
Definition interactive_body (conv : Conversation) : M (ctl Conversation) :=
  inp <- try_except (prompt_for_input (fst (roles conv)))
                    (is_EOFError (ret [])) ;;
  match inp with
  | [] =>
      print (lit "exit...") ;;
      ret (Break conv)
  | _ :: _ =>
      let conv := append_message conv (fst (roles conv)) inp in
      let conv := append_message conv (snd (roles conv)) [] in
      let prompt := get_prompt templates conv in
      prompt_for_output (snd (roles conv)) ;;
      output <- generate_answer prompt default_context_len ;;
      outputs <- stream_output output ;;
      conv <- set_last_content conv (strip outputs) ;;
      ret (Continue conv)
  end.

Definition interactive_mode (fuel : nat) (template_name : str)
  : M (option Conversation) :=
  conv <- of_outcome (get_conv_template templates template_name) ;;
  print (lit "Start inference with interactive mode.") ;;
  while_true fuel interactive_body conv.

(** *** main: batch mode *)

(** [for index, example in enumerate(examples)], from [index] on, with the
    [results] collected so far. *)
Fixpoint batch_loop (template_name : str) (index : nat) (examples : list str)
  (results : list PredictionRecord) : M (list PredictionRecord) :=
  match examples with
  | [] => ret results
  | example :: rest =>
      conv <- of_outcome (get_conv_template templates template_name) ;;
      let conv := append_message conv (fst (roles conv)) example in
      let conv := append_message conv (snd (roles conv)) [] in
      let prompt := get_prompt templates conv in
      response <- generate_answer prompt default_context_len ;;
      print (lit "=======" ++ str_of_nat index ++ lit "=======") ;;
      print (lit "Input: " ++ example ++ nl) ;;
      print (lit "Output: " ++ response ++ nl) ;;
      batch_loop template_name (S index) rest
        (results ++ [{| Input := prompt; Output := response |}])
  end.

Definition batch_mode (template_name : str) (examples : list str)
  (predictions_file : str) : M unit :=
  print (lit "Start inference.") ;;
  results <- batch_loop template_name 0 examples [] ;;
  let dirname := os_path_dirname predictions_file in
  os_makedirs dirname ;;
  open_w predictions_file ;;
  json_dump results predictions_file.

(** *** main, from the examples on *)

(** [None] when the fuel of the interactive loop runs out. *)
Definition main (fuel : nat) (args : Args) : M (option unit) :=
  examples <- load_examples (data_file args) ;;
  if interactive args then
    r <- interactive_mode fuel (template_name args) ;;
    ret (option_map (fun _ => tt) r)
  else
    batch_mode (template_name args) examples (predictions_file args) ;;
    ret (Some tt).

End Program.

Arguments generate_answer {RNG} tokenizer model prompt context_len _.
Arguments load_examples {RNG} env data_file _.
Arguments interactive_body {RNG} tokenizer model templates conv _.
Arguments interactive_mode {RNG} tokenizer model templates fuel template_name _.
Arguments batch_loop {RNG} tokenizer model templates template_name index
  examples results _.
Arguments batch_mode {RNG} tokenizer model templates env template_name
  examples predictions_file _.
Arguments main {RNG} tokenizer model templates env fuel args _.
Arguments set_last_content {RNG} conv content _.
Arguments os_makedirs {RNG} env dirname _.
Arguments open_readlines {RNG} env path _.

(* ====================================================================== *)
(** ** Vocabulary of the statements *)
(* ====================================================================== *)

(** The configuration [generate_answer] hands to [model.generate]. *)
Definition answer_config : GenerationConfig :=
  {| max_new_tokens := 400;
     temperature := QArith_base.Qmake 2 10;
     top_k := 40;
     top_p := QArith_base.Qmake 9 10;
     do_sample := true;
     num_beams := 1;
     repetition_penalty := QArith_base.Qmake 13 10 |}.

(** Lines 68 to 72 of the source on their own: the continuation cut out
    of the decoded [output]. *)
Definition continuation (output stop_str : str) (l_prompt : Z) : str :=
  let pos := rfind output stop_str l_prompt in
  if negb (pos =? -1) then slice output l_prompt pos
  else slice_from output l_prompt.

(** [sub] occurs in [s] at position [p]: [s[p:p+len(sub)] == sub] with
    [0 <= p] and [p + len(sub) <= len(s)]. *)
Definition occurs_at (sub s : str) (p : Z) : Prop :=
  exists before after, s = before ++ sub ++ after /\ len before = p.

(** [sub] is a substring of [s]. *)
Definition substring (sub s : str) : Prop :=
  exists before after, s = before ++ sub ++ after.

(** The token sequences passed to [model.generate], call after call. *)
Fixpoint generate_calls (events : list Event) : list (list token) :=
  match events with
  | [] => []
  | EvGenerate ids _ :: rest => ids :: generate_calls rest
  | _ :: rest => generate_calls rest
  end.

(** The prompts passed to the tokenizer, call after call. *)
Fixpoint tokenize_calls (events : list Event) : list str :=
  match events with
  | [] => []
  | EvTokenize prompt :: rest => prompt :: tokenize_calls rest
  | _ :: rest => tokenize_calls rest
  end.

(** The files opened for writing, and the documents dumped. *)
Fixpoint opened_for_writing (events : list Event) : list str :=
  match events with
  | [] => []
  | EvOpenW path :: rest => path :: opened_for_writing rest
  | _ :: rest => opened_for_writing rest
  end.

Fixpoint dumped (events : list Event) : list (list PredictionRecord) :=
  match events with
  | [] => []
  | EvJsonDump _ results :: rest => results :: dumped rest
  | _ :: rest => dumped rest
  end.

(** The token budget of [generate_answer], whose [max_new_tokens] is 400. *)
Definition max_src_len (context_len : Z) : Z := context_len - 400 - 8.

(** The token sequence [generate_answer] keeps of the tokenized prompt. *)
Definition bounded_ids (tokenizer : Tokenizer) (prompt : str) (context_len : Z)
  : list token :=
  slice_from (input_ids_of tokenizer prompt) (- max_src_len context_len).

(** The world after some more events. *)
Definition logged {RNG : Type} (w : World RNG) (events : list Event)
  : World RNG :=
  {| rng := rng w; stdin := stdin w; log := log w ++ events |}.

(** A model whose [generate] always returns. *)
Definition never_raises {RNG : Type} (model : Model RNG) : Prop :=
  forall ids config g, exists out g',
    generate model ids config g = (Ok out, g').

(** The prompt rendered for one example or one line of input: the user
    message and the empty assistant message appended to [conv]. *)
Definition turn_prompt (templates : Templates) (conv : Conversation)
  (text : str) : str :=
  get_prompt templates
    (append_message (append_message conv (fst (roles conv)) text)
       (snd (roles conv)) []).

(** [s] neither starts nor ends with a whitespace character. *)
Definition trimmed (s : str) : Prop :=
  (forall c rest, s = c :: rest -> isspace c = false)
  /\ (forall front c, s = front ++ [c] -> isspace c = false).

(** The records batch mode keeps of [examples] when the model is in state
    [g] at the first of them: for each example in turn, the rendered
    prompt and the continuation that [generate_answer] returns for it in
    the state the model is in by then, as returned. *)
Inductive records_from {RNG : Type} (tokenizer : Tokenizer)
  (model : Model RNG) (templates : Templates) (conv : Conversation)
  : RNG -> list str -> list PredictionRecord -> Prop :=
| records_none (g : RNG) :
    records_from tokenizer model templates conv g [] []
| records_next (g g' : RNG) (example : str) (rest : list str)
    (response : str) (records : list PredictionRecord) :
    (forall w : World RNG,
        rng w = g ->
        fst (generate_answer tokenizer model
               (turn_prompt templates conv example) default_context_len w)
        = Ok response
        /\ rng (snd (generate_answer tokenizer model
                       (turn_prompt templates conv example)
                       default_context_len w)) = g') ->
    records_from tokenizer model templates conv g' rest records ->
    records_from tokenizer model templates conv g (example :: rest)
      ({| Input := turn_prompt templates conv example;
          Output := response |} :: records).

(** [stored] is [text] without its leading and trailing whitespace:
    whitespace only was taken away, at the two ends, and none is left
    there. *)
Definition stripped_of (text stored : str) : Prop :=
  trimmed stored
  /\ exists leading trailing,
      text = leading ++ stored ++ trailing
      /\ Forall (fun c => isspace c = true) leading
      /\ Forall (fun c => isspace c = true) trailing.

(** The input is over, or its next line is empty. *)
Definition input_ends (lines : list str) : Prop :=
  lines = [] \/ exists rest, lines = [] :: rest.

(** The conversation after one turn: the user message and the reply. *)
Definition after_turn (conv : Conversation) (inp reply : str) : Conversation :=
  {| name := name conv;
     roles := roles conv;
     messages := messages conv
                 ++ [(fst (roles conv), inp); (snd (roles conv), reply)] |}.

(** The lines of a text: each runs up to and including the next line
    feed; what follows the last line feed, if anything, is a line too. *)
Inductive lines_of : str -> list str -> Prop :=
| lines_none : lines_of [] []
| lines_last (body : str) :
    body <> [] -> ~ In 10%N body -> lines_of body [body]
| lines_more (body rest : str) (lines : list str) :
    ~ In 10%N body -> lines_of rest lines ->
    lines_of (body ++ nl ++ rest) ((body ++ nl) :: lines).

(** A line that is not empty: something is left of it once stripped. *)
Definition nonblank (line : str) : bool :=
  match strip line with
  | [] => false
  | _ :: _ => true
  end.

(** Modelled on the words of the spec, to compare with [load_examples]:
    one example per non-empty line, stripped. *)
Definition examples_of_nonempty_lines (content : str) : list str :=
  map strip (filter nonblank (readlines content)).

(** The messages a session adds to the history of [conv] for [lines]
    answered by [replies]: for each line the user message, then the
    assistant message. *)
Definition turns (conv : Conversation) (lines replies : list str)
  : list (str * str) :=
  flat_map (fun turn => [(fst (roles conv), fst turn);
                         (snd (roles conv), snd turn)])
    (combine lines replies).

(** The prompts shown by [input], call after call. *)
Fixpoint input_calls (events : list Event) : list str :=
  match events with
  | [] => []
  | EvInput prompt :: rest => prompt :: input_calls rest
  | _ :: rest => input_calls rest
  end.

(** The directories [os.makedirs] was asked for. *)
Fixpoint makedirs_calls (events : list Event) : list str :=
  match events with
  | [] => []
  | EvMakedirs dirname :: rest => dirname :: makedirs_calls rest
  | _ :: rest => makedirs_calls rest
  end.

(** Whatever the outcome, the action only adds events that satisfy [P]
    to the log. *)
Definition only_events {RNG A : Type} (P : Event -> Prop) (m : M RNG A)
  : Prop :=
  forall w, exists events,
    log (snd (m w)) = log w ++ events /\ Forall P events.

(** Whatever the outcome, the action reads nothing from the input. *)
Definition keeps_stdin {RNG A : Type} (m : M RNG A) : Prop :=
  forall w, stdin (snd (m w)) = stdin w.

(** The events of one call of [generate_answer] with the default context
    length, and of what batch mode prints around it: the model is only
    called with the fixed configuration and at most 1640 tokens. *)
Definition body_event (e : Event) : Prop :=
  match e with
  | EvTokenize _ | EvDecode _ | EvStdout _ => True
  | EvGenerate ids config => len ids <= 1640 /\ config = answer_config
  | _ => False
  end.

(** The events of a session: those of a turn, and reading a line. *)
Definition session_event (e : Event) : Prop :=
  match e with
  | EvInput _ => True
  | _ => body_event e
  end.

(** The events of loading the examples. *)
Definition load_event (e : Event) : Prop :=
  match e with
  | EvOpenR _ | EvStdout _ => True
  | _ => False
  end.

(** The events of writing the predictions. *)
Definition write_event (e : Event) : Prop :=
  match e with
  | EvMakedirs _ | EvOpenW _ | EvJsonDump _ _ => True
  | _ => False
  end.

(** A call of the model within the budget of the default context
    length, with the fixed configuration. *)
Definition within_budget (e : Event) : Prop :=
  match e with
  | EvGenerate ids config => len ids <= 1640 /\ config = answer_config
  | _ => True
  end.

(** No directory made, no file opened for writing, nothing dumped. *)
Definition writes_nothing (e : Event) : Prop :=
  match e with
  | EvMakedirs _ | EvOpenW _ | EvJsonDump _ _ => False
  | _ => True
  end.

(** No line asked from the input. *)
Definition asks_nothing (e : Event) : Prop :=
  match e with
  | EvInput _ => False
  | _ => True
  end.

(** The prompts of a session on [lines] answered by [replies]: each one
    is rendered from the conversation as the turns before it left it. *)
Fixpoint session_prompts (templates : Templates) (conv : Conversation)
  (lines replies : list str) : list str :=
  match lines, replies with
  | line :: lines', reply :: replies' =>
      turn_prompt templates conv line
      :: session_prompts templates (after_turn conv line reply) lines'
           replies'
  | _, _ => []
  end.

(* ====================================================================== *)
(** ** Stand-in collaborators, for running the program on examples *)
(* ====================================================================== *)

Module Fake.

(** One token per character. *)
Definition tokenizer (eos : str) : Tokenizer :=
  {| input_ids_of := map Z.of_N;
     decode := map Z.to_N;
     eos_token := eos |}.

(** A model that appends the tokens of a fixed [reply] to its input and
    counts its calls. *)
Definition model (reply : str) : Model nat :=
  {| generate := fun ids _ calls => (Ok (ids ++ map Z.of_N reply), S calls) |}.

(** A model that always fails. *)
Definition broken_model : Model nat :=
  {| generate := fun _ _ calls => (Raise (OtherError 1), S calls) |}.

Fixpoint render (msgs : list (str * str)) : str :=
  match msgs with
  | [] => []
  | (role, content) :: rest =>
      role ++ lit ": " ++ content ++ lit " " ++ render rest
  end.

Definition fresh (name : str) : Conversation :=
  {| name := name;
     roles := (lit "USER", lit "ASSISTANT");
     messages := [] |}.

Definition templates : Templates :=
  {| get_conv_template := fun name => Ok (fresh name);
     get_prompt := fun conv => render (messages conv) |}.

(** A file system holding one data file, [content], under every name,
    with an encoding that has every character. *)
Definition env (content : str) : Env :=
  {| fs_read := fun _ => Ok content;
     fs_makedirs := fun _ => None;
     fs_open_w := fun _ => None;
     fs_encodable := fun _ => true |}.

(** The same under an ASCII locale. *)
Definition ascii_env (content : str) : Env :=
  {| fs_read := fun _ => Ok content;
     fs_makedirs := fun _ => None;
     fs_open_w := fun _ => None;
     fs_encodable := fun _ => false |}.

Definition world (lines : list str) : World nat :=
  {| rng := O; stdin := lines; log := [] |}.

End Fake.

(* ====================================================================== *)
(** ** The built-ins on examples *)
(* ====================================================================== *)

Example slice_neg0 : slice_from [1; 2; 3] (- 0) = [1; 2; 3].
Proof. reflexivity. Qed.
Example slice_neg5 : slice_from [1; 2; 3] (- 5) = [1; 2; 3].
Proof. reflexivity. Qed.
Example slice_neg2 : slice_from [1; 2; 3] (- 2) = [2; 3].
Proof. reflexivity. Qed.
Example slice_pos5 : slice_from [1; 2; 3] 5 = [].
Proof. reflexivity. Qed.
Example rfind_overlap : rfind (lit "aaa") (lit "aa") 0 = 1.
Proof. reflexivity. Qed.
Example rfind_empty_in : rfind (lit "abc") [] 1 = 3.
Proof. reflexivity. Qed.
Example rfind_empty_out : rfind (lit "abc") [] 4 = -1.
Proof. reflexivity. Qed.
Example rfind_negstart : rfind (lit "abc") (lit "c") (-1) = 2.
Proof. reflexivity. Qed.
Example dirname_plain : os_path_dirname (lit "predictions.json") = [].
Proof. reflexivity. Qed.
Example dirname_dot : os_path_dirname (lit "./predictions.json") = lit ".".
Proof. reflexivity. Qed.
Example dirname_root : os_path_dirname (lit "//a") = lit "//".
Proof. reflexivity. Qed.
Example dirname_nested : os_path_dirname (lit "a//b") = lit "a".
Proof. reflexivity. Qed.
Example strip_ex : strip (lit " stubbed reply") = lit "stubbed reply".
Proof. reflexivity. Qed.
Example readlines_ex :
  readlines (lit "a" ++ nl ++ lit "b") = [lit "a" ++ nl; lit "b"].
Proof. reflexivity. Qed.
Example str_of_nat_ex : str_of_nat 12 = lit "12".
Proof. reflexivity. Qed.

(* ====================================================================== *)
(** ** Slices *)
(* ====================================================================== *)

Lemma len_nonneg {A : Type} (l : list A) : 0 <= len l.
Proof. unfold len. lia. Qed.

Lemma len_app {A : Type} (l1 l2 : list A) : len (l1 ++ l2) = len l1 + len l2.
Proof. unfold len. rewrite length_app. lia. Qed.

(** [l[-n:]] for a positive [n] drops all but the last [n] elements. *)
Lemma slice_from_neg {A : Type} (l : list A) (n : Z) :
  0 < n -> slice_from l (- n) = skipn (length l - Z.to_nat n) l.
Proof.
  intros Hn. unfold slice_from, adjust, len.
  destruct (Z.ltb_spec (- n) 0) as [_ | H]; [| lia].
  f_equal. lia.
Qed.

(** [l[-0:]] is [l[0:]], the whole list. *)
Lemma slice_from_zero {A : Type} (l : list A) : slice_from l (- 0) = l.
Proof.
  unfold slice_from, adjust. cbn. rewrite Z.min_l by apply len_nonneg.
  reflexivity.
Qed.

(** [l[k:]] for [k >= 0] drops the first [k] elements. *)
Lemma slice_from_nonneg {A : Type} (l : list A) (k : Z) :
  0 <= k -> slice_from l k = skipn (Z.to_nat k) l.
Proof.
  intros Hk. unfold slice_from, adjust, len.
  destruct (Z.ltb_spec k 0) as [H | _]; [lia |].
  destruct (Z.le_gt_cases k (Z.of_nat (length l))) as [Hle | Hgt].
  - rewrite Z.min_l by lia. reflexivity.
  - rewrite Z.min_r by lia. rewrite Nat2Z.id.
    rewrite skipn_all. symmetry. apply skipn_all2. lia.
Qed.

Lemma slice_nonneg {A : Type} (l : list A) (lo hi : Z) :
  0 <= lo <= hi -> hi <= len l ->
  slice l lo hi = firstn (Z.to_nat (hi - lo)) (skipn (Z.to_nat lo) l).
Proof.
  intros Hlo Hhi. unfold slice, adjust.
  destruct (Z.ltb_spec lo 0); [lia |].
  destruct (Z.ltb_spec hi 0); [lia |].
  rewrite !Z.min_l by lia. reflexivity.
Qed.

(* ====================================================================== *)
(** ** Reading the log *)
(* ====================================================================== *)

Lemma generate_calls_app (l1 l2 : list Event) :
  generate_calls (l1 ++ l2) = generate_calls l1 ++ generate_calls l2.
Proof.
  induction l1 as [| e l1 IH]; [reflexivity |].
  destruct e; cbn; rewrite IH; reflexivity.
Qed.

Lemma tokenize_calls_app (l1 l2 : list Event) :
  tokenize_calls (l1 ++ l2) = tokenize_calls l1 ++ tokenize_calls l2.
Proof.
  induction l1 as [| e l1 IH]; [reflexivity |].
  destruct e; cbn; rewrite IH; reflexivity.
Qed.

Lemma opened_for_writing_app (l1 l2 : list Event) :
  opened_for_writing (l1 ++ l2) = opened_for_writing l1 ++ opened_for_writing l2.
Proof.
  induction l1 as [| e l1 IH]; [reflexivity |].
  destruct e; cbn; rewrite IH; reflexivity.
Qed.

Lemma dumped_app (l1 l2 : list Event) :
  dumped (l1 ++ l2) = dumped l1 ++ dumped l2.
Proof.
  induction l1 as [| e l1 IH]; [reflexivity |].
  destruct e; cbn; rewrite IH; reflexivity.
Qed.

(* ====================================================================== *)
(** ** One run of generate_answer *)
(* ====================================================================== *)

(** The whole of [generate_answer] in one equation: the prompt is
    tokenized, the kept tokens go to the model, and either the model
    raises, which ends the call, or both decodings follow and the
    continuation is returned. *)
Lemma generate_answer_run {RNG : Type} (tokenizer : Tokenizer)
  (model : Model RNG) (prompt : str) (context_len : Z) (w : World RNG) :
  generate_answer tokenizer model prompt context_len w =
  let ids := bounded_ids tokenizer prompt context_len in
  match generate model ids answer_config (rng w) with
  | (Ok out, g) =>
      (Ok (continuation (decode tokenizer out) (eos_token tokenizer)
             (len (decode tokenizer ids))),
       {| rng := g; stdin := stdin w;
          log := log w ++ [EvTokenize prompt; EvGenerate ids answer_config;
                           EvDecode out; EvDecode ids] |})
  | (Raise e, g) =>
      (Raise e,
       {| rng := g; stdin := stdin w;
          log := log w ++ [EvTokenize prompt; EvGenerate ids answer_config] |})
  end.
Proof.
  unfold generate_answer, tokenizer_call, model_generate, tokenizer_decode,
    bind, emit, ret. cbn.
  fold answer_config. fold (bounded_ids tokenizer prompt context_len).
  destruct (generate model _ answer_config (rng w)) as [[out | e] g]; cbn.
  - unfold continuation. rewrite <- !app_assoc. cbn.
    destruct (negb _); reflexivity.
  - rewrite <- !app_assoc. reflexivity.
Qed.

Lemma generate_answer_calls {RNG : Type} (tokenizer : Tokenizer)
  (model : Model RNG) (prompt : str) (context_len : Z) (w : World RNG) :
  generate_calls (log (snd (generate_answer tokenizer model prompt context_len w)))
  = generate_calls (log w) ++ [bounded_ids tokenizer prompt context_len]
  /\ tokenize_calls (log (snd (generate_answer tokenizer model prompt context_len w)))
     = tokenize_calls (log w) ++ [prompt].
Proof.
  rewrite generate_answer_run. cbv zeta.
  destruct (generate model _ answer_config (rng w)) as [[out | e] g]; cbn;
    rewrite generate_calls_app, tokenize_calls_app; split; reflexivity.
Qed.

Lemma generate_answer_raises {RNG : Type} (tokenizer : Tokenizer)
  (model : Model RNG) (prompt : str) (context_len : Z) (w : World RNG)
  (e : exn) :
  fst (generate_answer tokenizer model prompt context_len w) = Raise e <->
  fst (generate model (bounded_ids tokenizer prompt context_len)
         answer_config (rng w)) = Raise e.
Proof.
  rewrite generate_answer_run. cbv zeta.
  destruct (generate model _ answer_config (rng w)) as [[out | e'] g]; cbn;
    split; intros H; try discriminate; injection H as ->; reflexivity.
Qed.

(* ====================================================================== *)
(** ** The bounded prompt *)
(* ====================================================================== *)

(** C1.  With a positive budget [max_src_len = context_len - 400 - 8],
    [generate_answer] calls [model.generate] once, on the last
    [max_src_len] tokens of the tokenized prompt when there are more than
    that, and on the whole tokenization otherwise. *)
Theorem generate_answer_truncates_left {RNG : Type} (tokenizer : Tokenizer)
  (model : Model RNG) (prompt : str) (context_len : Z) (w : World RNG) :
  0 < max_src_len context_len ->
  exists passed,
    generate_calls
      (log (snd (generate_answer tokenizer model prompt context_len w)))
    = generate_calls (log w) ++ [passed]
    /\ (max_src_len context_len < len (input_ids_of tokenizer prompt) ->
        len passed = max_src_len context_len
        /\ exists dropped, input_ids_of tokenizer prompt = dropped ++ passed)
    /\ (len (input_ids_of tokenizer prompt) <= max_src_len context_len ->
        passed = input_ids_of tokenizer prompt).
Proof.
  intros Hpos. exists (bounded_ids tokenizer prompt context_len).
  split; [apply generate_answer_calls |].
  unfold bounded_ids. rewrite slice_from_neg by exact Hpos.
  set (full := input_ids_of tokenizer prompt).
  set (n := max_src_len context_len) in *.
  split.
  - intros Hlong. unfold len in *. split.
    + rewrite length_skipn. lia.
    + exists (firstn (length full - Z.to_nat n) full).
      symmetry. apply firstn_skipn.
  - intros Hshort. unfold len in Hshort.
    replace (length full - Z.to_nat n)%nat with 0%nat by lia.
    reflexivity.
Qed.

Lemma generate_answer_truncates_left_witness :
  0 < max_src_len 410 /\
  exists passed,
    generate_calls
      (log (snd (generate_answer (Fake.tokenizer (lit "</s>"))
                   (Fake.model (lit " reply</s>")) (lit "hello") 410
                   (Fake.world []))))
    = generate_calls (log (Fake.world [])) ++ [passed]
    /\ (max_src_len 410
        < len (input_ids_of (Fake.tokenizer (lit "</s>")) (lit "hello")) ->
        len passed = max_src_len 410
        /\ exists dropped,
            input_ids_of (Fake.tokenizer (lit "</s>")) (lit "hello")
            = dropped ++ passed)
    /\ (len (input_ids_of (Fake.tokenizer (lit "</s>")) (lit "hello"))
        <= max_src_len 410 ->
        passed = input_ids_of (Fake.tokenizer (lit "</s>")) (lit "hello")).
Proof.
  split.
  - reflexivity.
  - apply (generate_answer_truncates_left (Fake.tokenizer (lit "</s>"))
             (Fake.model (lit " reply</s>")) (lit "hello") 410 (Fake.world [])).
    reflexivity.
Defined.

(** C9.  With [context_len = 408] the budget is exactly 0; the slice
    [input_ids[-0:]] is the whole tokenization, which goes to the model
    untruncated, so more tokens than the budget are passed whenever the
    tokenization is not empty; [generate_answer] raises nothing of its own,
    only what [model.generate] raises on that input. *)
Theorem generate_answer_zero_budget {RNG : Type} (tokenizer : Tokenizer)
  (model : Model RNG) (prompt : str) (w : World RNG) :
  max_src_len 408 = 0
  /\ generate_calls
       (log (snd (generate_answer tokenizer model prompt 408 w)))
     = generate_calls (log w) ++ [input_ids_of tokenizer prompt]
  /\ (input_ids_of tokenizer prompt <> [] ->
      max_src_len 408 < len (input_ids_of tokenizer prompt))
  /\ (forall e,
        fst (generate_answer tokenizer model prompt 408 w) = Raise e <->
        fst (generate model (input_ids_of tokenizer prompt) answer_config
               (rng w)) = Raise e).
Proof.
  assert (Hids : bounded_ids tokenizer prompt 408 = input_ids_of tokenizer prompt).
  { unfold bounded_ids. change (max_src_len 408) with 0.
    apply slice_from_zero. }
  split; [reflexivity |]. split; [| split].
  - rewrite <- Hids. apply generate_answer_calls.
  - intros Hne. change (max_src_len 408) with 0. unfold len.
    destruct (input_ids_of tokenizer prompt); [congruence | cbn; lia].
  - intros e. rewrite <- Hids. apply generate_answer_raises.
Qed.

(** C3, as the spec has it, fails: with [context_len = 100] the budget is
    negative, and yet the prompt is tokenized, the model is called and the
    call returns. *)
Lemma no_configuration_guard_at_100 :
  max_src_len 100 <= 0
  /\ fst (generate_answer (Fake.tokenizer (lit "</s>"))
            (Fake.model (lit " reply</s>")) (lit "hello") 100 (Fake.world []))
     = Ok (lit " reply")
  /\ tokenize_calls
       (log (snd (generate_answer (Fake.tokenizer (lit "</s>"))
                    (Fake.model (lit " reply</s>")) (lit "hello") 100
                    (Fake.world []))))
     = [lit "hello"]
  /\ generate_calls
       (log (snd (generate_answer (Fake.tokenizer (lit "</s>"))
                    (Fake.model (lit " reply</s>")) (lit "hello") 100
                    (Fake.world []))))
     = [[]].
Proof. repeat split; vm_compute; congruence. Qed.

(** C3, amended.  There is no guard on the budget: also when
    [context_len - 400 - 8 <= 0] nothing is raised ahead of the calls, the
    prompt is tokenized and then [model.generate] is called. *)
Theorem generate_answer_unguarded {RNG : Type} (tokenizer : Tokenizer)
  (model : Model RNG) (prompt : str) (context_len : Z) (w : World RNG) :
  max_src_len context_len <= 0 ->
  exists passed later,
    log (snd (generate_answer tokenizer model prompt context_len w))
    = log w ++ EvTokenize prompt :: EvGenerate passed answer_config :: later.
Proof.
  intros _. exists (bounded_ids tokenizer prompt context_len).
  rewrite generate_answer_run. cbv zeta.
  destruct (generate model _ answer_config (rng w)) as [[out | e] g];
    eexists; reflexivity.
Qed.

Lemma generate_answer_unguarded_witness :
  max_src_len 100 <= 0
  /\ exists passed later,
      log (snd (generate_answer (Fake.tokenizer (lit "</s>"))
                  (Fake.model (lit " reply</s>")) (lit "hello") 100
                  (Fake.world [])))
      = log (Fake.world [])
        ++ EvTokenize (lit "hello") :: EvGenerate passed answer_config
           :: later.
Proof.
  split.
  - vm_compute. congruence.
  - apply (generate_answer_unguarded (Fake.tokenizer (lit "</s>"))
             (Fake.model (lit " reply</s>")) (lit "hello") 100
             (Fake.world [])).
    vm_compute. congruence.
Defined.

(* ====================================================================== *)
(** ** Searching from the right *)
(* ====================================================================== *)

Lemma startswith_iff (sub s : str) :
  startswith s sub = true <-> exists after, s = sub ++ after.
Proof.
  revert s. induction sub as [| c sub IH]; intros s.
  - destruct s; cbn; split; intros _; try reflexivity; eexists; reflexivity.
  - destruct s as [| d s]; cbn.
    + split; [discriminate | intros [after H]; discriminate].
    + rewrite andb_true_iff, N.eqb_eq, IH. split.
      * intros [-> [after ->]]. exists after. reflexivity.
      * intros [after H]. injection H as -> ->. split; [reflexivity |].
        exists after. reflexivity.
Qed.

(** An occurrence at a natural position, in terms of the test the scan
    performs. *)
Lemma occurs_at_nat (sub s : str) (i : nat) :
  occurs_at sub s (Z.of_nat i) <->
  (i <= length s)%nat /\ startswith (skipn i s) sub = true.
Proof.
  unfold occurs_at, len. split.
  - intros (before & after & -> & Hlen).
    apply Nat2Z.inj in Hlen. subst i. split.
    + rewrite length_app. lia.
    + rewrite skipn_app, skipn_all, Nat.sub_diag. cbn.
      apply startswith_iff. exists after. reflexivity.
  - intros [Hle Hsw]. apply startswith_iff in Hsw as [after Hafter].
    exists (firstn i s), after. split.
    + rewrite <- Hafter. symmetry. apply firstn_skipn.
    + rewrite length_firstn. lia.
Qed.

Lemma occurs_at_bounds (sub s : str) (p : Z) :
  occurs_at sub s p -> 0 <= p /\ p + len sub <= len s.
Proof.
  intros (before & after & -> & <-). rewrite !len_app.
  pose proof (len_nonneg before). pose proof (len_nonneg after). lia.
Qed.

Lemma rscan_some (s sub : str) (lo k i : nat) :
  rscan s sub lo k = Some i ->
  (lo <= i < lo + k)%nat
  /\ startswith (skipn i s) sub = true
  /\ forall j, (i < j < lo + k)%nat -> startswith (skipn j s) sub = false.
Proof.
  induction k as [| k IH]; cbn; [discriminate |].
  destruct (startswith (skipn (lo + k) s) sub) eqn:Hsw.
  - intros H. injection H as <-. split; [lia |]. split; [exact Hsw |].
    intros j Hj. lia.
  - intros H. destruct (IH H) as (Hi & Hok & Hmax).
    split; [lia |]. split; [exact Hok |].
    intros j Hj. destruct (Nat.eq_dec j (lo + k)) as [-> | Hne].
    + exact Hsw.
    + apply Hmax. lia.
Qed.

Lemma rscan_none (s sub : str) (lo k : nat) :
  rscan s sub lo k = None ->
  forall j, (lo <= j < lo + k)%nat -> startswith (skipn j s) sub = false.
Proof.
  induction k as [| k IH]; cbn; [intros _ j Hj; lia |].
  destruct (startswith (skipn (lo + k) s) sub) eqn:Hsw; [discriminate |].
  intros H j Hj. destruct (Nat.eq_dec j (lo + k)) as [-> | Hne].
  - exact Hsw.
  - apply IH; [exact H | lia].
Qed.

(** When [rfind] answers a position, it is the highest occurrence at or
    after [start]. *)
Lemma rfind_found (s sub : str) (start : Z) :
  0 <= start -> rfind s sub start <> -1 ->
  start <= rfind s sub start
  /\ occurs_at sub s (rfind s sub start)
  /\ forall q, start <= q -> occurs_at sub s q -> q <= rfind s sub start.
Proof.
  intros Hstart. unfold rfind.
  destruct (Z.ltb_spec start 0) as [? | _]; [lia |].
  destruct (Z.ltb_spec (len s - start) (len sub)) as [? | Hroom];
    [congruence |].
  destruct (rscan s sub (Z.to_nat start)
              (Z.to_nat (len s - start - len sub + 1))) as [i |] eqn:Hscan;
    [| congruence].
  intros _. apply rscan_some in Hscan as (Hi & Hsw & Hmax).
  unfold len in *. split; [lia |]. split.
  - apply occurs_at_nat. split; [lia | exact Hsw].
  - intros q Hq Hocc. destruct (Z.le_gt_cases q (Z.of_nat i)) as [? | Hgt];
      [assumption |].
    pose proof (occurs_at_bounds _ _ _ Hocc) as [Hq0 Hqn]. unfold len in Hqn.
    rewrite <- (Z2Nat.id q) in Hocc by lia.
    apply occurs_at_nat in Hocc as [_ Hsw'].
    rewrite Hmax in Hsw' by lia. discriminate.
Qed.

(** When [rfind] answers [-1], there is no occurrence at or after
    [start]. *)
Lemma rfind_none (s sub : str) (start : Z) :
  0 <= start -> rfind s sub start = -1 ->
  forall q, start <= q -> ~ occurs_at sub s q.
Proof.
  intros Hstart Hr q Hq Hocc.
  pose proof (occurs_at_bounds _ _ _ Hocc) as [Hq0 Hqn].
  unfold rfind in Hr.
  destruct (Z.ltb_spec start 0) as [? | _]; [lia |].
  destruct (Z.ltb_spec (len s - start) (len sub)) as [? | Hroom]; [lia |].
  destruct (rscan s sub (Z.to_nat start)
              (Z.to_nat (len s - start - len sub + 1))) as [i |] eqn:Hscan;
    [lia |].
  unfold len in *.
  rewrite <- (Z2Nat.id q) in Hocc by lia.
  apply occurs_at_nat in Hocc as [_ Hsw].
  rewrite (rscan_none _ _ _ _ Hscan) in Hsw by lia. discriminate.
Qed.

(* ====================================================================== *)
(** ** The continuation *)
(* ====================================================================== *)

Lemma cut_between (b rest : str) (l : nat) :
  (l <= length b)%nat ->
  firstn (length b - l) (skipn l (b ++ rest)) = skipn l b.
Proof.
  intros Hl. rewrite skipn_app.
  replace (l - length b)%nat with 0%nat by lia. cbn [skipn].
  rewrite firstn_app, length_skipn, Nat.sub_diag. cbn [firstn].
  rewrite app_nil_r. apply firstn_all2. rewrite length_skipn. lia.
Qed.

(** A marker at or after [l_prompt] is found exactly when [rfind] does not
    answer [-1]. *)
Lemma marker_found_iff (output stop_str : str) (l_prompt : Z) :
  0 <= l_prompt ->
  (exists p, l_prompt <= p /\ occurs_at stop_str output p) <->
  rfind output stop_str l_prompt <> -1.
Proof.
  intros Hl. split.
  - intros (p & Hp & Hocc) Hr. exact (rfind_none _ _ _ Hl Hr p Hp Hocc).
  - intros Hr. destruct (rfind_found _ _ _ Hl Hr) as (Hle & Hocc & _).
    eexists. split; eassumption.
Qed.

(** With a marker found at [pos], the continuation is the text between
    [l_prompt] and [pos], and the marker follows it. *)
Lemma continuation_between (output stop_str : str) (l_prompt : Z) :
  0 <= l_prompt -> rfind output stop_str l_prompt <> -1 ->
  exists before after,
    output = before ++ continuation output stop_str l_prompt
                    ++ stop_str ++ after
    /\ len before = l_prompt
    /\ len (before ++ continuation output stop_str l_prompt)
       = rfind output stop_str l_prompt.
Proof.
  intros Hl Hr. destruct (rfind_found _ _ _ Hl Hr) as (Hle & Hocc & _).
  unfold continuation.
  destruct (Z.eqb_spec (rfind output stop_str l_prompt) (-1)) as [? | _];
    [contradiction |]. cbn [negb].
  pose proof (occurs_at_bounds _ _ _ Hocc) as [_ Hend].
  pose proof (len_nonneg stop_str) as Hm.
  rewrite slice_nonneg by lia.
  destruct Hocc as (b & a & Hout & Hb).
  set (pos := rfind output stop_str l_prompt) in *.
  assert (Hcut : firstn (Z.to_nat (pos - l_prompt))
                   (skipn (Z.to_nat l_prompt) output)
                 = skipn (Z.to_nat l_prompt) b).
  { rewrite Hout. unfold len in Hb.
    replace (Z.to_nat (pos - l_prompt))
      with (length b - Z.to_nat l_prompt)%nat by lia.
    apply cut_between. lia. }
  rewrite Hcut. exists (firstn (Z.to_nat l_prompt) b), a.
  unfold len in *. split; [| split].
  - rewrite app_assoc, firstn_skipn. exact Hout.
  - rewrite length_firstn. lia.
  - rewrite firstn_skipn. exact Hb.
Qed.

(** With no marker found, the continuation is all the text from
    [l_prompt] on. *)
Lemma continuation_to_the_end (output stop_str : str) (l_prompt : Z) :
  0 <= l_prompt -> rfind output stop_str l_prompt = -1 ->
  continuation output stop_str l_prompt = skipn (Z.to_nat l_prompt) output.
Proof.
  intros Hl Hr. unfold continuation. rewrite Hr. cbn.
  apply slice_from_nonneg. exact Hl.
Qed.

(** What [generate_answer] returns when the model returns. *)
Lemma generate_answer_returns {RNG : Type} (tokenizer : Tokenizer)
  (model : Model RNG) (prompt : str) (context_len : Z) (w : World RNG)
  (out : list token) (g : RNG) :
  generate model (bounded_ids tokenizer prompt context_len) answer_config
    (rng w) = (Ok out, g) ->
  fst (generate_answer tokenizer model prompt context_len w)
  = Ok (continuation (decode tokenizer out) (eos_token tokenizer)
          (len (decode tokenizer (bounded_ids tokenizer prompt context_len)))).
Proof.
  intros Hgen. rewrite generate_answer_run. cbv zeta. rewrite Hgen.
  reflexivity.
Qed.

(** C2.  When the model returns, [generate_answer] returns a text
    [result] of the decoded output such that: if the end-of-sequence
    marker occurs at or after [l_prompt], the length of the decoded input,
    then [result] starts at [l_prompt] and is followed at once by an
    occurrence of the marker, which it leaves out; if the marker occurs
    nowhere at or after [l_prompt], then [result] is everything from
    [l_prompt] to the end. *)
Theorem generate_answer_extracts_continuation {RNG : Type}
  (tokenizer : Tokenizer) (model : Model RNG) (prompt : str)
  (context_len : Z) (w : World RNG) (out : list token) (g : RNG) :
  generate model (bounded_ids tokenizer prompt context_len) answer_config
    (rng w) = (Ok out, g) ->
  exists result,
    fst (generate_answer tokenizer model prompt context_len w) = Ok result
    /\ ((exists p,
           len (decode tokenizer (bounded_ids tokenizer prompt context_len))
           <= p
           /\ occurs_at (eos_token tokenizer) (decode tokenizer out) p) ->
        exists before after,
          decode tokenizer out
          = before ++ result ++ eos_token tokenizer ++ after
          /\ len before
             = len (decode tokenizer
                      (bounded_ids tokenizer prompt context_len)))
    /\ ((forall p,
           len (decode tokenizer (bounded_ids tokenizer prompt context_len))
           <= p ->
           ~ occurs_at (eos_token tokenizer) (decode tokenizer out) p) ->
        result
        = skipn (length (decode tokenizer
                           (bounded_ids tokenizer prompt context_len)))
            (decode tokenizer out)).
Proof.
  intros Hgen. eexists. split; [apply (generate_answer_returns _ _ _ _ _ _ _ Hgen) |].
  set (output := decode tokenizer out).
  set (stop_str := eos_token tokenizer).
  set (prompt_text := decode tokenizer (bounded_ids tokenizer prompt context_len)).
  pose proof (len_nonneg prompt_text) as Hl.
  split.
  - intros Hmark. apply marker_found_iff in Hmark; [| exact Hl].
    destruct (continuation_between _ _ _ Hl Hmark) as (b & a & Hout & Hb & _).
    exists b, a. split; assumption.
  - intros Hnone.
    destruct (Z.eq_dec (rfind output stop_str (len prompt_text)) (-1))
      as [Hr | Hr].
    + rewrite (continuation_to_the_end _ _ _ Hl Hr). unfold len.
      rewrite Nat2Z.id. reflexivity.
    + apply marker_found_iff in Hr as (p & Hp & Hocc); [| exact Hl].
      destruct (Hnone p Hp Hocc).
Qed.

Lemma generate_answer_extracts_continuation_witness :
  generate (Fake.model (lit " reply</s>"))
    (bounded_ids (Fake.tokenizer (lit "</s>")) (lit "hello") 2048)
    answer_config (rng (Fake.world []))
  = (Ok (map Z.of_N (lit "hello reply</s>")), 1%nat)
  /\ exists result,
      fst (generate_answer (Fake.tokenizer (lit "</s>"))
             (Fake.model (lit " reply</s>")) (lit "hello") 2048
             (Fake.world [])) = Ok result
      /\ ((exists p,
             len (decode (Fake.tokenizer (lit "</s>"))
                    (bounded_ids (Fake.tokenizer (lit "</s>")) (lit "hello")
                       2048)) <= p
             /\ occurs_at (eos_token (Fake.tokenizer (lit "</s>")))
                  (decode (Fake.tokenizer (lit "</s>"))
                     (map Z.of_N (lit "hello reply</s>"))) p) ->
          exists before after,
            decode (Fake.tokenizer (lit "</s>"))
              (map Z.of_N (lit "hello reply</s>"))
            = before ++ result ++ eos_token (Fake.tokenizer (lit "</s>"))
                     ++ after
            /\ len before
               = len (decode (Fake.tokenizer (lit "</s>"))
                        (bounded_ids (Fake.tokenizer (lit "</s>"))
                           (lit "hello") 2048)))
      /\ ((forall p,
             len (decode (Fake.tokenizer (lit "</s>"))
                    (bounded_ids (Fake.tokenizer (lit "</s>")) (lit "hello")
                       2048)) <= p ->
             ~ occurs_at (eos_token (Fake.tokenizer (lit "</s>")))
                 (decode (Fake.tokenizer (lit "</s>"))
                    (map Z.of_N (lit "hello reply</s>"))) p) ->
          result
          = skipn (length (decode (Fake.tokenizer (lit "</s>"))
                             (bounded_ids (Fake.tokenizer (lit "</s>"))
                                (lit "hello") 2048)))
              (decode (Fake.tokenizer (lit "</s>"))
                 (map Z.of_N (lit "hello reply</s>")))).
Proof.
  split.
  - reflexivity.
  - apply (generate_answer_extracts_continuation (Fake.tokenizer (lit "</s>"))
             (Fake.model (lit " reply</s>")) (lit "hello") 2048
             (Fake.world []) (map Z.of_N (lit "hello reply</s>")) 1%nat).
    reflexivity.
Defined.

(* ====================================================================== *)
(** ** Several markers *)
(* ====================================================================== *)

Lemma firstn_exact {A : Type} (x y : list A) : firstn (length x) (x ++ y) = x.
Proof.
  rewrite firstn_app, Nat.sub_diag. cbn [firstn]. rewrite app_nil_r.
  apply firstn_all.
Qed.

Lemma skipn_exact {A : Type} (x y : list A) : skipn (length x) (x ++ y) = y.
Proof.
  rewrite skipn_app, Nat.sub_diag, skipn_all. reflexivity.
Qed.

(** An occurrence that lies wholly inside a middle part of the text is an
    occurrence in that part. *)
Lemma occurs_at_inside (sub s before mid rest : str) (r : Z) :
  s = before ++ mid ++ rest ->
  occurs_at sub s r ->
  len before <= r -> r + len sub <= len before + len mid ->
  occurs_at sub mid (r - len before).
Proof.
  intros Hs (b & a & Hs' & Hb) Hlo Hhi. unfold len in *.
  assert (Hpre : before ++ mid
                 = b ++ sub ++ firstn (length before + length mid
                                       - length b - length sub) a).
  { rewrite <- (firstn_exact (before ++ mid) rest), <- app_assoc, <- Hs, Hs'.
    rewrite length_app, firstn_app.
    rewrite firstn_all2 by lia. f_equal.
    rewrite firstn_app. rewrite firstn_all2 by lia. reflexivity. }
  apply (f_equal (skipn (length before))) in Hpre.
  rewrite skipn_exact, skipn_app in Hpre.
  replace (length before - length b)%nat with 0%nat in Hpre by lia.
  cbn [skipn] in Hpre.
  eexists _, _. split; [exact Hpre |].
  unfold len. rewrite length_skipn. lia.
Qed.

(** C8, as stated, fails on a marker that overlaps itself: with the
    marker [aa] and the decoded output [hiaaa] after the two characters of
    the prompt, the marker occurs at 2 and at 3, the answer is cut at 3 and
    is the single [a], in which the occurrence at 2 is not left. *)
Lemma overlapping_marker_is_cut :
  decode (Fake.tokenizer (lit "aa"))
    (bounded_ids (Fake.tokenizer (lit "aa")) (lit "hi") 2048) = lit "hi"
  /\ fst (generate (Fake.model (lit "aaa"))
            (bounded_ids (Fake.tokenizer (lit "aa")) (lit "hi") 2048)
            answer_config 0%nat)
     = Ok (map Z.of_N (lit "hiaaa"))
  /\ occurs_at (lit "aa") (lit "hiaaa") 2
  /\ occurs_at (lit "aa") (lit "hiaaa") 3
  /\ fst (generate_answer (Fake.tokenizer (lit "aa")) (Fake.model (lit "aaa"))
            (lit "hi") 2048 (Fake.world []))
     = Ok (lit "a")
  /\ ~ substring (lit "aa") (lit "a").
Proof.
  split; [reflexivity |]. split; [reflexivity |].
  split; [exists (lit "hi"), (lit "a"); split; reflexivity |].
  split; [exists (lit "hia"), []; split; reflexivity |].
  split; [reflexivity |].
  intros (before & after & H). apply (f_equal (@length char)) in H.
  rewrite !length_app in H. cbn in H. lia.
Qed.

(** C8, amended.  When the marker occurs twice or more at or after
    [l_prompt], the answer runs from [l_prompt] up to the last of these
    occurrences, and every earlier one that ends at or before the start of
    the last one is left in the answer, at its place. *)
Theorem generate_answer_cuts_at_last_marker {RNG : Type}
  (tokenizer : Tokenizer) (model : Model RNG) (prompt : str)
  (context_len : Z) (w : World RNG) (out : list token) (g : RNG) (p q : Z) :
  generate model (bounded_ids tokenizer prompt context_len) answer_config
    (rng w) = (Ok out, g) ->
  len (decode tokenizer (bounded_ids tokenizer prompt context_len)) <= p ->
  p < q ->
  occurs_at (eos_token tokenizer) (decode tokenizer out) p ->
  occurs_at (eos_token tokenizer) (decode tokenizer out) q ->
  exists result before after,
    fst (generate_answer tokenizer model prompt context_len w) = Ok result
    /\ decode tokenizer out = before ++ result ++ eos_token tokenizer ++ after
    /\ len before
       = len (decode tokenizer (bounded_ids tokenizer prompt context_len))
    /\ (forall r,
          len (decode tokenizer (bounded_ids tokenizer prompt context_len))
          <= r ->
          occurs_at (eos_token tokenizer) (decode tokenizer out) r ->
          r <= len (before ++ result))
    /\ (forall r,
          len (decode tokenizer (bounded_ids tokenizer prompt context_len))
          <= r ->
          occurs_at (eos_token tokenizer) (decode tokenizer out) r ->
          r + len (eos_token tokenizer) <= len (before ++ result) ->
          occurs_at (eos_token tokenizer) result (r - len before)).
Proof.
  intros Hgen Hp _ Hoccp _.
  set (output := decode tokenizer out) in *.
  set (stop_str := eos_token tokenizer) in *.
  set (prompt_text := decode tokenizer (bounded_ids tokenizer prompt context_len))
    in *.
  pose proof (len_nonneg prompt_text) as Hl.
  assert (Hr : rfind output stop_str (len prompt_text) <> -1).
  { apply marker_found_iff; [exact Hl |]. exists p. split; assumption. }
  destruct (continuation_between _ _ _ Hl Hr) as (b & a & Hout & Hb & Hpos).
  destruct (rfind_found _ _ _ Hl Hr) as (_ & _ & Hmax).
  exists (continuation output stop_str (len prompt_text)), b, a.
  split; [apply (generate_answer_returns _ _ _ _ _ _ _ Hgen) |].
  split; [exact Hout |]. split; [exact Hb |]. split.
  - intros r Hr1 Hr2. rewrite Hpos. apply Hmax; assumption.
  - intros r Hr1 Hr2 Hr3. rewrite len_app in Hr3.
    apply (occurs_at_inside _ _ _ _ _ _ Hout Hr2); lia.
Qed.

Lemma generate_answer_cuts_at_last_marker_witness :
  generate (Fake.model (lit "a</s>b</s>"))
    (bounded_ids (Fake.tokenizer (lit "</s>")) (lit "hi") 2048)
    answer_config (rng (Fake.world []))
  = (Ok (map Z.of_N (lit "hia</s>b</s>")), 1%nat)
  /\ len (decode (Fake.tokenizer (lit "</s>"))
            (bounded_ids (Fake.tokenizer (lit "</s>")) (lit "hi") 2048)) <= 3
  /\ 3 < 8
  /\ occurs_at (lit "</s>") (lit "hia</s>b</s>") 3
  /\ occurs_at (lit "</s>") (lit "hia</s>b</s>") 8
  /\ exists result before after,
      fst (generate_answer (Fake.tokenizer (lit "</s>"))
             (Fake.model (lit "a</s>b</s>")) (lit "hi") 2048 (Fake.world []))
      = Ok result
      /\ lit "hia</s>b</s>" = before ++ result ++ lit "</s>" ++ after
      /\ len before = 2
      /\ (forall r, 2 <= r ->
            occurs_at (lit "</s>") (lit "hia</s>b</s>") r ->
            r <= len (before ++ result))
      /\ (forall r, 2 <= r ->
            occurs_at (lit "</s>") (lit "hia</s>b</s>") r ->
            r + 4 <= len (before ++ result) ->
            occurs_at (lit "</s>") result (r - len before)).
Proof.
  assert (H3 : occurs_at (lit "</s>") (lit "hia</s>b</s>") 3).
  { exists (lit "hia"), (lit "b</s>"). split; reflexivity. }
  assert (H8 : occurs_at (lit "</s>") (lit "hia</s>b</s>") 8).
  { exists (lit "hia</s>b"), []. split; reflexivity. }
  split; [reflexivity |]. split; [vm_compute; congruence |].
  split; [reflexivity |]. split; [exact H3 |]. split; [exact H8 |].
  apply (generate_answer_cuts_at_last_marker (Fake.tokenizer (lit "</s>"))
           (Fake.model (lit "a</s>b</s>")) (lit "hi") 2048 (Fake.world [])
           (map Z.of_N (lit "hia</s>b</s>")) 1%nat 3 8).
  - reflexivity.
  - vm_compute. congruence.
  - reflexivity.
  - exact H3.
  - exact H8.
Defined.

(* ====================================================================== *)
(** ** The continuation of a well-formed output *)
(* ====================================================================== *)

(** When the decoded output is the decoded prompt, then a reply, then the
    marker, the continuation is the reply, whatever the reply holds. *)
Lemma continuation_of_marked_reply (prompt_text reply stop_str : str) :
  continuation (prompt_text ++ reply ++ stop_str) stop_str (len prompt_text)
  = reply.
Proof.
  set (output := prompt_text ++ reply ++ stop_str).
  pose proof (len_nonneg prompt_text) as Hl.
  assert (Hocc : occurs_at stop_str output (len prompt_text + len reply)).
  { exists (prompt_text ++ reply), []. split.
    - unfold output. rewrite app_nil_r, app_assoc. reflexivity.
    - apply len_app. }
  assert (Hr : rfind output stop_str (len prompt_text) <> -1).
  { apply marker_found_iff; [exact Hl |]. eexists. split; [| exact Hocc].
    pose proof (len_nonneg reply). lia. }
  destruct (rfind_found _ _ _ Hl Hr) as (_ & Hat & Hmax).
  destruct (continuation_between _ _ _ Hl Hr) as (b & a & Hout & Hb & Hpos).
  set (result := continuation output stop_str (len prompt_text)) in *.
  assert (Hlen : len result = len reply).
  { pose proof (occurs_at_bounds _ _ _ Hat) as [_ Hend].
    assert (Hge : len prompt_text <= len prompt_text + len reply)
      by (pose proof (len_nonneg reply); lia).
    pose proof (Hmax _ Hge Hocc).
    assert (Hall : len output = len prompt_text + (len reply + len stop_str))
      by (unfold output; rewrite !len_app; reflexivity).
    rewrite len_app in Hpos. lia. }
  unfold output in Hout.
  assert (Hb' : b = prompt_text).
  { rewrite <- (firstn_exact b (result ++ stop_str ++ a)), <- Hout.
    unfold len in Hb. apply Nat2Z.inj in Hb. rewrite Hb.
    apply firstn_exact. }
  subst b. apply app_inv_head in Hout.
  rewrite <- (firstn_exact result (stop_str ++ a)), <- Hout.
  unfold len in Hlen. apply Nat2Z.inj in Hlen. rewrite Hlen.
  apply firstn_exact.
Qed.

(** When the decoded output is the decoded prompt and a reply, and the
    marker does not occur from the end of the prompt on, the continuation
    is the reply. *)
Lemma continuation_of_unmarked_reply (prompt_text reply stop_str : str) :
  (forall p, len prompt_text <= p ->
             ~ occurs_at stop_str (prompt_text ++ reply) p) ->
  continuation (prompt_text ++ reply) stop_str (len prompt_text) = reply.
Proof.
  intros Hnone. pose proof (len_nonneg prompt_text) as Hl.
  destruct (Z.eq_dec (rfind (prompt_text ++ reply) stop_str (len prompt_text))
              (-1)) as [Hr | Hr].
  - rewrite (continuation_to_the_end _ _ _ Hl Hr). unfold len.
    rewrite Nat2Z.id. apply skipn_exact.
  - apply marker_found_iff in Hr as (p & Hp & Hocc); [| exact Hl].
    destruct (Hnone p Hp Hocc).
Qed.

(* ====================================================================== *)
(** ** Batch mode *)
(* ====================================================================== *)

Lemma log_logged {RNG : Type} (w : World RNG) (e1 e2 : list Event) :
  logged (logged w e1) e2 = logged w (e1 ++ e2).
Proof. unfold logged. cbn. rewrite app_assoc. reflexivity. Qed.

Lemma print_run {RNG : Type} (text : str) (w : World RNG) :
  print text w = (Ok tt, logged w [EvStdout (text ++ nl)]).
Proof. reflexivity. Qed.

Lemma generate_answer_ok {RNG : Type} (tokenizer : Tokenizer)
  (model : Model RNG) (prompt : str) (context_len : Z) (w : World RNG) :
  never_raises model ->
  exists out g,
    generate model (bounded_ids tokenizer prompt context_len) answer_config
      (rng w) = (Ok out, g)
    /\ generate_answer tokenizer model prompt context_len w
       = (Ok (continuation (decode tokenizer out) (eos_token tokenizer)
                (len (decode tokenizer
                        (bounded_ids tokenizer prompt context_len)))),
          {| rng := g; stdin := stdin w;
             log := log w ++ [EvTokenize prompt;
                              EvGenerate
                                (bounded_ids tokenizer prompt context_len)
                                answer_config;
                              EvDecode out;
                              EvDecode
                                (bounded_ids tokenizer prompt context_len)] |}).
Proof.
  intros Hok.
  destruct (Hok (bounded_ids tokenizer prompt context_len) answer_config (rng w))
    as (out & g & Hgen).
  exists out, g. split; [exact Hgen |].
  rewrite generate_answer_run. cbv zeta. rewrite Hgen. reflexivity.
Qed.

Lemma records_from_length {RNG : Type} (tokenizer : Tokenizer)
  (model : Model RNG) (templates : Templates) (conv : Conversation)
  (g : RNG) (examples : list str) (records : list PredictionRecord) :
  records_from tokenizer model templates conv g examples records ->
  length records = length examples.
Proof. induction 1; cbn; congruence. Qed.

(** The loop of batch mode, when the template exists and the model always
    returns: one record per example is added, in order; the model is
    called once per example; no file is touched. *)
Lemma batch_loop_total {RNG : Type} (tokenizer : Tokenizer)
  (model : Model RNG) (templates : Templates) (template_name : str)
  (conv : Conversation) :
  get_conv_template templates template_name = Ok conv ->
  never_raises model ->
  forall (examples : list str) (index : nat)
         (results : list PredictionRecord) (w : World RNG),
  exists new w',
    batch_loop tokenizer model templates template_name index examples
      results w = (Ok (results ++ new), w')
    /\ records_from tokenizer model templates conv (rng w) examples new
    /\ generate_calls (log w')
       = generate_calls (log w)
         ++ map (fun example =>
                   bounded_ids tokenizer (turn_prompt templates conv example)
                     default_context_len) examples
    /\ opened_for_writing (log w') = opened_for_writing (log w)
    /\ dumped (log w') = dumped (log w).
Proof.
  intros Htpl Hok. induction examples as [| example rest IH];
    intros index results w.
  - exists [], w. cbn. rewrite !app_nil_r. repeat split. constructor.
  - cbn [batch_loop]. unfold bind at 1, of_outcome. rewrite Htpl.
    change (roles (append_message conv (fst (roles conv)) example))
      with (roles conv).
    fold (turn_prompt templates conv example).
    set (prompt := turn_prompt templates conv example).
    destruct (generate_answer_ok tokenizer model prompt default_context_len
                w Hok) as (out & g & Hgen & Hrun).
    unfold bind at 1. rewrite Hrun.
    set (response := continuation _ _ _).
    unfold bind at 1. rewrite print_run.
    unfold bind at 1. rewrite print_run.
    unfold bind at 1. rewrite print_run.
    match goal with
    | |- context [batch_loop _ _ _ _ _ _ ?r ?w1] =>
        destruct (IH (S index) r w1) as (new & w' & Hloop & Hrec & Hgc & Hop & Hdu)
    end.
    exists ({| Input := prompt; Output := response |} :: new), w'.
    split; [| split; [| split; [| split]]].
    + rewrite Hloop, <- app_assoc. reflexivity.
    + apply (records_next tokenizer model templates conv (rng w) g);
        [| exact Hrec].
      intros w0 Hw0. fold prompt. rewrite generate_answer_run. cbv zeta.
      rewrite Hw0, Hgen. split; reflexivity.
    + rewrite Hgc. cbn [logged log]. rewrite !generate_calls_app. cbn.
      rewrite !app_nil_r, <- app_assoc. reflexivity.
    + rewrite Hop. cbn [logged log]. rewrite !opened_for_writing_app. cbn.
      rewrite !app_nil_r. reflexivity.
    + rewrite Hdu. cbn [logged log]. rewrite !dumped_app. cbn.
      rewrite !app_nil_r. reflexivity.
Qed.

(** Batch mode up to the end of its loop. *)
Lemma batch_mode_loop {RNG : Type} (tokenizer : Tokenizer)
  (model : Model RNG) (templates : Templates) (env : Env)
  (template_name : str) (conv : Conversation) (examples : list str)
  (predictions_file : str) (w : World RNG) :
  get_conv_template templates template_name = Ok conv ->
  never_raises model ->
  exists results w1,
    batch_mode tokenizer model templates env template_name examples
      predictions_file w
    = (os_makedirs env (os_path_dirname predictions_file) ;;
       open_w RNG env predictions_file ;;
       json_dump RNG env results predictions_file) w1
    /\ records_from tokenizer model templates conv (rng w) examples results
    /\ length (generate_calls (log w1))
       = (length (generate_calls (log w)) + length examples)%nat
    /\ opened_for_writing (log w1) = opened_for_writing (log w)
    /\ dumped (log w1) = dumped (log w).
Proof.
  intros Htpl Hok. unfold batch_mode.
  unfold bind at 1. rewrite print_run.
  destruct (batch_loop_total tokenizer model templates template_name conv
              Htpl Hok examples 0%nat []
              (logged w [EvStdout (lit "Start inference." ++ nl)]))
    as (results & w1 & Hloop & Hrec & Hgc & Hop & Hdu).
  exists results, w1. unfold bind at 1. rewrite Hloop. cbn [app].
  split; [reflexivity |]. split; [exact Hrec |].
  cbn [logged log] in Hgc, Hop, Hdu.
  rewrite generate_calls_app in Hgc. rewrite opened_for_writing_app in Hop.
  rewrite dumped_app in Hdu. cbn in Hgc, Hop, Hdu.
  rewrite app_nil_r in Hgc, Hop, Hdu.
  split; [| split; assumption].
  rewrite Hgc, length_app, length_map. reflexivity.
Qed.

(** C4, as stated, fails: the continuation is recorded as returned, with
    its surrounding whitespace.  On the two built-in prompts, with a model
    that answers [ stubbed reply] and the marker, both records keep the
    leading space. *)
Lemma batch_output_is_not_stripped :
  map Output
    (concat
       (dumped
          (log (snd (batch_mode (Fake.tokenizer (lit "</s>"))
                       (Fake.model (lit " stubbed reply</s>")) Fake.templates
                       (Fake.env []) (lit "vicuna") builtin_examples
                       (lit "./predictions.json") (Fake.world []))))))
  = [lit " stubbed reply"; lit " stubbed reply"]
  /\ strip (lit " stubbed reply") <> lit " stubbed reply".
Proof. split; vm_compute; congruence. Qed.

(** C4, amended.  In batch mode the record of an example is its
    rendered prompt as [Input] and, as [Output], the continuation that
    [generate_answer] returned for it in this run, as returned, with its
    surrounding whitespace.  When the template exists, the model always
    returns and the directory and the file can be made, [json.dump] is
    called once, on one such record per example, in the order of the
    examples; the run returns, with the document written, when the encoding
    of the file has every character of the records, and raises
    [UnicodeEncodeError] otherwise. *)
Theorem batch_mode_records {RNG : Type} (tokenizer : Tokenizer)
  (model : Model RNG) (templates : Templates) (env : Env)
  (template_name : str) (conv : Conversation) (examples : list str)
  (predictions_file : str) (w : World RNG) :
  get_conv_template templates template_name = Ok conv ->
  never_raises model ->
  os_path_dirname predictions_file <> [] ->
  fs_makedirs env (os_path_dirname predictions_file) = None ->
  fs_open_w env predictions_file = None ->
  exists results r w',
    batch_mode tokenizer model templates env template_name examples
      predictions_file w = (r, w')
    /\ dumped (log w') = dumped (log w) ++ [results]
    /\ records_from tokenizer model templates conv (rng w) examples results
    /\ length results = length examples
    /\ r = (if forallb (writable_record env) results then Ok tt
            else Raise UnicodeEncodeError).
Proof.
  intros Htpl Hok Hdir Hmk Hopen.
  destruct (batch_mode_loop tokenizer model templates env template_name conv
              examples predictions_file w Htpl Hok)
    as (results & w1 & Hrun & Hrec & _ & _ & Hdu).
  exists results. rewrite Hrun.
  unfold os_makedirs, open_w, json_dump, bind, emit, of_error, raise, ret.
  cbn [rng stdin log].
  destruct (os_path_dirname predictions_file) as [| c d] eqn:Hd;
    [congruence |].
  rewrite Hmk, Hopen. cbn [rng stdin log].
  assert (Hdumped : dumped ((log w1 ++ [EvMakedirs (c :: d)])
                            ++ [EvOpenW predictions_file])
                    = dumped (log w)).
  { rewrite !dumped_app. cbn. rewrite !app_nil_r. exact Hdu. }
  destruct (forallb (writable_record env) results);
    eexists _, _; (split; [reflexivity |]); cbn [log];
    rewrite dumped_app, Hdumped;
    (split; [reflexivity |]); (split; [exact Hrec |]);
    (split; [| reflexivity]);
    apply (records_from_length _ _ _ _ _ _ _ Hrec).
Qed.

Lemma batch_mode_records_witness :
  get_conv_template Fake.templates (lit "vicuna")
  = Ok (Fake.fresh (lit "vicuna"))
  /\ never_raises (Fake.model (lit " stubbed reply</s>"))
  /\ os_path_dirname (lit "./predictions.json") <> []
  /\ fs_makedirs (Fake.env []) (os_path_dirname (lit "./predictions.json"))
     = None
  /\ fs_open_w (Fake.env []) (lit "./predictions.json") = None
  /\ exists results r w',
      batch_mode (Fake.tokenizer (lit "</s>"))
        (Fake.model (lit " stubbed reply</s>")) Fake.templates (Fake.env [])
        (lit "vicuna") builtin_examples (lit "./predictions.json")
        (Fake.world []) = (r, w')
      /\ dumped (log w') = dumped (log (Fake.world [])) ++ [results]
      /\ records_from (Fake.tokenizer (lit "</s>"))
           (Fake.model (lit " stubbed reply</s>")) Fake.templates
           (Fake.fresh (lit "vicuna")) (rng (Fake.world []))
           builtin_examples results
      /\ length results = length builtin_examples
      /\ r = (if forallb (writable_record (Fake.env [])) results then Ok tt
              else Raise UnicodeEncodeError).
Proof.
  assert (Hok : never_raises (Fake.model (lit " stubbed reply</s>"))).
  { intros ids config g. eexists _, _. reflexivity. }
  split; [reflexivity |]. split; [exact Hok |].
  split; [vm_compute; congruence |].
  split; [reflexivity |]. split; [reflexivity |].
  apply (batch_mode_records (Fake.tokenizer (lit "</s>"))
           (Fake.model (lit " stubbed reply</s>")) Fake.templates
           (Fake.env []) (lit "vicuna") (Fake.fresh (lit "vicuna"))
           builtin_examples (lit "./predictions.json") (Fake.world [])).
  - reflexivity.
  - exact Hok.
  - vm_compute. congruence.
  - reflexivity.
  - reflexivity.
Defined.

(** C10.  When [predictions_file] has no directory part
    ([os.path.dirname] gives the empty string), batch mode, once all the
    generations are done, fails in [os.makedirs] with [FileNotFoundError]:
    that call is the last thing that happens, and no file is opened or
    written. *)
Theorem batch_mode_bare_file_name {RNG : Type} (tokenizer : Tokenizer)
  (model : Model RNG) (templates : Templates) (env : Env)
  (template_name : str) (conv : Conversation) (examples : list str)
  (predictions_file : str) (w : World RNG) :
  os_path_dirname predictions_file = [] ->
  get_conv_template templates template_name = Ok conv ->
  never_raises model ->
  exists w',
    batch_mode tokenizer model templates env template_name examples
      predictions_file w = (Raise FileNotFoundError, w')
    /\ length (generate_calls (log w'))
       = (length (generate_calls (log w)) + length examples)%nat
    /\ (exists earlier, log w' = earlier ++ [EvMakedirs []])
    /\ opened_for_writing (log w') = opened_for_writing (log w)
    /\ dumped (log w') = dumped (log w).
Proof.
  intros Hdir Htpl Hok.
  destruct (batch_mode_loop tokenizer model templates env template_name conv
              examples predictions_file w Htpl Hok)
    as (results & w1 & Hrun & _ & Hgc & Hop & Hdu).
  rewrite Hrun, Hdir.
  unfold os_makedirs, bind, emit, raise. cbn.
  eexists. split; [reflexivity |]. cbn.
  rewrite generate_calls_app, opened_for_writing_app, dumped_app. cbn.
  rewrite !app_nil_r. split; [exact Hgc |]. split; [| split; assumption].
  exists (log w1). reflexivity.
Qed.

Lemma batch_mode_bare_file_name_witness :
  os_path_dirname (lit "predictions.json") = []
  /\ get_conv_template Fake.templates (lit "vicuna")
     = Ok (Fake.fresh (lit "vicuna"))
  /\ never_raises (Fake.model (lit " stubbed reply</s>"))
  /\ exists w',
      batch_mode (Fake.tokenizer (lit "</s>"))
        (Fake.model (lit " stubbed reply</s>")) Fake.templates (Fake.env [])
        (lit "vicuna") builtin_examples (lit "predictions.json")
        (Fake.world []) = (Raise FileNotFoundError, w')
      /\ length (generate_calls (log w'))
         = (length (generate_calls (log (Fake.world [])))
            + length builtin_examples)%nat
      /\ (exists earlier, log w' = earlier ++ [EvMakedirs []])
      /\ opened_for_writing (log w')
         = opened_for_writing (log (Fake.world []))
      /\ dumped (log w') = dumped (log (Fake.world [])).
Proof.
  assert (Hok : never_raises (Fake.model (lit " stubbed reply</s>"))).
  { intros ids config g. eexists _, _. reflexivity. }
  split; [reflexivity |]. split; [reflexivity |]. split; [exact Hok |].
  apply (batch_mode_bare_file_name (Fake.tokenizer (lit "</s>"))
           (Fake.model (lit " stubbed reply</s>")) Fake.templates
           (Fake.env []) (lit "vicuna") (Fake.fresh (lit "vicuna"))
           builtin_examples (lit "predictions.json") (Fake.world [])).
  - reflexivity.
  - reflexivity.
  - exact Hok.
Defined.

(* ====================================================================== *)
(** ** Stripping *)
(* ====================================================================== *)

Lemma lstrip_by_suffix (p : char -> bool) (s : str) :
  exists dropped, s = dropped ++ lstrip_by p s.
Proof.
  induction s as [| c s [dropped IH]]; cbn.
  - exists []. reflexivity.
  - destruct (p c).
    + exists (c :: dropped). cbn. rewrite <- IH. reflexivity.
    + exists []. reflexivity.
Qed.

Lemma lstrip_by_head (p : char -> bool) (s : str) (c : char) (rest : str) :
  lstrip_by p s = c :: rest -> p c = false.
Proof.
  induction s as [| d s IH]; cbn; [discriminate |].
  destruct (p d) eqn:Hd; [exact IH |].
  intros H. injection H as <- _. exact Hd.
Qed.

Lemma lstrip_by_fixed (p : char -> bool) (s : str) :
  (forall c rest, s = c :: rest -> p c = false) -> lstrip_by p s = s.
Proof.
  destruct s as [| c s]; [reflexivity |]. intros H. cbn.
  rewrite (H c s eq_refl). reflexivity.
Qed.

Lemma rstrip_by_prefix (p : char -> bool) (s : str) :
  exists dropped, s = rstrip_by p s ++ dropped.
Proof.
  unfold rstrip_by. destruct (lstrip_by_suffix p (rev s)) as [dropped H].
  exists (rev dropped). rewrite <- rev_app_distr, <- H, rev_involutive.
  reflexivity.
Qed.

Lemma rstrip_by_last (p : char -> bool) (s front : str) (c : char) :
  rstrip_by p s = front ++ [c] -> p c = false.
Proof.
  unfold rstrip_by. intros H. apply (f_equal (@rev char)) in H.
  rewrite rev_involutive, rev_app_distr in H. cbn in H.
  exact (lstrip_by_head _ _ _ _ H).
Qed.

Lemma rstrip_by_fixed (p : char -> bool) (s : str) :
  (forall front c, s = front ++ [c] -> p c = false) -> rstrip_by p s = s.
Proof.
  intros H. unfold rstrip_by. rewrite lstrip_by_fixed; [apply rev_involutive |].
  intros c rest Hrev. apply (H (rev rest) c).
  rewrite <- (rev_involutive s), Hrev. reflexivity.
Qed.

(** What [strip] returns is trimmed. *)
Lemma strip_trimmed (s : str) : trimmed (strip s).
Proof.
  unfold strip. split.
  - intros c rest Hs.
    destruct (rstrip_by_prefix isspace (lstrip_by isspace s)) as [dropped Hd].
    rewrite Hs in Hd. cbn in Hd. exact (lstrip_by_head _ _ _ _ Hd).
  - intros front c Hs. exact (rstrip_by_last _ _ _ _ Hs).
Qed.

(** [strip] leaves a trimmed string as it is. *)
Lemma strip_fixed (s : str) : trimmed s -> strip s = s.
Proof.
  intros [Hhead Hlast]. unfold strip.
  rewrite (lstrip_by_fixed _ _ Hhead). apply rstrip_by_fixed. exact Hlast.
Qed.

(** What [strip] returns is a piece of its argument. *)
Lemma strip_piece (s : str) :
  exists before after, s = before ++ strip s ++ after.
Proof.
  unfold strip. destruct (lstrip_by_suffix isspace s) as [before Hb].
  destruct (rstrip_by_prefix isspace (lstrip_by isspace s)) as [after Ha].
  exists before, after. rewrite <- Ha. exact Hb.
Qed.

Lemma lstrip_by_dropped (p : char -> bool) (s : str) :
  exists dropped,
    s = dropped ++ lstrip_by p s /\ Forall (fun c => p c = true) dropped.
Proof.
  induction s as [| c s (dropped & IH & Hall)]; cbn.
  - exists []. split; [reflexivity | constructor].
  - destruct (p c) eqn:Hc.
    + exists (c :: dropped). cbn. rewrite <- IH.
      split; [reflexivity | constructor; assumption].
    + exists []. split; [reflexivity | constructor].
Qed.

Lemma rstrip_by_dropped (p : char -> bool) (s : str) :
  exists dropped,
    s = rstrip_by p s ++ dropped /\ Forall (fun c => p c = true) dropped.
Proof.
  unfold rstrip_by.
  destruct (lstrip_by_dropped p (rev s)) as (dropped & H & Hall).
  exists (rev dropped). split.
  - rewrite <- rev_app_distr, <- H, rev_involutive. reflexivity.
  - apply Forall_rev. exact Hall.
Qed.

(** What [strip] returns is its argument without the whitespace at its
    two ends. *)
Lemma strip_stripped (s : str) : stripped_of s (strip s).
Proof.
  split; [apply strip_trimmed |]. unfold strip.
  destruct (lstrip_by_dropped isspace s) as (leading & Hl & Hleading).
  destruct (rstrip_by_dropped isspace (lstrip_by isspace s))
    as (trailing & Ht & Htrailing).
  exists leading, trailing. rewrite <- Ht.
  split; [exact Hl |]. split; assumption.
Qed.

(* ====================================================================== *)
(** ** Interactive mode *)
(* ====================================================================== *)

(** Reading one line in the loop: end of input reads as the empty line. *)
Lemma read_input_run {RNG : Type} (role : str) (w : World RNG) :
  try_except (prompt_for_input RNG role) (is_EOFError RNG (ret [])) w
  = (Ok (hd [] (stdin w)),
     {| rng := rng w; stdin := tl (stdin w);
        log := log w ++ [EvInput (role ++ lit ": ")] |}).
Proof.
  unfold try_except, prompt_for_input, input, bind, emit. cbn.
  destruct (stdin w); reflexivity.
Qed.

Lemma set_last_content_placeholder {RNG : Type} (conv : Conversation)
  (inp reply : str) (w : World RNG) :
  set_last_content
    (append_message (append_message conv (fst (roles conv)) inp)
       (snd (roles conv)) []) reply w
  = (Ok (after_turn conv inp reply), w).
Proof.
  unfold set_last_content, append_message, after_turn. cbn.
  rewrite !rev_app_distr. cbn. rewrite rev_involutive, <- app_assoc.
  reflexivity.
Qed.

(** The body of the loop on an ended input: it breaks, nothing is
    generated. *)
Lemma interactive_body_stops {RNG : Type} (tokenizer : Tokenizer)
  (model : Model RNG) (templates : Templates) (conv : Conversation)
  (w : World RNG) :
  input_ends (stdin w) ->
  interactive_body tokenizer model templates conv w
  = (Ok (Break conv),
     {| rng := rng w; stdin := tl (stdin w);
        log := log w ++ [EvInput (fst (roles conv) ++ lit ": ");
                         EvStdout (lit "exit..." ++ nl)] |}).
Proof.
  intros Hend. unfold interactive_body. unfold bind at 1.
  rewrite read_input_run.
  assert (Hhd : hd [] (stdin w) = []).
  { destruct Hend as [-> | [rest ->]]; reflexivity. }
  rewrite Hhd. unfold bind, print, emit, ret. cbn.
  rewrite <- app_assoc. reflexivity.
Qed.

(** The body of the loop on a non-empty line, when the model returns. *)
Lemma interactive_body_turn {RNG : Type} (tokenizer : Tokenizer)
  (model : Model RNG) (templates : Templates) (conv : Conversation)
  (w : World RNG) (inp : str) (rest : list str) (out : list token) (g : RNG) :
  stdin w = inp :: rest ->
  inp <> [] ->
  generate model
    (bounded_ids tokenizer (turn_prompt templates conv inp)
       default_context_len) answer_config (rng w) = (Ok out, g) ->
  interactive_body tokenizer model templates conv w
  = (Ok (Continue
           (after_turn conv inp
              (strip
                 (continuation (decode tokenizer out) (eos_token tokenizer)
                    (len (decode tokenizer
                            (bounded_ids tokenizer
                               (turn_prompt templates conv inp)
                               default_context_len))))))),
     {| rng := g; stdin := rest;
        log := log w
               ++ [EvInput (fst (roles conv) ++ lit ": ");
                   EvStdout (snd (roles conv) ++ lit ": ");
                   EvTokenize (turn_prompt templates conv inp);
                   EvGenerate
                     (bounded_ids tokenizer (turn_prompt templates conv inp)
                        default_context_len) answer_config;
                   EvDecode out;
                   EvDecode
                     (bounded_ids tokenizer (turn_prompt templates conv inp)
                        default_context_len);
                   EvStdout
                     (continuation (decode tokenizer out)
                        (eos_token tokenizer)
                        (len (decode tokenizer
                                (bounded_ids tokenizer
                                   (turn_prompt templates conv inp)
                                   default_context_len))) ++ nl)] |}).
Proof.
  intros Hin Hne Hgen. unfold interactive_body. unfold bind at 1.
  rewrite read_input_run, Hin. cbn [hd tl].
  destruct inp as [| c cs]; [congruence |].
  change (roles (append_message conv (fst (roles conv)) (c :: cs)))
    with (roles conv).
  fold (turn_prompt templates conv (c :: cs)).
  set (prompt := turn_prompt templates conv (c :: cs)) in *.
  unfold bind at 1. unfold prompt_for_output, print_noend, emit.
  unfold bind at 1. rewrite generate_answer_run. cbv zeta. cbn [rng stdin log].
  rewrite Hgen.
  unfold bind at 1. unfold stream_output, bind at 1, print, emit, ret.
  unfold bind. rewrite set_last_content_placeholder. cbn [rng stdin log].
  rewrite <- !app_assoc. reflexivity.
Qed.

(** The loop on [lines], all non-empty, followed by the end of the input:
    with more fuel than lines it breaks, after one generation per line. *)
Lemma interactive_loop_ends {RNG : Type} (tokenizer : Tokenizer)
  (model : Model RNG) (templates : Templates) (lines tail : list str) :
  (lines <> [] -> never_raises model) ->
  Forall (fun line => line <> []) lines ->
  input_ends tail ->
  forall (fuel : nat) (conv : Conversation) (w : World RNG),
    stdin w = lines ++ tail ->
    (length lines < fuel)%nat ->
    exists conv' w',
      while_true fuel (interactive_body tokenizer model templates) conv w
      = (Ok (Some conv'), w')
      /\ length (generate_calls (log w'))
         = (length (generate_calls (log w)) + length lines)%nat
      /\ (lines = [] ->
          conv' = conv /\ generate_calls (log w') = generate_calls (log w)).
Proof.
  intros Hok Hlines Hend.
  induction Hlines as [| inp rest Hinp Hrest IH]; intros fuel conv w Hin Hfuel.
  - destruct fuel as [| fuel]; [cbn in Hfuel; lia |].
    cbn [while_true]. unfold bind at 1.
    rewrite interactive_body_stops by (rewrite Hin; exact Hend).
    eexists _, _. split; [reflexivity |]. cbn [log].
    rewrite generate_calls_app. cbn. rewrite app_nil_r.
    split; [lia |]. intros _. split; reflexivity.
  - destruct fuel as [| fuel]; [cbn in Hfuel; lia |].
    assert (Hok' : never_raises model) by (apply Hok; discriminate).
    destruct (Hok' (bounded_ids tokenizer (turn_prompt templates conv inp)
                      default_context_len) answer_config (rng w))
      as (out & g & Hgen).
    cbn [while_true]. unfold bind at 1.
    rewrite (interactive_body_turn tokenizer model templates conv w inp
               (rest ++ tail) out g Hin Hinp Hgen).
    match goal with
    | |- context [while_true fuel _ ?c ?w1] =>
        destruct (IH (fun _ => Hok') fuel c w1 eq_refl
                    ltac:(cbn in Hfuel; lia))
          as (conv' & w' & Hrun & Hgc & _)
    end.
    exists conv', w'. split; [exact Hrun |]. split.
    + rewrite Hgc. cbn [log]. rewrite generate_calls_app. cbn.
      rewrite length_app. cbn. lia.
    + discriminate.
Qed.

(** C5.  In interactive mode, let the input be [lines], none empty,
    followed by the end of the input or by an empty line.  Then the
    session ends normally, without an exception, after one generation per
    line; in particular, when the very first read meets the end of the
    input or an empty line, nothing is generated and the conversation is
    left as created. *)
Theorem interactive_mode_ends {RNG : Type} (tokenizer : Tokenizer)
  (model : Model RNG) (templates : Templates) (template_name : str)
  (conv : Conversation) (lines tail : list str) (fuel : nat)
  (w : World RNG) :
  get_conv_template templates template_name = Ok conv ->
  (lines <> [] -> never_raises model) ->
  Forall (fun line => line <> []) lines ->
  input_ends tail ->
  stdin w = lines ++ tail ->
  (length lines < fuel)%nat ->
  exists conv' w',
    interactive_mode tokenizer model templates fuel template_name w
    = (Ok (Some conv'), w')
    /\ length (generate_calls (log w'))
       = (length (generate_calls (log w)) + length lines)%nat
    /\ (lines = [] ->
        conv' = conv /\ generate_calls (log w') = generate_calls (log w)).
Proof.
  intros Htpl Hok Hlines Hend Hin Hfuel.
  unfold interactive_mode. unfold bind at 1, of_outcome. rewrite Htpl.
  unfold bind at 1. rewrite print_run.
  destruct (interactive_loop_ends tokenizer model templates lines tail
              Hok Hlines Hend fuel conv
              (logged w [EvStdout (lit "Start inference with interactive mode."
                                   ++ nl)]) Hin Hfuel)
    as (conv' & w' & Hrun & Hgc & Hfirst).
  exists conv', w'. split; [exact Hrun |].
  cbn [logged log] in Hgc, Hfirst. rewrite generate_calls_app in Hgc, Hfirst.
  cbn in Hgc, Hfirst. rewrite app_nil_r in Hgc, Hfirst.
  split; assumption.
Qed.

Lemma interactive_mode_ends_witness :
  get_conv_template Fake.templates (lit "vicuna")
  = Ok (Fake.fresh (lit "vicuna"))
  /\ ([lit "hi"] <> [] -> never_raises (Fake.model (lit " reply </s>")))
  /\ Forall (fun line => line <> []) [lit "hi"]
  /\ input_ends []
  /\ stdin (Fake.world [lit "hi"]) = [lit "hi"] ++ []
  /\ (length [lit "hi"] < 2)%nat
  /\ exists conv' w',
      interactive_mode (Fake.tokenizer (lit "</s>"))
        (Fake.model (lit " reply </s>")) Fake.templates 2 (lit "vicuna")
        (Fake.world [lit "hi"])
      = (Ok (Some conv'), w')
      /\ length (generate_calls (log w'))
         = (length (generate_calls (log (Fake.world [lit "hi"])))
            + length [lit "hi"])%nat
      /\ ([lit "hi"] = [] ->
          conv' = Fake.fresh (lit "vicuna")
          /\ generate_calls (log w')
             = generate_calls (log (Fake.world [lit "hi"]))).
Proof.
  assert (Hok : [lit "hi"] <> [] ->
                never_raises (Fake.model (lit " reply </s>"))).
  { intros _ ids config g. eexists _, _. reflexivity. }
  assert (Hlines : Forall (fun line : str => line <> []) [lit "hi"]).
  { constructor; [discriminate | constructor]. }
  split; [reflexivity |]. split; [exact Hok |]. split; [exact Hlines |].
  split; [left; reflexivity |]. split; [reflexivity |].
  split; [cbn; lia |].
  apply (interactive_mode_ends (Fake.tokenizer (lit "</s>"))
           (Fake.model (lit " reply </s>")) Fake.templates (lit "vicuna")
           (Fake.fresh (lit "vicuna")) [lit "hi"] [] 2
           (Fake.world [lit "hi"])).
  - reflexivity.
  - exact Hok.
  - exact Hlines.
  - left. reflexivity.
  - reflexivity.
  - cbn. lia.
Defined.

(** C6.  In interactive mode, a turn on a non-empty line during which
    the model returns leaves as last message the assistant message whose
    content is the continuation [generate_answer] returned, stripped of
    leading and trailing whitespace: only whitespace was taken from the
    two ends of the continuation, and the content neither starts nor ends
    with whitespace.  The loop goes on from that conversation, so the next
    prompt is rendered from the stripped text. *)
Theorem interactive_turn_stores_stripped {RNG : Type} (tokenizer : Tokenizer)
  (model : Model RNG) (templates : Templates) (conv : Conversation)
  (w : World RNG) (inp : str) (rest : list str) (out : list token) (g : RNG)
  (fuel : nat) :
  stdin w = inp :: rest ->
  inp <> [] ->
  generate model
    (bounded_ids tokenizer (turn_prompt templates conv inp)
       default_context_len) answer_config (rng w) = (Ok out, g) ->
  exists output conv' w',
    fst (generate_answer tokenizer model (turn_prompt templates conv inp)
           default_context_len w) = Ok output
    /\ interactive_body tokenizer model templates conv w
       = (Ok (Continue conv'), w')
    /\ messages conv'
       = messages conv
         ++ [(fst (roles conv), inp); (snd (roles conv), strip output)]
    /\ last (messages conv') ([], []) = (snd (roles conv), strip output)
    /\ stripped_of output (strip output)
    /\ while_true (S fuel) (interactive_body tokenizer model templates) conv w
       = while_true fuel (interactive_body tokenizer model templates) conv' w'
    /\ forall next,
        turn_prompt templates conv' next
        = get_prompt templates
            {| name := name conv;
               roles := roles conv;
               messages := messages conv
                           ++ [(fst (roles conv), inp);
                               (snd (roles conv), strip output);
                               (fst (roles conv), next);
                               (snd (roles conv), [])] |}.
Proof.
  intros Hin Hne Hgen.
  pose proof (interactive_body_turn tokenizer model templates conv w inp rest
                out g Hin Hne Hgen) as Hbody.
  eexists _, _, _. split; [apply (generate_answer_returns _ _ _ _ _ _ _ Hgen) |].
  split; [exact Hbody |]. split; [reflexivity |]. split;
    [| split; [apply strip_stripped |]].
  - cbn [after_turn messages].
    match goal with
    | |- last (?l ++ [?a; ?b]) _ = _ =>
        change (l ++ [a; b]) with (l ++ [a] ++ [b])
    end.
    rewrite app_assoc. apply last_last.
  - split.
    + cbn [while_true]. unfold bind at 1. rewrite Hbody. reflexivity.
    + intros next. unfold turn_prompt, append_message, after_turn. cbn.
      rewrite <- !app_assoc. reflexivity.
Qed.

Lemma interactive_turn_stores_stripped_witness :
  stdin (Fake.world [lit "hi"]) = lit "hi" :: []
  /\ lit "hi" <> []
  /\ generate (Fake.model (lit " reply </s>"))
       (bounded_ids (Fake.tokenizer (lit "</s>"))
          (turn_prompt Fake.templates (Fake.fresh (lit "vicuna")) (lit "hi"))
          default_context_len) answer_config (rng (Fake.world [lit "hi"]))
     = (Ok (map Z.of_N (lit "USER: hi ASSISTANT:   reply </s>")), 1%nat)
  /\ exists output conv' w',
      fst (generate_answer (Fake.tokenizer (lit "</s>"))
             (Fake.model (lit " reply </s>"))
             (turn_prompt Fake.templates (Fake.fresh (lit "vicuna"))
                (lit "hi"))
             default_context_len (Fake.world [lit "hi"])) = Ok output
      /\ interactive_body (Fake.tokenizer (lit "</s>"))
           (Fake.model (lit " reply </s>")) Fake.templates
           (Fake.fresh (lit "vicuna")) (Fake.world [lit "hi"])
         = (Ok (Continue conv'), w')
      /\ messages conv'
         = messages (Fake.fresh (lit "vicuna"))
           ++ [(lit "USER", lit "hi"); (lit "ASSISTANT", strip output)]
      /\ last (messages conv') ([], []) = (lit "ASSISTANT", strip output)
      /\ stripped_of output (strip output)
      /\ while_true 1
           (interactive_body (Fake.tokenizer (lit "</s>"))
              (Fake.model (lit " reply </s>")) Fake.templates)
           (Fake.fresh (lit "vicuna")) (Fake.world [lit "hi"])
         = while_true 0
             (interactive_body (Fake.tokenizer (lit "</s>"))
                (Fake.model (lit " reply </s>")) Fake.templates) conv' w'
      /\ forall next,
          turn_prompt Fake.templates conv' next
          = get_prompt Fake.templates
              {| name := name (Fake.fresh (lit "vicuna"));
                 roles := roles (Fake.fresh (lit "vicuna"));
                 messages := messages (Fake.fresh (lit "vicuna"))
                             ++ [(lit "USER", lit "hi");
                                 (lit "ASSISTANT", strip output);
                                 (lit "USER", next);
                                 (lit "ASSISTANT", [])] |}.
Proof.
  split; [reflexivity |]. split; [discriminate |]. split; [reflexivity |].
  apply (interactive_turn_stores_stripped (Fake.tokenizer (lit "</s>"))
           (Fake.model (lit " reply </s>")) Fake.templates
           (Fake.fresh (lit "vicuna")) (Fake.world [lit "hi"]) (lit "hi") []
           (map Z.of_N (lit "USER: hi ASSISTANT:   reply </s>")) 1%nat 0).
  - reflexivity.
  - discriminate.
  - reflexivity.
Defined.

(* ====================================================================== *)
(** ** The examples *)
(* ====================================================================== *)

Lemma readlines_acc_lines (s cur : str) :
  ~ In 10%N cur -> lines_of (rev cur ++ s) (readlines_acc cur s).
Proof.
  revert cur. induction s as [| c s IH]; intros cur Hcur; cbn.
  - rewrite app_nil_r. destruct cur as [| d cur]; [constructor |].
    apply lines_last.
    + cbn. destruct (rev cur); discriminate.
    + rewrite <- in_rev. exact Hcur.
  - destruct (N.eqb_spec c 10) as [-> | Hc].
    + change (rev cur ++ 10%N :: s) with (rev cur ++ nl ++ s).
      apply lines_more.
      * rewrite <- in_rev. exact Hcur.
      * apply (IH []). intros [].
    + change (rev cur ++ c :: s) with (rev cur ++ [c] ++ s).
      rewrite app_assoc. apply (IH (c :: cur)).
      intros [H | H]; [congruence | exact (Hcur H)].
Qed.

Lemma readlines_lines (content : str) : lines_of content (readlines content).
Proof. apply (readlines_acc_lines content []). intros []. Qed.

Lemma print_each_run {RNG : Type} (lines : list str) (w : World RNG) :
  exists w', print_each RNG lines w = (Ok tt, w').
Proof.
  revert w. induction lines as [| line rest IH]; intros w; cbn [print_each].
  - eexists. reflexivity.
  - unfold bind at 1. rewrite print_run. apply IH.
Qed.

(** C7, as stated, fails: an empty line of the data file gives an
    example, the empty one.  A file of three lines, the second one empty,
    gives three examples, where the spec counts two. *)
Lemma empty_line_is_an_example :
  fst (load_examples
         (Fake.env (lit "a" ++ nl ++ nl ++ lit "b" ++ nl))
         (Some (lit "data.txt")) (Fake.world []))
  = Ok [lit "a"; []; lit "b"]
  /\ examples_of_nonempty_lines (lit "a" ++ nl ++ nl ++ lit "b" ++ nl)
     = [lit "a"; lit "b"].
Proof. split; reflexivity. Qed.

(** C7, amended.  With a data file, the examples are the lines of the
    file, one example per line whether empty or not, each stripped of
    surrounding whitespace; with no data file, they are the two built-in
    prompts. *)
Theorem load_examples_one_per_line {RNG : Type} (env : Env) (path : str)
  (content : str) (w : World RNG) :
  fs_read env path = Ok content ->
  (exists lines w',
     lines_of (universal_newlines content) lines
     /\ load_examples env (Some path) w = (Ok (map strip lines), w'))
  /\ load_examples env None w
     = (Ok [ [20171; 32461; 19979; 21271; 20140]%N;
             [20057; 32925; 21644; 19993; 32925; 30340; 21306; 21035;
              65311]%N ], w).
Proof.
  intros Hread. split; [| reflexivity].
  exists (readlines (universal_newlines content)).
  unfold load_examples, open_readlines.
  unfold bind at 1. unfold bind at 1. unfold emit.
  unfold bind at 1, of_outcome. rewrite Hread. unfold ret at 1.
  unfold bind at 1. rewrite print_run.
  match goal with
  | |- context [bind (print_each _ ?l) _ ?w1] =>
      destruct (print_each_run l w1) as [w' Hprint]
  end.
  exists w'. split; [apply readlines_lines |].
  unfold bind. rewrite Hprint. reflexivity.
Qed.

Lemma load_examples_one_per_line_witness :
  fs_read (Fake.env (lit "a" ++ nl ++ nl ++ lit "b" ++ nl)) (lit "data.txt")
  = Ok (lit "a" ++ nl ++ nl ++ lit "b" ++ nl)
  /\ (exists lines w',
        lines_of (universal_newlines (lit "a" ++ nl ++ nl ++ lit "b" ++ nl))
          lines
        /\ load_examples (Fake.env (lit "a" ++ nl ++ nl ++ lit "b" ++ nl))
             (Some (lit "data.txt")) (Fake.world [])
           = (Ok (map strip lines), w'))
  /\ load_examples (Fake.env (lit "a" ++ nl ++ nl ++ lit "b" ++ nl)) None
       (Fake.world [])
     = (Ok [ [20171; 32461; 19979; 21271; 20140]%N;
             [20057; 32925; 21644; 19993; 32925; 30340; 21306; 21035;
              65311]%N ], Fake.world []).
Proof.
  split.
  - reflexivity.
  - apply (load_examples_one_per_line
             (Fake.env (lit "a" ++ nl ++ nl ++ lit "b" ++ nl))
             (lit "data.txt") (lit "a" ++ nl ++ nl ++ lit "b" ++ nl)
             (Fake.world [])).
    reflexivity.
Defined.

(* ====================================================================== *)
(** ** More on the bounded prompt *)
(* ====================================================================== *)

Lemma bounded_ids_suffix (tokenizer : Tokenizer) (prompt : str)
  (context_len : Z) :
  exists dropped,
    input_ids_of tokenizer prompt
    = dropped ++ bounded_ids tokenizer prompt context_len.
Proof.
  unfold bounded_ids, slice_from. eexists. symmetry. apply firstn_skipn.
Qed.

Lemma bounded_ids_length (tokenizer : Tokenizer) (prompt : str)
  (context_len : Z) :
  0 < max_src_len context_len ->
  len (bounded_ids tokenizer prompt context_len) <= max_src_len context_len.
Proof.
  intros Hpos. unfold bounded_ids. rewrite slice_from_neg by exact Hpos.
  unfold len. rewrite length_skipn. lia.
Qed.

(** X1.  Whatever [context_len] is, the one sequence [generate_answer]
    passes to [model.generate] is a suffix of the tokenized prompt: tokens
    are only ever dropped from the front, never reordered or dropped from
    the end; with a positive budget it is never longer than the budget. *)
Theorem generate_answer_passes_suffix {RNG : Type} (tokenizer : Tokenizer)
  (model : Model RNG) (prompt : str) (context_len : Z) (w : World RNG) :
  exists passed dropped,
    generate_calls
      (log (snd (generate_answer tokenizer model prompt context_len w)))
    = generate_calls (log w) ++ [passed]
    /\ input_ids_of tokenizer prompt = dropped ++ passed
    /\ (0 < max_src_len context_len ->
        len passed <= max_src_len context_len).
Proof.
  destruct (bounded_ids_suffix tokenizer prompt context_len) as [dropped Hd].
  exists (bounded_ids tokenizer prompt context_len), dropped.
  split; [apply generate_answer_calls |]. split; [exact Hd |].
  apply bounded_ids_length.
Qed.

(** X2.  With a negative budget [max_src_len = context_len - 408 < 0] the
    slice [input_ids[-max_src_len:]] starts at the positive index
    [-max_src_len]: the model receives the tokenization without its first
    [-max_src_len] tokens, which is the empty sequence when the
    tokenization is no longer than that. *)
Theorem generate_answer_negative_budget {RNG : Type} (tokenizer : Tokenizer)
  (model : Model RNG) (prompt : str) (context_len : Z) (w : World RNG) :
  max_src_len context_len < 0 ->
  exists passed,
    generate_calls
      (log (snd (generate_answer tokenizer model prompt context_len w)))
    = generate_calls (log w) ++ [passed]
    /\ passed
       = skipn (Z.to_nat (- max_src_len context_len))
           (input_ids_of tokenizer prompt)
    /\ (len (input_ids_of tokenizer prompt) <= - max_src_len context_len ->
        passed = []).
Proof.
  intros Hneg. exists (bounded_ids tokenizer prompt context_len).
  split; [apply generate_answer_calls |].
  unfold bounded_ids. rewrite slice_from_nonneg by lia.
  split; [reflexivity |].
  intros Hshort. apply skipn_all2. unfold len in Hshort. lia.
Qed.

Lemma generate_answer_negative_budget_witness :
  max_src_len 405 < 0
  /\ exists passed,
      generate_calls
        (log (snd (generate_answer (Fake.tokenizer (lit "</s>"))
                     (Fake.model (lit " reply</s>")) (lit "hello") 405
                     (Fake.world []))))
      = generate_calls (log (Fake.world [])) ++ [passed]
      /\ passed
         = skipn (Z.to_nat (- max_src_len 405))
             (input_ids_of (Fake.tokenizer (lit "</s>")) (lit "hello"))
      /\ (len (input_ids_of (Fake.tokenizer (lit "</s>")) (lit "hello"))
          <= - max_src_len 405 ->
          passed = []).
Proof.
  split.
  - reflexivity.
  - apply (generate_answer_negative_budget (Fake.tokenizer (lit "</s>"))
             (Fake.model (lit " reply</s>")) (lit "hello") 405
             (Fake.world [])).
    reflexivity.
Defined.

(* ====================================================================== *)
(** ** More on the continuation *)
(* ====================================================================== *)

(** X3.  When the decoded output is the decoded input, then a reply,
    then the end-of-sequence marker, [generate_answer] returns exactly the
    reply, even a reply that holds the marker itself. *)
Theorem generate_answer_returns_marked_reply {RNG : Type}
  (tokenizer : Tokenizer) (model : Model RNG) (prompt : str)
  (context_len : Z) (w : World RNG) (out : list token) (g : RNG)
  (reply : str) :
  generate model (bounded_ids tokenizer prompt context_len) answer_config
    (rng w) = (Ok out, g) ->
  decode tokenizer out
  = decode tokenizer (bounded_ids tokenizer prompt context_len)
    ++ reply ++ eos_token tokenizer ->
  fst (generate_answer tokenizer model prompt context_len w) = Ok reply.
Proof.
  intros Hgen Hout. rewrite (generate_answer_returns _ _ _ _ _ _ _ Hgen).
  rewrite Hout, continuation_of_marked_reply. reflexivity.
Qed.

Lemma generate_answer_returns_marked_reply_witness :
  generate (Fake.model (lit " a</s>b</s>"))
    (bounded_ids (Fake.tokenizer (lit "</s>")) (lit "hi") 2048)
    answer_config (rng (Fake.world []))
  = (Ok (map Z.of_N (lit "hi a</s>b</s>")), 1%nat)
  /\ decode (Fake.tokenizer (lit "</s>")) (map Z.of_N (lit "hi a</s>b</s>"))
     = decode (Fake.tokenizer (lit "</s>"))
         (bounded_ids (Fake.tokenizer (lit "</s>")) (lit "hi") 2048)
       ++ lit " a</s>b" ++ eos_token (Fake.tokenizer (lit "</s>"))
  /\ fst (generate_answer (Fake.tokenizer (lit "</s>"))
            (Fake.model (lit " a</s>b</s>")) (lit "hi") 2048 (Fake.world []))
     = Ok (lit " a</s>b").
Proof.
  split; [reflexivity |]. split; [reflexivity |].
  apply (generate_answer_returns_marked_reply (Fake.tokenizer (lit "</s>"))
           (Fake.model (lit " a</s>b</s>")) (lit "hi") 2048 (Fake.world [])
           (map Z.of_N (lit "hi a</s>b</s>")) 1%nat (lit " a</s>b"));
    reflexivity.
Defined.

(** X4.  When the decoded output is the decoded input and then a reply
    in which the marker does not occur (the generation ran into its token
    limit), [generate_answer] returns the whole reply. *)
Theorem generate_answer_returns_unmarked_reply {RNG : Type}
  (tokenizer : Tokenizer) (model : Model RNG) (prompt : str)
  (context_len : Z) (w : World RNG) (out : list token) (g : RNG)
  (reply : str) :
  generate model (bounded_ids tokenizer prompt context_len) answer_config
    (rng w) = (Ok out, g) ->
  decode tokenizer out
  = decode tokenizer (bounded_ids tokenizer prompt context_len) ++ reply ->
  ~ substring (eos_token tokenizer) reply ->
  fst (generate_answer tokenizer model prompt context_len w) = Ok reply.
Proof.
  intros Hgen Hout Hfree. rewrite (generate_answer_returns _ _ _ _ _ _ _ Hgen).
  rewrite Hout, continuation_of_unmarked_reply; [reflexivity |].
  intros p Hp Hocc. apply Hfree.
  set (prompt_text := decode tokenizer
                        (bounded_ids tokenizer prompt context_len)) in *.
  assert (Hin : occurs_at (eos_token tokenizer) reply (p - len prompt_text)).
  { apply (occurs_at_inside _ (prompt_text ++ reply) prompt_text reply []).
    - rewrite app_nil_r. reflexivity.
    - exact Hocc.
    - exact Hp.
    - pose proof (occurs_at_bounds _ _ _ Hocc) as [_ Hend].
      rewrite len_app in Hend. exact Hend. }
  destruct Hin as (before & after & Hreply & _).
  exists before, after. exact Hreply.
Qed.

Lemma generate_answer_returns_unmarked_reply_witness :
  generate (Fake.model (lit " cut off"))
    (bounded_ids (Fake.tokenizer (lit "</s>")) (lit "hi") 2048)
    answer_config (rng (Fake.world []))
  = (Ok (map Z.of_N (lit "hi cut off")), 1%nat)
  /\ decode (Fake.tokenizer (lit "</s>")) (map Z.of_N (lit "hi cut off"))
     = decode (Fake.tokenizer (lit "</s>"))
         (bounded_ids (Fake.tokenizer (lit "</s>")) (lit "hi") 2048)
       ++ lit " cut off"
  /\ ~ substring (eos_token (Fake.tokenizer (lit "</s>"))) (lit " cut off")
  /\ fst (generate_answer (Fake.tokenizer (lit "</s>"))
            (Fake.model (lit " cut off")) (lit "hi") 2048 (Fake.world []))
     = Ok (lit " cut off").
Proof.
  assert (Hfree : ~ substring (eos_token (Fake.tokenizer (lit "</s>")))
                      (lit " cut off")).
  { intros (before & after & H). cbn in H.
    repeat (destruct before as [| ? before]; cbn in H;
            [discriminate H | injection H as _ H]).
    destruct before; discriminate H. }
  split; [reflexivity |]. split; [reflexivity |]. split; [exact Hfree |].
  apply (generate_answer_returns_unmarked_reply (Fake.tokenizer (lit "</s>"))
           (Fake.model (lit " cut off")) (lit "hi") 2048 (Fake.world [])
           (map Z.of_N (lit "hi cut off")) 1%nat (lit " cut off"));
    [reflexivity | reflexivity | exact Hfree].
Defined.

(** X5.  Whenever the model returns, the answer is a piece of the decoded
    output that starts right at [l_prompt], the length of the decoded
    input: no character before that boundary is ever returned and nothing
    is added; when the decoded output is no longer than the decoded input,
    the answer is empty. *)
Theorem generate_answer_starts_at_boundary {RNG : Type}
  (tokenizer : Tokenizer) (model : Model RNG) (prompt : str)
  (context_len : Z) (w : World RNG) (out : list token) (g : RNG) :
  generate model (bounded_ids tokenizer prompt context_len) answer_config
    (rng w) = (Ok out, g) ->
  exists result after,
    fst (generate_answer tokenizer model prompt context_len w) = Ok result
    /\ skipn (length (decode tokenizer
                        (bounded_ids tokenizer prompt context_len)))
         (decode tokenizer out)
       = result ++ after
    /\ (len (decode tokenizer out)
        <= len (decode tokenizer (bounded_ids tokenizer prompt context_len))
        -> result = []).
Proof.
  intros Hgen.
  set (output := decode tokenizer out).
  set (stop_str := eos_token tokenizer).
  set (prompt_text := decode tokenizer (bounded_ids tokenizer prompt context_len)).
  pose proof (len_nonneg prompt_text) as Hl.
  assert (Hpiece : exists after,
             skipn (length prompt_text) output
             = continuation output stop_str (len prompt_text) ++ after).
  { destruct (Z.eq_dec (rfind output stop_str (len prompt_text)) (-1))
      as [Hr | Hr].
    - exists []. rewrite (continuation_to_the_end _ _ _ Hl Hr), app_nil_r.
      unfold len. rewrite Nat2Z.id. reflexivity.
    - destruct (continuation_between _ _ _ Hl Hr) as (b & a & Hout & Hb & _).
      exists (stop_str ++ a). rewrite Hout at 1.
      unfold len in Hb. apply Nat2Z.inj in Hb. rewrite <- Hb.
      apply skipn_exact. }
  destruct Hpiece as [after Hafter].
  exists (continuation output stop_str (len prompt_text)), after.
  split; [apply (generate_answer_returns _ _ _ _ _ _ _ Hgen) |].
  split; [exact Hafter |].
  intros Hshort. unfold len in Hshort.
  rewrite skipn_all2 in Hafter by lia.
  symmetry in Hafter. apply app_eq_nil in Hafter. tauto.
Qed.

Lemma generate_answer_starts_at_boundary_witness :
  generate (Fake.model (lit " reply</s> more"))
    (bounded_ids (Fake.tokenizer (lit "</s>")) (lit "hi") 2048)
    answer_config (rng (Fake.world []))
  = (Ok (map Z.of_N (lit "hi reply</s> more")), 1%nat)
  /\ exists result after,
      fst (generate_answer (Fake.tokenizer (lit "</s>"))
             (Fake.model (lit " reply</s> more")) (lit "hi") 2048
             (Fake.world [])) = Ok result
      /\ skipn (length (decode (Fake.tokenizer (lit "</s>"))
                          (bounded_ids (Fake.tokenizer (lit "</s>"))
                             (lit "hi") 2048)))
           (decode (Fake.tokenizer (lit "</s>"))
              (map Z.of_N (lit "hi reply</s> more")))
         = result ++ after
      /\ (len (decode (Fake.tokenizer (lit "</s>"))
                 (map Z.of_N (lit "hi reply</s> more")))
          <= len (decode (Fake.tokenizer (lit "</s>"))
                    (bounded_ids (Fake.tokenizer (lit "</s>")) (lit "hi")
                       2048))
          -> result = []).
Proof.
  split.
  - reflexivity.
  - apply (generate_answer_starts_at_boundary (Fake.tokenizer (lit "</s>"))
             (Fake.model (lit " reply</s> more")) (lit "hi") 2048
             (Fake.world []) (map Z.of_N (lit "hi reply</s> more")) 1%nat).
    reflexivity.
Defined.

(** X6.  With an empty end-of-sequence marker, [rfind] finds it at the
    very end of the output, so nothing is cut: the answer is all of the
    decoded output from [l_prompt] on. *)
Theorem generate_answer_empty_marker {RNG : Type}
  (tokenizer : Tokenizer) (model : Model RNG) (prompt : str)
  (context_len : Z) (w : World RNG) (out : list token) (g : RNG) :
  eos_token tokenizer = [] ->
  generate model (bounded_ids tokenizer prompt context_len) answer_config
    (rng w) = (Ok out, g) ->
  fst (generate_answer tokenizer model prompt context_len w)
  = Ok (skipn (length (decode tokenizer
                         (bounded_ids tokenizer prompt context_len)))
          (decode tokenizer out)).
Proof.
  intros Heos Hgen. rewrite (generate_answer_returns _ _ _ _ _ _ _ Hgen).
  rewrite Heos. f_equal.
  set (output := decode tokenizer out).
  set (prompt_text := decode tokenizer (bounded_ids tokenizer prompt context_len)).
  pose proof (len_nonneg prompt_text) as Hl.
  destruct (Z.eq_dec (rfind output [] (len prompt_text)) (-1)) as [Hr | Hr].
  - rewrite (continuation_to_the_end _ _ _ Hl Hr). unfold len.
    rewrite Nat2Z.id. reflexivity.
  - destruct (rfind_found _ _ _ Hl Hr) as (Hle & Hat & Hmax).
    destruct (continuation_between _ _ _ Hl Hr) as (b & a & Hout & Hb & Hpos).
    pose proof (occurs_at_bounds _ _ _ Hat) as [_ Hend].
    assert (Hlast : occurs_at [] output (len output)).
    { exists output, []. rewrite app_nil_r. split; reflexivity. }
    assert (Hin : len prompt_text <= len output)
      by (change (len (@nil char)) with 0 in Hend; lia).
    pose proof (Hmax _ Hin Hlast) as Hfull.
    cbn [app] in Hout.
    assert (Ha : a = []).
    { apply (f_equal (@length char)) in Hout.
      rewrite !length_app in Hout. rewrite len_app in Hpos.
      unfold len in *.
      destruct a; [reflexivity | cbn [length] in Hout; lia]. }
    subst a. rewrite app_nil_r in Hout. rewrite Hout at 2.
    unfold len in Hb. apply Nat2Z.inj in Hb. rewrite <- Hb.
    symmetry. apply skipn_exact.
Qed.

Lemma generate_answer_empty_marker_witness :
  eos_token (Fake.tokenizer []) = []
  /\ generate (Fake.model (lit " reply"))
       (bounded_ids (Fake.tokenizer []) (lit "hi") 2048)
       answer_config (rng (Fake.world []))
     = (Ok (map Z.of_N (lit "hi reply")), 1%nat)
  /\ fst (generate_answer (Fake.tokenizer []) (Fake.model (lit " reply"))
            (lit "hi") 2048 (Fake.world []))
     = Ok (skipn (length (decode (Fake.tokenizer [])
                            (bounded_ids (Fake.tokenizer []) (lit "hi")
                               2048)))
             (decode (Fake.tokenizer []) (map Z.of_N (lit "hi reply")))).
Proof.
  split; [reflexivity |]. split; [reflexivity |].
  apply (generate_answer_empty_marker (Fake.tokenizer [])
           (Fake.model (lit " reply")) (lit "hi") 2048 (Fake.world [])
           (map Z.of_N (lit "hi reply")) 1%nat); reflexivity.
Defined.

(* ====================================================================== *)
(** ** More on interactive mode *)
(* ====================================================================== *)

Lemma input_calls_app (l1 l2 : list Event) :
  input_calls (l1 ++ l2) = input_calls l1 ++ input_calls l2.
Proof.
  induction l1 as [| e l1 IH]; [reflexivity |].
  destruct e; cbn; rewrite IH; reflexivity.
Qed.

(** The loop on [lines], all non-empty, then the end of the input: what
    is left in the conversation and of the input. *)
Lemma interactive_loop_history {RNG : Type} (tokenizer : Tokenizer)
  (model : Model RNG) (templates : Templates) (lines tail : list str) :
  never_raises model ->
  Forall (fun line => line <> []) lines ->
  input_ends tail ->
  forall (fuel : nat) (conv : Conversation) (w : World RNG),
    stdin w = lines ++ tail ->
    (length lines < fuel)%nat ->
    exists replies conv' w',
      while_true fuel (interactive_body tokenizer model templates) conv w
      = (Ok (Some conv'), w')
      /\ length replies = length lines
      /\ Forall trimmed replies
      /\ name conv' = name conv
      /\ roles conv' = roles conv
      /\ messages conv' = messages conv ++ turns conv lines replies
      /\ stdin w' = tl tail
      /\ input_calls (log w')
         = input_calls (log w)
           ++ repeat (fst (roles conv) ++ lit ": ") (S (length lines))
      /\ tokenize_calls (log w')
         = tokenize_calls (log w)
           ++ session_prompts templates conv lines replies.
Proof.
  intros Hok Hlines Hend.
  induction Hlines as [| inp rest Hinp Hrest IH]; intros fuel conv w Hin Hfuel.
  - destruct fuel as [| fuel]; [cbn in Hfuel; lia |].
    cbn [while_true]. unfold bind at 1.
    rewrite interactive_body_stops by (rewrite Hin; exact Hend).
    exists [], conv. eexists. split; [reflexivity |]. cbn [log stdin].
    rewrite Hin, input_calls_app, tokenize_calls_app. cbn.
    rewrite !app_nil_r.
    repeat split; try reflexivity. constructor.
  - destruct fuel as [| fuel]; [cbn in Hfuel; lia |].
    destruct (Hok (bounded_ids tokenizer (turn_prompt templates conv inp)
                     default_context_len) answer_config (rng w))
      as (out & g & Hgen).
    cbn [while_true]. unfold bind at 1.
    rewrite (interactive_body_turn tokenizer model templates conv w inp
               (rest ++ tail) out g Hin Hinp Hgen).
    set (reply := strip (continuation _ _ _)).
    match goal with
    | |- context [while_true fuel _ ?c ?w1] =>
        destruct (IH fuel c w1 eq_refl ltac:(cbn in Hfuel; lia))
          as (replies & conv' & w' & Hrun & Hlen & Htrim & Hname & Hroles
              & Hmsgs & Hstdin & Hinputs & Hprompts)
    end.
    exists (reply :: replies), conv', w'. split; [exact Hrun |].
    split; [cbn; rewrite Hlen; reflexivity |].
    split; [constructor; [apply strip_trimmed | exact Htrim] |].
    split; [exact Hname |]. split; [exact Hroles |].
    split; [| split; [exact Hstdin | split]].
    + rewrite Hmsgs. cbn. rewrite <- app_assoc. reflexivity.
    + rewrite Hinputs. cbn [log after_turn roles].
      rewrite input_calls_app. cbn [input_calls length].
      rewrite <- app_assoc. reflexivity.
    + rewrite Hprompts. cbn [log]. rewrite tokenize_calls_app.
      cbn [tokenize_calls session_prompts]. rewrite <- app_assoc.
      reflexivity.
Qed.

(** X7.  A whole interactive session on [lines], none empty, with a model
    that always returns: the history ends up as the initial messages
    followed, for each line in order, by the user message holding the line
    as typed and the assistant message holding a trimmed reply; the
    template name and the role labels are left alone. *)
Theorem interactive_session_history {RNG : Type} (tokenizer : Tokenizer)
  (model : Model RNG) (templates : Templates) (template_name : str)
  (conv : Conversation) (lines tail : list str) (fuel : nat)
  (w : World RNG) :
  get_conv_template templates template_name = Ok conv ->
  never_raises model ->
  Forall (fun line => line <> []) lines ->
  input_ends tail ->
  stdin w = lines ++ tail ->
  (length lines < fuel)%nat ->
  exists replies conv' w',
    interactive_mode tokenizer model templates fuel template_name w
    = (Ok (Some conv'), w')
    /\ length replies = length lines
    /\ Forall trimmed replies
    /\ name conv' = name conv
    /\ roles conv' = roles conv
    /\ messages conv' = messages conv ++ turns conv lines replies.
Proof.
  intros Htpl Hok Hlines Hend Hin Hfuel.
  unfold interactive_mode. unfold bind at 1, of_outcome. rewrite Htpl.
  unfold bind at 1. rewrite print_run.
  destruct (interactive_loop_history tokenizer model templates lines tail
              Hok Hlines Hend fuel conv
              (logged w [EvStdout (lit "Start inference with interactive mode."
                                   ++ nl)]) Hin Hfuel)
    as (replies & conv' & w' & Hrun & Hlen & Htrim & Hname & Hroles & Hmsgs
        & _).
  exists replies, conv', w'. repeat split; assumption.
Qed.

Lemma interactive_session_history_witness :
  get_conv_template Fake.templates (lit "vicuna")
  = Ok (Fake.fresh (lit "vicuna"))
  /\ never_raises (Fake.model (lit " reply </s>"))
  /\ Forall (fun line => line <> []) [lit "hi"; lit "more"]
  /\ input_ends [[]; lit "unread"]
  /\ stdin (Fake.world [lit "hi"; lit "more"; []; lit "unread"])
     = [lit "hi"; lit "more"] ++ [[]; lit "unread"]
  /\ (length [lit "hi"; lit "more"] < 3)%nat
  /\ exists replies conv' w',
      interactive_mode (Fake.tokenizer (lit "</s>"))
        (Fake.model (lit " reply </s>")) Fake.templates 3 (lit "vicuna")
        (Fake.world [lit "hi"; lit "more"; []; lit "unread"])
      = (Ok (Some conv'), w')
      /\ length replies = length [lit "hi"; lit "more"]
      /\ Forall trimmed replies
      /\ name conv' = name (Fake.fresh (lit "vicuna"))
      /\ roles conv' = roles (Fake.fresh (lit "vicuna"))
      /\ messages conv'
         = messages (Fake.fresh (lit "vicuna"))
           ++ turns (Fake.fresh (lit "vicuna")) [lit "hi"; lit "more"]
                replies.
Proof.
  assert (Hok : never_raises (Fake.model (lit " reply </s>"))).
  { intros ids config g. eexists _, _. reflexivity. }
  assert (Hlines : Forall (fun line : str => line <> [])
                     [lit "hi"; lit "more"]).
  { repeat constructor; discriminate. }
  assert (Hend : input_ends [[]; lit "unread"]).
  { right. eexists. reflexivity. }
  split; [reflexivity |]. split; [exact Hok |]. split; [exact Hlines |].
  split; [exact Hend |]. split; [reflexivity |]. split; [cbn; lia |].
  apply (interactive_session_history (Fake.tokenizer (lit "</s>"))
           (Fake.model (lit " reply </s>")) Fake.templates (lit "vicuna")
           (Fake.fresh (lit "vicuna")) [lit "hi"; lit "more"]
           [[]; lit "unread"] 3
           (Fake.world [lit "hi"; lit "more"; []; lit "unread"])).
  - reflexivity.
  - exact Hok.
  - exact Hlines.
  - exact Hend.
  - reflexivity.
  - cbn. lia.
Defined.

(** X8.  The session reads one line per turn and one more, the empty
    line or the end of the input that stops it: whatever follows that
    empty line is left unread. *)
Theorem interactive_session_input {RNG : Type} (tokenizer : Tokenizer)
  (model : Model RNG) (templates : Templates) (template_name : str)
  (conv : Conversation) (lines tail : list str) (fuel : nat)
  (w : World RNG) :
  get_conv_template templates template_name = Ok conv ->
  never_raises model ->
  Forall (fun line => line <> []) lines ->
  input_ends tail ->
  stdin w = lines ++ tail ->
  (length lines < fuel)%nat ->
  exists conv' w',
    interactive_mode tokenizer model templates fuel template_name w
    = (Ok (Some conv'), w')
    /\ stdin w' = tl tail
    /\ input_calls (log w')
       = input_calls (log w)
         ++ repeat (fst (roles conv) ++ lit ": ") (S (length lines)).
Proof.
  intros Htpl Hok Hlines Hend Hin Hfuel.
  unfold interactive_mode. unfold bind at 1, of_outcome. rewrite Htpl.
  unfold bind at 1. rewrite print_run.
  destruct (interactive_loop_history tokenizer model templates lines tail
              Hok Hlines Hend fuel conv
              (logged w [EvStdout (lit "Start inference with interactive mode."
                                   ++ nl)]) Hin Hfuel)
    as (replies & conv' & w' & Hrun & _ & _ & _ & _ & _ & Hstdin & Hinputs
        & _).
  exists conv', w'. split; [exact Hrun |]. split; [exact Hstdin |].
  rewrite Hinputs. cbn [logged log]. rewrite input_calls_app. cbn.
  rewrite app_nil_r. reflexivity.
Qed.

Lemma interactive_session_input_witness :
  get_conv_template Fake.templates (lit "vicuna")
  = Ok (Fake.fresh (lit "vicuna"))
  /\ never_raises (Fake.model (lit " reply </s>"))
  /\ Forall (fun line => line <> []) [lit "hi"]
  /\ input_ends [[]; lit "unread"]
  /\ stdin (Fake.world [lit "hi"; []; lit "unread"])
     = [lit "hi"] ++ [[]; lit "unread"]
  /\ (length [lit "hi"] < 2)%nat
  /\ exists conv' w',
      interactive_mode (Fake.tokenizer (lit "</s>"))
        (Fake.model (lit " reply </s>")) Fake.templates 2 (lit "vicuna")
        (Fake.world [lit "hi"; []; lit "unread"])
      = (Ok (Some conv'), w')
      /\ stdin w' = tl [[]; lit "unread"]
      /\ input_calls (log w')
         = input_calls (log (Fake.world [lit "hi"; []; lit "unread"]))
           ++ repeat (fst (roles (Fake.fresh (lit "vicuna"))) ++ lit ": ")
                (S (length [lit "hi"])).
Proof.
  assert (Hok : never_raises (Fake.model (lit " reply </s>"))).
  { intros ids config g. eexists _, _. reflexivity. }
  assert (Hlines : Forall (fun line : str => line <> []) [lit "hi"]).
  { repeat constructor; discriminate. }
  assert (Hend : input_ends [[]; lit "unread"]).
  { right. eexists. reflexivity. }
  split; [reflexivity |]. split; [exact Hok |]. split; [exact Hlines |].
  split; [exact Hend |]. split; [reflexivity |]. split; [cbn; lia |].
  apply (interactive_session_input (Fake.tokenizer (lit "</s>"))
           (Fake.model (lit " reply </s>")) Fake.templates (lit "vicuna")
           (Fake.fresh (lit "vicuna")) [lit "hi"] [[]; lit "unread"] 2
           (Fake.world [lit "hi"; []; lit "unread"])).
  - reflexivity.
  - exact Hok.
  - exact Hlines.
  - exact Hend.
  - reflexivity.
  - cbn. lia.
Defined.

(* ====================================================================== *)
(** ** What an action may add to the log *)
(* ====================================================================== *)

Section Events.

Context {RNG : Type}.
Variable P : Event -> Prop.

Lemma only_events_ret {A : Type} (a : A) : only_events P (@ret RNG A a).
Proof. intros w. exists []. cbn. rewrite app_nil_r. split; constructor. Qed.

Lemma only_events_raise {A : Type} (e : exn) : only_events P (@raise RNG A e).
Proof. intros w. exists []. cbn. rewrite app_nil_r. split; constructor. Qed.

Lemma only_events_of_outcome {A : Type} (o : outcome A) :
  only_events P (@of_outcome RNG A o).
Proof. intros w. exists []. cbn. rewrite app_nil_r. split; constructor. Qed.

Lemma only_events_of_error (o : option exn) :
  only_events P (@of_error RNG o).
Proof.
  destruct o; [apply only_events_raise | apply only_events_ret].
Qed.

Lemma only_events_emit (e : Event) : P e -> only_events P (@emit RNG e).
Proof.
  intros He w. exists [e]. cbn. split; [reflexivity |].
  constructor; [exact He | constructor].
Qed.

Lemma only_events_bind {A B : Type} (m : M RNG A) (k : A -> M RNG B) :
  only_events P m -> (forall a, only_events P (k a)) ->
  only_events P (bind m k).
Proof.
  intros Hm Hk w. destruct (Hm w) as (e1 & Hlog1 & HP1). unfold bind.
  destruct (m w) as [[a | e] w1]; cbn [snd] in *.
  - destruct (Hk a w1) as (e2 & Hlog2 & HP2).
    exists (e1 ++ e2). rewrite Hlog2, Hlog1, app_assoc.
    split; [reflexivity |]. apply Forall_app. split; assumption.
  - exists e1. split; assumption.
Qed.

Lemma only_events_try_except {A : Type} (m : M RNG A)
  (h : exn -> option (M RNG A)) :
  only_events P m -> (forall e k, h e = Some k -> only_events P k) ->
  only_events P (try_except m h).
Proof.
  intros Hm Hh w. destruct (Hm w) as (e1 & Hlog1 & HP1). unfold try_except.
  destruct (m w) as [[a | e] w1]; cbn [snd] in *.
  - exists e1. split; assumption.
  - destruct (h e) as [k |] eqn:Hk.
    + destruct (Hh e k Hk w1) as (e2 & Hlog2 & HP2).
      exists (e1 ++ e2). rewrite Hlog2, Hlog1, app_assoc.
      split; [reflexivity |]. apply Forall_app. split; assumption.
    + exists e1. split; assumption.
Qed.

Lemma only_events_while_true {S : Type} (body : S -> M RNG (ctl S)) :
  (forall s, only_events P (body s)) ->
  forall fuel s, only_events P (while_true fuel body s).
Proof.
  intros Hbody. induction fuel as [| fuel IH]; intros s; cbn [while_true].
  - apply only_events_ret.
  - apply only_events_bind; [apply Hbody |].
    intros [s' | s']; [apply IH | apply only_events_ret].
Qed.

Lemma only_events_input (prompt : str) :
  P (EvInput prompt) -> only_events P (@input RNG prompt).
Proof.
  intros He. unfold input. apply only_events_bind.
  - apply only_events_emit. exact He.
  - intros _ w. exists []. rewrite app_nil_r. split; [| constructor].
    destruct (stdin w); reflexivity.
Qed.

Lemma only_events_model_generate (model : Model RNG) (ids : list token)
  (config : GenerationConfig) :
  P (EvGenerate ids config) ->
  only_events P (model_generate RNG model ids config).
Proof.
  intros He. unfold model_generate. apply only_events_bind.
  - apply only_events_emit. exact He.
  - intros _ w. exists []. rewrite app_nil_r. split; [| constructor].
    destruct (generate model ids config (rng w)). reflexivity.
Qed.

End Events.

Lemma only_events_weaken {RNG A : Type} (P Q : Event -> Prop) (m : M RNG A) :
  (forall e, P e -> Q e) -> only_events P m -> only_events Q m.
Proof.
  intros HPQ Hm w. destruct (Hm w) as (events & Hlog & HP).
  exists events. split; [exact Hlog |].
  apply (Forall_impl Q HPQ). exact HP.
Qed.

Section Stdin.

Context {RNG : Type}.

Lemma keeps_stdin_ret {A : Type} (a : A) : keeps_stdin (@ret RNG A a).
Proof. intros w. reflexivity. Qed.

Lemma keeps_stdin_raise {A : Type} (e : exn) : keeps_stdin (@raise RNG A e).
Proof. intros w. reflexivity. Qed.

Lemma keeps_stdin_of_outcome {A : Type} (o : outcome A) :
  keeps_stdin (@of_outcome RNG A o).
Proof. intros w. reflexivity. Qed.

Lemma keeps_stdin_of_error (o : option exn) : keeps_stdin (@of_error RNG o).
Proof. destruct o; intros w; reflexivity. Qed.

Lemma keeps_stdin_emit (e : Event) : keeps_stdin (@emit RNG e).
Proof. intros w. reflexivity. Qed.

Lemma keeps_stdin_bind {A B : Type} (m : M RNG A) (k : A -> M RNG B) :
  keeps_stdin m -> (forall a, keeps_stdin (k a)) -> keeps_stdin (bind m k).
Proof.
  intros Hm Hk w. specialize (Hm w). unfold bind.
  destruct (m w) as [[a | e] w1]; cbn [snd] in *.
  - rewrite Hk. exact Hm.
  - exact Hm.
Qed.

Lemma keeps_stdin_model_generate (model : Model RNG) (ids : list token)
  (config : GenerationConfig) :
  keeps_stdin (model_generate RNG model ids config).
Proof.
  unfold model_generate. apply keeps_stdin_bind; [apply keeps_stdin_emit |].
  intros _ w. destruct (generate model ids config (rng w)). reflexivity.
Qed.

End Stdin.

(** Peels the binds of an action off, down to its calls. *)
Ltac step_events :=
  repeat first
    [ apply only_events_bind; [| intros ?]
    | apply only_events_ret
    | apply only_events_raise
    | apply only_events_of_outcome
    | apply only_events_of_error
    | apply only_events_emit; cbn; try exact I ].

Ltac step_stdin :=
  repeat first
    [ apply keeps_stdin_bind; [| intros ?]
    | apply keeps_stdin_ret
    | apply keeps_stdin_raise
    | apply keeps_stdin_of_outcome
    | apply keeps_stdin_of_error
    | apply keeps_stdin_emit
    | apply keeps_stdin_model_generate ].

Lemma generate_answer_events {RNG : Type} (tokenizer : Tokenizer)
  (model : Model RNG) (prompt : str) :
  only_events body_event
    (generate_answer tokenizer model prompt default_context_len).
Proof.
  assert (Hgen : body_event
                   (EvGenerate
                      (bounded_ids tokenizer prompt default_context_len)
                      answer_config)).
  { split; [| reflexivity].
    apply (bounded_ids_length tokenizer prompt default_context_len).
    reflexivity. }
  intros w. rewrite generate_answer_run. cbv zeta.
  destruct (generate model _ answer_config (rng w)) as [[out | e] g];
    eexists; (split; [reflexivity |]);
    repeat first [apply Forall_cons | apply Forall_nil];
    first [exact Hgen | exact I].
Qed.

Lemma generate_answer_keeps_stdin {RNG : Type} (tokenizer : Tokenizer)
  (model : Model RNG) (prompt : str) (context_len : Z) :
  keeps_stdin (generate_answer tokenizer model prompt context_len).
Proof.
  intros w. rewrite generate_answer_run. cbv zeta.
  destruct (generate model _ answer_config (rng w)) as [[out | e] g];
    reflexivity.
Qed.

Lemma batch_loop_events {RNG : Type} (tokenizer : Tokenizer)
  (model : Model RNG) (templates : Templates) (template_name : str)
  (examples : list str) :
  forall index results,
    only_events body_event
      (batch_loop tokenizer model templates template_name index examples
         results).
Proof.
  induction examples as [| example rest IH]; intros index results;
    cbn [batch_loop].
  - apply only_events_ret.
  - apply only_events_bind; [apply only_events_of_outcome | intros conv].
    apply only_events_bind; [apply generate_answer_events | intros response].
    unfold print. step_events. apply IH.
Qed.

Lemma batch_loop_keeps_stdin {RNG : Type} (tokenizer : Tokenizer)
  (model : Model RNG) (templates : Templates) (template_name : str)
  (examples : list str) :
  forall index results,
    keeps_stdin
      (batch_loop tokenizer model templates template_name index examples
         results).
Proof.
  induction examples as [| example rest IH]; intros index results;
    cbn [batch_loop].
  - apply keeps_stdin_ret.
  - apply keeps_stdin_bind; [apply keeps_stdin_of_outcome | intros conv].
    apply keeps_stdin_bind; [apply generate_answer_keeps_stdin |
                              intros response].
    unfold print. step_stdin. apply IH.
Qed.

(* ====================================================================== *)
(** ** More on batch mode *)
(* ====================================================================== *)

Lemma makedirs_calls_app (l1 l2 : list Event) :
  makedirs_calls (l1 ++ l2) = makedirs_calls l1 ++ makedirs_calls l2.
Proof.
  induction l1 as [| e l1 IH]; [reflexivity |].
  destruct e; cbn; rewrite IH; reflexivity.
Qed.

(** The events of the loop touch neither the files nor the input. *)
Lemma body_events_quiet (events : list Event) :
  Forall body_event events ->
  dumped events = [] /\ opened_for_writing events = []
  /\ makedirs_calls events = [] /\ input_calls events = [].
Proof.
  induction 1 as [| e events He _ IH]; [repeat split |].
  destruct e; cbn in He |- *; try contradiction; exact IH.
Qed.

(** What the loop has done when it returns. *)
Lemma batch_loop_length {RNG : Type} (tokenizer : Tokenizer)
  (model : Model RNG) (templates : Templates) (template_name : str)
  (examples : list str) :
  forall index results w final w',
    batch_loop tokenizer model templates template_name index examples
      results w = (Ok final, w') ->
    length final = (length results + length examples)%nat
    /\ length (generate_calls (log w'))
       = (length (generate_calls (log w)) + length examples)%nat.
Proof.
  induction examples as [| example rest IH];
    intros index results w final w'; cbn [batch_loop].
  - intros H. injection H as <- <-. cbn. lia.
  - unfold bind at 1, of_outcome.
    destruct (get_conv_template templates template_name) as [conv | e];
      [| discriminate].
    unfold bind at 1.
    match goal with
    | |- context [generate_answer ?t ?m ?p ?c w] =>
        pose proof (generate_answer_calls t m p c w) as [Hcalls _];
        destruct (generate_answer t m p c w) as [[response | e] w1];
        [| discriminate]
    end.
    cbn [snd] in Hcalls.
    unfold bind at 1. rewrite print_run.
    unfold bind at 1. rewrite print_run.
    unfold bind at 1. rewrite print_run.
    intros H. apply IH in H as [Hlen Hgc]. split.
    + rewrite Hlen, length_app. cbn. lia.
    + rewrite Hgc. cbn [logged log]. rewrite !generate_calls_app. cbn.
      rewrite !app_nil_r, Hcalls, length_app. cbn. lia.
Qed.

(** X9.  Batch mode never hands a partial batch to [json.dump].  In
    every run [json.dump] is called at most once, after every example has
    been through the model, on one record per example.  When the run
    returns, that call was made and the predictions file opened once.  When
    the run raises, either [json.dump] was not called at all, or the
    exception is the [UnicodeEncodeError] of that very call, on a record
    with a character the encoding of the file lacks. *)
Theorem batch_mode_all_or_nothing {RNG : Type} (tokenizer : Tokenizer)
  (model : Model RNG) (templates : Templates) (env : Env)
  (template_name : str) (examples : list str) (predictions_file : str)
  (w : World RNG) :
  match batch_mode tokenizer model templates env template_name examples
          predictions_file w with
  | (Ok _, w') =>
      exists results,
        dumped (log w') = dumped (log w) ++ [results]
        /\ length results = length examples
        /\ opened_for_writing (log w')
           = opened_for_writing (log w) ++ [predictions_file]
        /\ length (generate_calls (log w'))
           = (length (generate_calls (log w)) + length examples)%nat
  | (Raise e, w') =>
      dumped (log w') = dumped (log w)
      \/ (e = UnicodeEncodeError
          /\ exists results,
              dumped (log w') = dumped (log w) ++ [results]
              /\ length results = length examples
              /\ forallb (writable_record env) results = false
              /\ length (generate_calls (log w'))
                 = (length (generate_calls (log w)) + length examples)%nat)
  end.
Proof.
  unfold batch_mode. unfold bind at 1. rewrite print_run.
  set (w0 := logged w [EvStdout (lit "Start inference." ++ nl)]).
  assert (Hw0 : dumped (log w0) = dumped (log w)
                /\ opened_for_writing (log w0) = opened_for_writing (log w)
                /\ generate_calls (log w0) = generate_calls (log w)).
  { unfold w0. cbn [logged log].
    rewrite dumped_app, opened_for_writing_app, generate_calls_app. cbn.
    rewrite !app_nil_r. repeat split. }
  destruct Hw0 as (Hd0 & Ho0 & Hg0).
  destruct (batch_loop_events tokenizer model templates template_name
              examples 0%nat [] w0) as (events & Hlog & Hev).
  apply body_events_quiet in Hev as (Hd & Ho & _ & _).
  unfold bind at 1.
  destruct (batch_loop tokenizer model templates template_name 0 examples []
              w0) as [[results | e] w1] eqn:Hloop; cbn [snd] in Hlog.
  - apply batch_loop_length in Hloop as [Hlen Hgc]. cbn [length] in Hlen.
    assert (Hd1 : dumped (log w1) = dumped (log w))
      by (rewrite Hlog, dumped_app, Hd, app_nil_r; exact Hd0).
    assert (Ho1 : opened_for_writing (log w1) = opened_for_writing (log w))
      by (rewrite Hlog, opened_for_writing_app, Ho, app_nil_r; exact Ho0).
    rewrite Hg0 in Hgc.
    unfold os_makedirs, open_w, json_dump, bind, emit, of_error, raise, ret.
    cbn [rng stdin log].
    destruct (os_path_dirname predictions_file) as [| c d].
    + left. cbn [log]. rewrite dumped_app. cbn. rewrite app_nil_r. exact Hd1.
    + destruct (fs_makedirs env (c :: d)).
      * left. cbn [log]. rewrite dumped_app. cbn. rewrite app_nil_r.
        exact Hd1.
      * cbn [rng stdin log]. destruct (fs_open_w env predictions_file).
        -- left. cbn [log]. rewrite !dumped_app. cbn. rewrite !app_nil_r.
           exact Hd1.
        -- cbn [rng stdin log].
           destruct (forallb (writable_record env) results) eqn:Hw.
           ++ cbn [log]. exists results.
              rewrite !dumped_app, !opened_for_writing_app,
                !generate_calls_app. cbn. rewrite !app_nil_r.
              rewrite Hd1, Ho1. repeat split; assumption.
           ++ right. split; [reflexivity |]. exists results. cbn [log].
              rewrite !dumped_app, !generate_calls_app. cbn.
              rewrite !app_nil_r. rewrite Hd1. repeat split; assumption.
  - left. rewrite Hlog, dumped_app, Hd, app_nil_r. exact Hd0.
Qed.

(** Under an ASCII locale the built-in prompts cannot be written: the
    file is opened, [json.dump] is called and raises. *)
Example batch_mode_ascii_locale :
  fst (batch_mode (Fake.tokenizer (lit "</s>"))
         (Fake.model (lit " stubbed reply</s>")) Fake.templates
         (Fake.ascii_env []) (lit "vicuna") builtin_examples
         (lit "./predictions.json") (Fake.world []))
  = Raise UnicodeEncodeError
  /\ opened_for_writing
       (log (snd (batch_mode (Fake.tokenizer (lit "</s>"))
                    (Fake.model (lit " stubbed reply</s>")) Fake.templates
                    (Fake.ascii_env []) (lit "vicuna") builtin_examples
                    (lit "./predictions.json") (Fake.world []))))
     = [lit "./predictions.json"].
Proof. split; reflexivity. Qed.

(** X10.  With no example at all, batch mode never looks the template up
    and never calls the model: even for a template name that does not
    exist, it writes the empty document, provided the directory and the
    file can be made. *)
Theorem batch_mode_no_examples {RNG : Type} (tokenizer : Tokenizer)
  (model : Model RNG) (templates : Templates) (env : Env)
  (template_name : str) (predictions_file : str) (w : World RNG) :
  os_path_dirname predictions_file <> [] ->
  fs_makedirs env (os_path_dirname predictions_file) = None ->
  fs_open_w env predictions_file = None ->
  exists w',
    batch_mode tokenizer model templates env template_name []
      predictions_file w = (Ok tt, w')
    /\ dumped (log w') = dumped (log w) ++ [[]]
    /\ generate_calls (log w') = generate_calls (log w)
    /\ tokenize_calls (log w') = tokenize_calls (log w).
Proof.
  intros Hdir Hmk Hopen.
  unfold batch_mode, os_makedirs, open_w, json_dump, print, bind, emit,
    of_error, ret. cbn.
  destruct (os_path_dirname predictions_file) as [| c d]; [congruence |].
  rewrite Hmk, Hopen. cbn. eexists. split; [reflexivity |]. cbn.
  rewrite !dumped_app, !generate_calls_app, !tokenize_calls_app. cbn.
  rewrite !app_nil_r. repeat split.
Qed.

Lemma batch_mode_no_examples_witness :
  os_path_dirname (lit "out/predictions.json") <> []
  /\ fs_makedirs (Fake.env []) (os_path_dirname (lit "out/predictions.json"))
     = None
  /\ fs_open_w (Fake.env []) (lit "out/predictions.json") = None
  /\ exists w',
      batch_mode (Fake.tokenizer (lit "</s>")) Fake.broken_model
        {| get_conv_template := fun _ => Raise (OtherError 2);
           get_prompt := fun _ => [] |}
        (Fake.env []) (lit "nowhere") [] (lit "out/predictions.json")
        (Fake.world []) = (Ok tt, w')
      /\ dumped (log w') = dumped (log (Fake.world [])) ++ [[]]
      /\ generate_calls (log w') = generate_calls (log (Fake.world []))
      /\ tokenize_calls (log w') = tokenize_calls (log (Fake.world [])).
Proof.
  split; [vm_compute; congruence |]. split; [reflexivity |].
  split; [reflexivity |].
  apply (batch_mode_no_examples (Fake.tokenizer (lit "</s>"))
           Fake.broken_model
           {| get_conv_template := fun _ => Raise (OtherError 2);
              get_prompt := fun _ => [] |}
           (Fake.env []) (lit "nowhere") (lit "out/predictions.json")
           (Fake.world [])).
  - vm_compute. congruence.
  - reflexivity.
  - reflexivity.
Defined.

(** X11.  A template name that [get_conv_template] does not know aborts
    both modes with the exception of the lookup before anything is
    tokenized or generated: interactive mode at once, before any prompt
    for input, and batch mode at its first example, before any directory
    is made or file opened. *)
Theorem unknown_template_aborts {RNG : Type} (tokenizer : Tokenizer)
  (model : Model RNG) (templates : Templates) (env : Env)
  (template_name : str) (e : exn) (fuel : nat) (example : str)
  (examples : list str) (predictions_file : str) (w : World RNG) :
  get_conv_template templates template_name = Raise e ->
  interactive_mode tokenizer model templates fuel template_name w
  = (Raise e, w)
  /\ batch_mode tokenizer model templates env template_name
       (example :: examples) predictions_file w
     = (Raise e, logged w [EvStdout (lit "Start inference." ++ nl)]).
Proof.
  intros Htpl. split.
  - unfold interactive_mode, bind, of_outcome. rewrite Htpl. reflexivity.
  - unfold batch_mode. unfold bind at 1. rewrite print_run.
    cbn [batch_loop]. unfold bind, of_outcome. rewrite Htpl. reflexivity.
Qed.

Lemma unknown_template_aborts_witness :
  get_conv_template
    {| get_conv_template := fun _ => Raise (OtherError 2);
       get_prompt := fun _ => [] |} (lit "nowhere")
  = Raise (OtherError 2)
  /\ interactive_mode (Fake.tokenizer (lit "</s>"))
       (Fake.model (lit " reply</s>"))
       {| get_conv_template := fun _ => Raise (OtherError 2);
          get_prompt := fun _ => [] |} 3 (lit "nowhere")
       (Fake.world [lit "hi"])
     = (Raise (OtherError 2), Fake.world [lit "hi"])
  /\ batch_mode (Fake.tokenizer (lit "</s>")) (Fake.model (lit " reply</s>"))
       {| get_conv_template := fun _ => Raise (OtherError 2);
          get_prompt := fun _ => [] |}
       (Fake.env []) (lit "nowhere") (lit "a" :: [lit "b"])
       (lit "./predictions.json") (Fake.world [lit "hi"])
     = (Raise (OtherError 2),
        logged (Fake.world [lit "hi"])
          [EvStdout (lit "Start inference." ++ nl)]).
Proof.
  split.
  - reflexivity.
  - apply (unknown_template_aborts (Fake.tokenizer (lit "</s>"))
             (Fake.model (lit " reply</s>"))
             {| get_conv_template := fun _ => Raise (OtherError 2);
                get_prompt := fun _ => [] |}
             (Fake.env []) (lit "nowhere") (OtherError 2) 3 (lit "a")
             [lit "b"] (lit "./predictions.json") (Fake.world [lit "hi"])).
    reflexivity.
Defined.

(* ====================================================================== *)
(** ** Failures and silence *)
(* ====================================================================== *)

(** The body of the loop on a non-empty line, when the model raises. *)
Lemma interactive_body_fails {RNG : Type} (tokenizer : Tokenizer)
  (model : Model RNG) (templates : Templates) (conv : Conversation)
  (w : World RNG) (inp : str) (rest : list str) (e : exn) (g : RNG) :
  stdin w = inp :: rest ->
  inp <> [] ->
  generate model
    (bounded_ids tokenizer (turn_prompt templates conv inp)
       default_context_len) answer_config (rng w) = (Raise e, g) ->
  interactive_body tokenizer model templates conv w
  = (Raise e,
     {| rng := g; stdin := rest;
        log := log w
               ++ [EvInput (fst (roles conv) ++ lit ": ");
                   EvStdout (snd (roles conv) ++ lit ": ");
                   EvTokenize (turn_prompt templates conv inp);
                   EvGenerate
                     (bounded_ids tokenizer (turn_prompt templates conv inp)
                        default_context_len) answer_config] |}).
Proof.
  intros Hin Hne Hgen. unfold interactive_body. unfold bind at 1.
  rewrite read_input_run, Hin. cbn [hd tl].
  destruct inp as [| c cs]; [congruence |].
  change (roles (append_message conv (fst (roles conv)) (c :: cs)))
    with (roles conv).
  fold (turn_prompt templates conv (c :: cs)).
  set (prompt := turn_prompt templates conv (c :: cs)) in *.
  unfold bind at 1. unfold prompt_for_output, print_noend, emit.
  unfold bind at 1. rewrite generate_answer_run. cbv zeta. cbn [rng stdin log].
  rewrite Hgen. rewrite <- !app_assoc. reflexivity.
Qed.

(** X12.  At any turn of the interactive loop, a generation that raises
    ends the session with that exception: the loop does not catch it, the
    model is not called a second time, no further line is read and the
    reply is not printed. *)
Theorem interactive_generation_failure {RNG : Type} (tokenizer : Tokenizer)
  (model : Model RNG) (templates : Templates) (conv : Conversation)
  (w : World RNG) (inp : str) (rest : list str) (e : exn) (g : RNG)
  (fuel : nat) :
  stdin w = inp :: rest ->
  inp <> [] ->
  generate model
    (bounded_ids tokenizer (turn_prompt templates conv inp)
       default_context_len) answer_config (rng w) = (Raise e, g) ->
  exists w',
    while_true (S fuel) (interactive_body tokenizer model templates) conv w
    = (Raise e, w')
    /\ generate_calls (log w')
       = generate_calls (log w)
         ++ [bounded_ids tokenizer (turn_prompt templates conv inp)
               default_context_len]
    /\ input_calls (log w')
       = input_calls (log w) ++ [fst (roles conv) ++ lit ": "]
    /\ stdin w' = rest
    /\ (exists earlier,
          log w'
          = earlier
            ++ [EvGenerate
                  (bounded_ids tokenizer (turn_prompt templates conv inp)
                     default_context_len) answer_config]).
Proof.
  intros Hin Hne Hgen. cbn [while_true]. unfold bind at 1.
  rewrite (interactive_body_fails tokenizer model templates conv w inp rest
             e g Hin Hne Hgen).
  eexists. split; [reflexivity |]. cbn [log stdin].
  rewrite generate_calls_app, input_calls_app. cbn.
  repeat split.
  eexists (log w ++ [_; _; _]). rewrite <- app_assoc. reflexivity.
Qed.

Lemma interactive_generation_failure_witness :
  stdin (Fake.world [lit "hi"; lit "again"]) = lit "hi" :: [lit "again"]
  /\ lit "hi" <> []
  /\ generate Fake.broken_model
       (bounded_ids (Fake.tokenizer (lit "</s>"))
          (turn_prompt Fake.templates (Fake.fresh (lit "vicuna")) (lit "hi"))
          default_context_len) answer_config
       (rng (Fake.world [lit "hi"; lit "again"]))
     = (Raise (OtherError 1), 1%nat)
  /\ exists w',
      while_true 3
        (interactive_body (Fake.tokenizer (lit "</s>")) Fake.broken_model
           Fake.templates)
        (Fake.fresh (lit "vicuna")) (Fake.world [lit "hi"; lit "again"])
      = (Raise (OtherError 1), w')
      /\ generate_calls (log w')
         = generate_calls (log (Fake.world [lit "hi"; lit "again"]))
           ++ [bounded_ids (Fake.tokenizer (lit "</s>"))
                 (turn_prompt Fake.templates (Fake.fresh (lit "vicuna"))
                    (lit "hi"))
                 default_context_len]
      /\ input_calls (log w')
         = input_calls (log (Fake.world [lit "hi"; lit "again"]))
           ++ [fst (roles (Fake.fresh (lit "vicuna"))) ++ lit ": "]
      /\ stdin w' = [lit "again"]
      /\ (exists earlier,
            log w'
            = earlier
              ++ [EvGenerate
                    (bounded_ids (Fake.tokenizer (lit "</s>"))
                       (turn_prompt Fake.templates
                          (Fake.fresh (lit "vicuna")) (lit "hi"))
                       default_context_len) answer_config]).
Proof.
  split; [reflexivity |]. split; [discriminate |]. split; [reflexivity |].
  apply (interactive_generation_failure (Fake.tokenizer (lit "</s>"))
           Fake.broken_model Fake.templates (Fake.fresh (lit "vicuna"))
           (Fake.world [lit "hi"; lit "again"]) (lit "hi") [lit "again"]
           (OtherError 1) 1%nat 2).
  - reflexivity.
  - discriminate.
  - reflexivity.
Defined.

Lemma print_each_events {RNG : Type} (P : Event -> Prop) (lines : list str) :
  (forall text, P (EvStdout text)) ->
  only_events P (print_each RNG lines).
Proof.
  intros HP. induction lines as [| line rest IH]; cbn [print_each].
  - apply only_events_ret.
  - apply only_events_bind; [apply only_events_emit, HP | intros _; exact IH].
Qed.

Lemma print_each_keeps_stdin {RNG : Type} (lines : list str) :
  keeps_stdin (print_each RNG lines).
Proof.
  induction lines as [| line rest IH]; cbn [print_each].
  - apply keeps_stdin_ret.
  - apply keeps_stdin_bind; [apply keeps_stdin_emit | intros _; exact IH].
Qed.

Lemma load_examples_events {RNG : Type} (env : Env) (data_file : option str) :
  only_events load_event (@load_examples RNG env data_file).
Proof.
  destruct data_file as [path |]; cbn [load_examples];
    [| apply only_events_ret].
  unfold open_readlines, print. step_events.
  apply print_each_events. intros text. exact I.
Qed.

Lemma load_examples_keeps_stdin {RNG : Type} (env : Env)
  (data_file : option str) :
  keeps_stdin (@load_examples RNG env data_file).
Proof.
  destruct data_file as [path |]; cbn [load_examples];
    [| apply keeps_stdin_ret].
  unfold open_readlines, print. step_stdin.
  apply print_each_keeps_stdin.
Qed.

Lemma interactive_body_events {RNG : Type} (tokenizer : Tokenizer)
  (model : Model RNG) (templates : Templates) (conv : Conversation) :
  only_events session_event
    (interactive_body tokenizer model templates conv).
Proof.
  unfold interactive_body. apply only_events_bind.
  - apply only_events_try_except.
    + apply only_events_input. exact I.
    + intros e k Hk. destruct e; cbn in Hk; try discriminate.
      injection Hk as <-. apply only_events_ret.
  - intros [| c inp].
    + unfold print. step_events.
    + unfold prompt_for_output, print_noend.
      apply only_events_bind; [apply only_events_emit; exact I | intros _].
      apply only_events_bind.
      * apply (only_events_weaken body_event); [| apply generate_answer_events].
        intros e He. destruct e; cbn in He |- *; tauto.
      * intros output. unfold stream_output, print.
        apply only_events_bind; [step_events | intros outputs].
        apply only_events_bind; [| intros ?; apply only_events_ret].
        unfold set_last_content.
        destruct (rev (messages _)) as [| [role content] before];
          [apply only_events_raise | apply only_events_ret].
Qed.

Lemma batch_mode_events {RNG : Type} (tokenizer : Tokenizer)
  (model : Model RNG) (templates : Templates) (env : Env)
  (template_name : str) (examples : list str) (predictions_file : str) :
  only_events (fun e => body_event e \/ write_event e)
    (batch_mode tokenizer model templates env template_name examples
       predictions_file).
Proof.
  unfold batch_mode, print.
  apply only_events_bind; [apply only_events_emit; left; exact I | intros _].
  apply only_events_bind.
  - apply (only_events_weaken body_event); [tauto |].
    apply batch_loop_events.
  - intros results. unfold os_makedirs, open_w, json_dump.
    apply only_events_bind.
    + apply only_events_bind; [apply only_events_emit; right; exact I |].
      intros _. destruct (os_path_dirname predictions_file);
        [apply only_events_raise | apply only_events_of_error].
    + intros _. apply only_events_bind.
      * apply only_events_bind; [apply only_events_emit; right; exact I |].
        intros _. apply only_events_of_error.
      * intros _.
        apply only_events_bind; [apply only_events_emit; right; exact I |].
        intros _. destruct (forallb (writable_record env) results);
          [apply only_events_ret | apply only_events_raise].
Qed.

Lemma batch_mode_keeps_stdin {RNG : Type} (tokenizer : Tokenizer)
  (model : Model RNG) (templates : Templates) (env : Env)
  (template_name : str) (examples : list str) (predictions_file : str) :
  keeps_stdin
    (batch_mode tokenizer model templates env template_name examples
       predictions_file).
Proof.
  unfold batch_mode, print.
  apply keeps_stdin_bind; [apply keeps_stdin_emit | intros _].
  apply keeps_stdin_bind; [apply batch_loop_keeps_stdin | intros results].
  unfold os_makedirs, open_w, json_dump.
  apply keeps_stdin_bind.
  - apply keeps_stdin_bind; [apply keeps_stdin_emit | intros _].
    destruct (os_path_dirname predictions_file);
      [apply keeps_stdin_raise | apply keeps_stdin_of_error].
  - intros _. step_stdin.
    destruct (forallb (writable_record env) results);
      [apply keeps_stdin_ret | apply keeps_stdin_raise].
Qed.

Lemma interactive_mode_events {RNG : Type} (tokenizer : Tokenizer)
  (model : Model RNG) (templates : Templates) (fuel : nat)
  (template_name : str) :
  only_events session_event
    (interactive_mode tokenizer model templates fuel template_name).
Proof.
  unfold interactive_mode, print.
  apply only_events_bind; [apply only_events_of_outcome | intros conv].
  apply only_events_bind; [apply only_events_emit; exact I | intros _].
  apply only_events_while_true. intros s. apply interactive_body_events.
Qed.

Lemma main_events_interactive {RNG : Type} (tokenizer : Tokenizer)
  (model : Model RNG) (templates : Templates) (env : Env) (fuel : nat)
  (args : Args) :
  interactive args = true ->
  only_events (fun e => load_event e \/ session_event e)
    (main tokenizer model templates env fuel args).
Proof.
  intros Hmode. unfold main. rewrite Hmode. apply only_events_bind.
  - apply (only_events_weaken load_event); [tauto |].
    apply load_examples_events.
  - intros examples. apply only_events_bind; [| intros ?; apply only_events_ret].
    apply (only_events_weaken session_event); [tauto |].
    apply interactive_mode_events.
Qed.

Lemma main_events_batch {RNG : Type} (tokenizer : Tokenizer)
  (model : Model RNG) (templates : Templates) (env : Env) (fuel : nat)
  (args : Args) :
  interactive args = false ->
  only_events (fun e => load_event e \/ body_event e \/ write_event e)
    (main tokenizer model templates env fuel args).
Proof.
  intros Hmode. unfold main. rewrite Hmode. apply only_events_bind.
  - apply (only_events_weaken load_event); [tauto |].
    apply load_examples_events.
  - intros examples. apply only_events_bind; [| intros ?; apply only_events_ret].
    apply (only_events_weaken (fun e => body_event e \/ write_event e));
      [tauto |].
    apply batch_mode_events.
Qed.

(** X13.  Whatever the arguments, the mode, the input and the outcome,
    every call [main] makes of the model passes at most 1640 tokens, the
    budget of the default context length of 2048, and the one fixed
    generation configuration. *)
Theorem main_within_budget {RNG : Type} (tokenizer : Tokenizer)
  (model : Model RNG) (templates : Templates) (env : Env) (fuel : nat)
  (args : Args) (w : World RNG) :
  exists events,
    log (snd (main tokenizer model templates env fuel args w))
    = log w ++ events
    /\ forall ids config,
        In (EvGenerate ids config) events ->
        len ids <= 1640 /\ config = answer_config.
Proof.
  assert (H : only_events within_budget
                (main tokenizer model templates env fuel args)).
  { destruct (interactive args) eqn:Hmode.
    - apply (only_events_weaken (fun e => load_event e \/ session_event e));
        [| apply main_events_interactive; exact Hmode].
      intros e; destruct e; cbn; tauto.
    - apply (only_events_weaken
               (fun e => load_event e \/ body_event e \/ write_event e));
        [| apply main_events_batch; exact Hmode].
      intros e; destruct e; cbn; tauto. }
  destruct (H w) as (events & Hlog & Hall).
  exists events. split; [exact Hlog |].
  intros ids config Hin. rewrite Forall_forall in Hall.
  exact (Hall _ Hin).
Qed.

(** X14.  In interactive mode [main] never touches the predictions:
    whatever happens, no directory is made, no file is opened for writing
    and nothing is dumped. *)
Theorem main_interactive_writes_nothing {RNG : Type} (tokenizer : Tokenizer)
  (model : Model RNG) (templates : Templates) (env : Env) (fuel : nat)
  (args : Args) (w : World RNG) :
  interactive args = true ->
  exists events,
    log (snd (main tokenizer model templates env fuel args w))
    = log w ++ events
    /\ makedirs_calls events = []
    /\ opened_for_writing events = []
    /\ dumped events = [].
Proof.
  intros Hmode.
  destruct (main_events_interactive tokenizer model templates env fuel args
              Hmode w) as (events & Hlog & Hall).
  exists events. split; [exact Hlog |].
  clear Hlog. induction Hall as [| e events He _ IH]; [repeat split |].
  destruct e; cbn in He |- *; try tauto.
Qed.

Lemma main_interactive_writes_nothing_witness :
  interactive {| template_name := lit "vicuna"; data_file := None;
                 interactive := true;
                 predictions_file := lit "./predictions.json" |} = true
  /\ exists events,
      log (snd (main (Fake.tokenizer (lit "</s>"))
                  (Fake.model (lit " reply</s>")) Fake.templates
                  (Fake.env []) 3
                  {| template_name := lit "vicuna"; data_file := None;
                     interactive := true;
                     predictions_file := lit "./predictions.json" |}
                  (Fake.world [lit "hi"])))
      = log (Fake.world [lit "hi"]) ++ events
      /\ makedirs_calls events = []
      /\ opened_for_writing events = []
      /\ dumped events = [].
Proof.
  split.
  - reflexivity.
  - apply (main_interactive_writes_nothing (Fake.tokenizer (lit "</s>"))
             (Fake.model (lit " reply</s>")) Fake.templates (Fake.env []) 3
             {| template_name := lit "vicuna"; data_file := None;
                interactive := true;
                predictions_file := lit "./predictions.json" |}
             (Fake.world [lit "hi"])).
    reflexivity.
Defined.

(** X15.  In batch mode [main] never reads the input: whatever happens,
    no line is asked for and the input is left as it was. *)
Theorem main_batch_reads_nothing {RNG : Type} (tokenizer : Tokenizer)
  (model : Model RNG) (templates : Templates) (env : Env) (fuel : nat)
  (args : Args) (w : World RNG) :
  interactive args = false ->
  stdin (snd (main tokenizer model templates env fuel args w)) = stdin w
  /\ exists events,
      log (snd (main tokenizer model templates env fuel args w))
      = log w ++ events
      /\ input_calls events = [].
Proof.
  intros Hmode. split.
  - revert w. change (keeps_stdin (main tokenizer model templates env fuel args)).
    unfold main. rewrite Hmode.
    apply keeps_stdin_bind; [apply load_examples_keeps_stdin |].
    intros examples.
    apply keeps_stdin_bind; [apply batch_mode_keeps_stdin |].
    intros _. apply keeps_stdin_ret.
  - destruct (main_events_batch tokenizer model templates env fuel args
                Hmode w) as (events & Hlog & Hall).
    exists events. split; [exact Hlog |].
    clear Hlog. induction Hall as [| e events He _ IH]; [reflexivity |].
    destruct e; cbn in He |- *; tauto.
Qed.

Lemma main_batch_reads_nothing_witness :
  interactive {| template_name := lit "vicuna"; data_file := None;
                 interactive := false;
                 predictions_file := lit "./predictions.json" |} = false
  /\ stdin (snd (main (Fake.tokenizer (lit "</s>"))
                   (Fake.model (lit " reply</s>")) Fake.templates
                   (Fake.env []) 3
                   {| template_name := lit "vicuna"; data_file := None;
                      interactive := false;
                      predictions_file := lit "./predictions.json" |}
                   (Fake.world [lit "hi"])))
     = stdin (Fake.world [lit "hi"])
  /\ exists events,
      log (snd (main (Fake.tokenizer (lit "</s>"))
                  (Fake.model (lit " reply</s>")) Fake.templates
                  (Fake.env []) 3
                  {| template_name := lit "vicuna"; data_file := None;
                     interactive := false;
                     predictions_file := lit "./predictions.json" |}
                  (Fake.world [lit "hi"])))
      = log (Fake.world [lit "hi"]) ++ events
      /\ input_calls events = [].
Proof.
  split.
  - reflexivity.
  - apply (main_batch_reads_nothing (Fake.tokenizer (lit "</s>"))
             (Fake.model (lit " reply</s>")) Fake.templates (Fake.env []) 3
             {| template_name := lit "vicuna"; data_file := None;
                interactive := false;
                predictions_file := lit "./predictions.json" |}
             (Fake.world [lit "hi"])).
    reflexivity.
Defined.

(* ====================================================================== *)
(** ** The directory of the predictions file *)
(* ====================================================================== *)

Lemma occurs_at_char (c : char) (s : str) :
  In c s <-> exists q, occurs_at [c] s q.
Proof.
  split.
  - intros Hin. apply in_split in Hin as (l1 & l2 & ->).
    exists (len l1), l1, l2. split; reflexivity.
  - intros (q & before & after & -> & _). apply in_elt.
Qed.

Lemma lstrip_by_nil (p : char -> bool) (s : str) :
  lstrip_by p s = [] -> forallb p s = true.
Proof.
  induction s as [| c s IH]; cbn; [reflexivity |].
  destruct (p c); [exact IH | discriminate].
Qed.

Lemma rstrip_by_nil (p : char -> bool) (s : str) :
  rstrip_by p s = [] -> forallb p s = true.
Proof.
  unfold rstrip_by. intros H. apply (f_equal (@rev char)) in H.
  rewrite rev_involutive in H. cbn in H. apply lstrip_by_nil in H.
  rewrite forallb_forall in H |- *. intros x Hx. apply H.
  rewrite <- in_rev. exact Hx.
Qed.

(** [os.path.dirname] gives the empty string exactly for the paths that
    hold no slash. *)
Lemma os_path_dirname_empty_iff (p : str) :
  os_path_dirname p = [] <-> ~ In 47%N p.
Proof.
  unfold os_path_dirname.
  change (lit "/") with [47%N].
  destruct (Z.eq_dec (rfind p [47%N] 0) (-1)) as [Hr | Hr].
  - rewrite Hr. change (-1 + 1) with 0.
    assert (Hhead : slice_to p 0 = []).
    { unfold slice_to, adjust. cbn. rewrite Z.min_l by apply len_nonneg.
      reflexivity. }
    rewrite Hhead. cbn. split; [| reflexivity].
    intros _ Hin. apply occurs_at_char in Hin as [q Hq].
    apply (rfind_none p [47%N] 0 ltac:(lia) Hr q); [| exact Hq].
    apply (occurs_at_bounds _ _ _ Hq).
  - destruct (rfind_found p [47%N] 0 ltac:(lia) Hr) as (Hle & Hat & _).
    pose proof (occurs_at_bounds _ _ _ Hat) as [_ Hend].
    change (len [47%N]) with 1 in Hend.
    set (pos := rfind p [47%N] 0) in *.
    assert (Hhead : slice_to p (pos + 1) = firstn (Z.to_nat (pos + 1)) p).
    { unfold slice_to, adjust.
      destruct (Z.ltb_spec (pos + 1) 0); [lia |].
      rewrite Z.min_l by lia. reflexivity. }
    rewrite Hhead.
    assert (Hne : firstn (Z.to_nat (pos + 1)) p <> []).
    { intros H. apply (f_equal (@length char)) in H.
      rewrite length_firstn in H. unfold len in Hend. cbn in H. lia. }
    split.
    + intros Hnil. exfalso.
      destruct (forallb (N.eqb 47) (firstn (Z.to_nat (pos + 1)) p)) eqn:Hall;
        cbn [negb] in Hnil; [exact (Hne Hnil) |].
      apply rstrip_by_nil in Hnil.
      assert (Hall' : forallb (N.eqb 47) (firstn (Z.to_nat (pos + 1)) p)
                      = true).
      { rewrite forallb_forall in Hnil |- *. intros x Hx.
        specialize (Hnil x Hx). cbn in Hnil.
        rewrite orb_false_r in Hnil. rewrite N.eqb_sym. exact Hnil. }
      congruence.
    + intros Hno. exfalso. apply Hno. apply occurs_at_char.
      exists pos. exact Hat.
Qed.

(** X16.  With a file system that lets every directory be made and the
    file be opened, an existing template and a model that always returns,
    the predictions file is opened exactly when its name holds a slash.
    With a slash, the file is opened and the run returns unless
    [json.dump] raises [UnicodeEncodeError]; with no slash, the run raises
    [FileNotFoundError] and opens nothing. *)
Theorem batch_mode_needs_a_slash {RNG : Type} (tokenizer : Tokenizer)
  (model : Model RNG) (templates : Templates) (env : Env)
  (template_name : str) (conv : Conversation) (examples : list str)
  (predictions_file : str) (w : World RNG) :
  (forall dirname, fs_makedirs env dirname = None) ->
  fs_open_w env predictions_file = None ->
  get_conv_template templates template_name = Ok conv ->
  never_raises model ->
  (In 47%N predictions_file ->
   opened_for_writing
     (log (snd (batch_mode tokenizer model templates env template_name
                  examples predictions_file w)))
   = opened_for_writing (log w) ++ [predictions_file]
   /\ (fst (batch_mode tokenizer model templates env template_name examples
              predictions_file w) = Ok tt
       \/ fst (batch_mode tokenizer model templates env template_name
                 examples predictions_file w) = Raise UnicodeEncodeError))
  /\ (~ In 47%N predictions_file ->
      opened_for_writing
        (log (snd (batch_mode tokenizer model templates env template_name
                     examples predictions_file w)))
      = opened_for_writing (log w)
      /\ fst (batch_mode tokenizer model templates env template_name examples
                predictions_file w) = Raise FileNotFoundError).
Proof.
  intros Hmk Hopen Htpl Hok.
  destruct (batch_mode_loop tokenizer model templates env template_name conv
              examples predictions_file w Htpl Hok)
    as (results & w1 & Hrun & _ & _ & Hop & _).
  rewrite Hrun.
  unfold os_makedirs, open_w, json_dump, bind, emit, of_error, raise, ret.
  cbn [rng stdin log].
  pose proof (os_path_dirname_empty_iff predictions_file) as Hdir.
  destruct (os_path_dirname predictions_file) as [| c d].
  - split.
    + intros Hin. exfalso. apply (proj1 Hdir eq_refl). exact Hin.
    + intros _. cbn [fst snd log]. rewrite opened_for_writing_app. cbn.
      rewrite app_nil_r. split; [exact Hop | reflexivity].
  - rewrite Hmk, Hopen. cbn [rng stdin log]. split.
    + intros _.
      destruct (forallb (writable_record env) results); cbn [fst snd log];
        rewrite !opened_for_writing_app; cbn; rewrite !app_nil_r, Hop;
        (split; [reflexivity |]); [left | right]; reflexivity.
    + intros Hno. apply (proj2 Hdir) in Hno. discriminate.
Qed.

Lemma batch_mode_needs_a_slash_witness :
  (forall dirname, fs_makedirs (Fake.env []) dirname = None)
  /\ fs_open_w (Fake.env []) (lit "out/predictions.json") = None
  /\ get_conv_template Fake.templates (lit "vicuna")
     = Ok (Fake.fresh (lit "vicuna"))
  /\ never_raises (Fake.model (lit " reply</s>"))
  /\ (In 47%N (lit "out/predictions.json") ->
      opened_for_writing
        (log (snd (batch_mode (Fake.tokenizer (lit "</s>"))
                     (Fake.model (lit " reply</s>")) Fake.templates
                     (Fake.env []) (lit "vicuna") builtin_examples
                     (lit "out/predictions.json") (Fake.world []))))
      = opened_for_writing (log (Fake.world []))
        ++ [lit "out/predictions.json"]
      /\ (fst (batch_mode (Fake.tokenizer (lit "</s>"))
                 (Fake.model (lit " reply</s>")) Fake.templates
                 (Fake.env []) (lit "vicuna") builtin_examples
                 (lit "out/predictions.json") (Fake.world [])) = Ok tt
          \/ fst (batch_mode (Fake.tokenizer (lit "</s>"))
                    (Fake.model (lit " reply</s>")) Fake.templates
                    (Fake.env []) (lit "vicuna") builtin_examples
                    (lit "out/predictions.json") (Fake.world []))
             = Raise UnicodeEncodeError))
  /\ (~ In 47%N (lit "out/predictions.json") ->
      opened_for_writing
        (log (snd (batch_mode (Fake.tokenizer (lit "</s>"))
                     (Fake.model (lit " reply</s>")) Fake.templates
                     (Fake.env []) (lit "vicuna") builtin_examples
                     (lit "out/predictions.json") (Fake.world []))))
      = opened_for_writing (log (Fake.world []))
      /\ fst (batch_mode (Fake.tokenizer (lit "</s>"))
                (Fake.model (lit " reply</s>")) Fake.templates (Fake.env [])
                (lit "vicuna") builtin_examples (lit "out/predictions.json")
                (Fake.world [])) = Raise FileNotFoundError).
Proof.
  assert (Hok : never_raises (Fake.model (lit " reply</s>"))).
  { intros ids config g. eexists _, _. reflexivity. }
  split; [intros dirname; reflexivity |]. split; [reflexivity |].
  split; [reflexivity |]. split; [exact Hok |].
  apply (batch_mode_needs_a_slash (Fake.tokenizer (lit "</s>"))
           (Fake.model (lit " reply</s>")) Fake.templates (Fake.env [])
           (lit "vicuna") (Fake.fresh (lit "vicuna")) builtin_examples
           (lit "out/predictions.json") (Fake.world [])).
  - intros dirname. reflexivity.
  - reflexivity.
  - reflexivity.
  - exact Hok.
Defined.

(* ====================================================================== *)
(** ** More on the examples *)
(* ====================================================================== *)

(** Reading the examples of a readable data file. *)
Lemma load_examples_run {RNG : Type} (env : Env) (path content : str)
  (w : World RNG) :
  fs_read env path = Ok content ->
  exists w',
    load_examples env (Some path) w
    = (Ok (map strip (readlines (universal_newlines content))), w').
Proof.
  intros Hread. unfold load_examples, open_readlines.
  unfold bind at 1. unfold bind at 1. unfold emit.
  unfold bind at 1, of_outcome. rewrite Hread. unfold ret at 1.
  unfold bind at 1. rewrite print_run.
  match goal with
  | |- context [bind (print_each _ ?l) _ ?w1] =>
      destruct (print_each_run l w1) as [w' Hprint]
  end.
  exists w'. unfold bind. rewrite Hprint. reflexivity.
Qed.

(** In a line of a text, a line feed can only be the last character. *)
Lemma lines_of_feed_last (text : str) (lines : list str) :
  lines_of text lines ->
  Forall (fun line => forall x y z, line <> x ++ 10%N :: y ++ [z]) lines.
Proof.
  induction 1 as [| body Hne Hbody | body rest lines Hbody _ IH].
  - constructor.
  - constructor; [| constructor]. intros x y z ->. apply Hbody, in_elt.
  - constructor; [| exact IH]. intros x y z Heq.
    change (x ++ 10%N :: y ++ [z]) with (x ++ (10%N :: y) ++ [z]) in Heq.
    rewrite app_assoc in Heq. apply app_inj_tail in Heq as [-> _].
    apply Hbody, in_elt.
Qed.

(** A whitespace character that [strip] keeps is followed, in the
    argument, by something else. *)
Lemma strip_keeps_inner (s : str) (c : char) :
  In c (strip s) -> isspace c = true ->
  exists x y z, s = x ++ c :: y ++ [z].
Proof.
  intros Hin Hc. destruct (strip_trimmed s) as [_ Hlast].
  destruct (strip_piece s) as (before & after & Hs).
  apply in_split in Hin as (front & back & Hsplit).
  assert (Hback : back ++ after <> []).
  { destruct back as [| b back]; [| discriminate].
    rewrite (Hlast front c Hsplit) in Hc. discriminate. }
  destruct (exists_last Hback) as (y & z & Hyz).
  exists (before ++ front), y, z.
  rewrite Hs, Hsplit, <- Hyz, <- !app_assoc. reflexivity.
Qed.

(** X17.  Every example read from a data file is a single trimmed line:
    it neither starts nor ends with whitespace and holds no line feed. *)
Theorem load_examples_clean {RNG : Type} (env : Env) (path content : str)
  (w : World RNG) :
  fs_read env path = Ok content ->
  exists examples w',
    load_examples env (Some path) w = (Ok examples, w')
    /\ Forall (fun example => trimmed example /\ ~ In 10%N example) examples.
Proof.
  intros Hread. destruct (load_examples_run env path content w Hread)
    as [w' Hrun].
  eexists _, w'. split; [exact Hrun |]. clear Hrun.
  pose proof (lines_of_feed_last _ _
                (readlines_lines (universal_newlines content))) as Hlines.
  induction Hlines as [| line lines Hline _ IH]; cbn [map]; constructor.
  - split; [apply strip_trimmed |].
    intros Hin. destruct (strip_keeps_inner line 10%N Hin eq_refl)
      as (x & y & z & Heq).
    exact (Hline x y z Heq).
  - exact IH.
Qed.

Lemma load_examples_clean_witness :
  fs_read (Fake.env (lit "  a b " ++ nl ++ nl ++ lit "c")) (lit "data.txt")
  = Ok (lit "  a b " ++ nl ++ nl ++ lit "c")
  /\ exists examples w',
      load_examples (Fake.env (lit "  a b " ++ nl ++ nl ++ lit "c"))
        (Some (lit "data.txt")) (Fake.world []) = (Ok examples, w')
      /\ Forall (fun example => trimmed example /\ ~ In 10%N example)
           examples.
Proof.
  split.
  - reflexivity.
  - apply (load_examples_clean
             (Fake.env (lit "  a b " ++ nl ++ nl ++ lit "c"))
             (lit "data.txt") (lit "  a b " ++ nl ++ nl ++ lit "c")
             (Fake.world [])).
    reflexivity.
Defined.

Lemma last_after_feed (body rest : str) :
  last (body ++ nl ++ rest) 10%N = last rest 10%N.
Proof.
  destruct rest as [| r rest] using rev_ind.
  - rewrite app_nil_r. apply last_last.
  - change (body ++ nl ++ rest ++ [r]) with (body ++ (nl ++ rest) ++ [r]).
    rewrite app_assoc, !last_last. reflexivity.
Qed.

(** The number of lines of a text: its line feeds, and one more when
    something follows the last of them. *)
Lemma lines_of_count (text : str) (lines : list str) :
  lines_of text lines ->
  length lines
  = (count_occ N.eq_dec text 10%N
     + (if N.eqb (last text 10%N) 10 then 0 else 1))%nat.
Proof.
  induction 1 as [| body Hne Hbody | body rest lines Hbody _ IH].
  - reflexivity.
  - rewrite (proj1 (count_occ_not_In N.eq_dec body 10%N) Hbody).
    destruct (N.eqb_spec (last body 10%N) 10) as [Hlast | _];
      [| reflexivity].
    exfalso. apply Hbody. rewrite <- Hlast.
    destruct (exists_last Hne) as (front & c & ->).
    rewrite last_last. apply in_elt.
  - cbn [length]. rewrite IH, last_after_feed, !count_occ_app.
    pose proof (proj1 (count_occ_not_In N.eq_dec body 10%N) Hbody) as Hc.
    unfold str, char in *. rewrite Hc. cbn. lia.
Qed.

(** X18.  A data file gives as many examples as it has line feeds, plus
    one when text follows the last line feed: the line feed that ends the
    file adds no example, and an empty file gives none. *)
Theorem load_examples_count {RNG : Type} (env : Env) (path content : str)
  (w : World RNG) :
  fs_read env path = Ok content ->
  exists examples w',
    load_examples env (Some path) w = (Ok examples, w')
    /\ length examples
       = (count_occ N.eq_dec (universal_newlines content) 10%N
          + (if N.eqb (last (universal_newlines content) 10%N) 10
             then 0 else 1))%nat.
Proof.
  intros Hread. destruct (load_examples_run env path content w Hread)
    as [w' Hrun].
  eexists _, w'. split; [exact Hrun |].
  rewrite length_map. apply lines_of_count, readlines_lines.
Qed.

Lemma load_examples_count_witness :
  fs_read (Fake.env (lit "a" ++ nl ++ lit "b" ++ nl)) (lit "data.txt")
  = Ok (lit "a" ++ nl ++ lit "b" ++ nl)
  /\ exists examples w',
      load_examples (Fake.env (lit "a" ++ nl ++ lit "b" ++ nl))
        (Some (lit "data.txt")) (Fake.world []) = (Ok examples, w')
      /\ length examples
         = (count_occ N.eq_dec
              (universal_newlines (lit "a" ++ nl ++ lit "b" ++ nl)) 10%N
            + (if N.eqb
                    (last (universal_newlines
                             (lit "a" ++ nl ++ lit "b" ++ nl)) 10%N) 10
               then 0 else 1))%nat.
Proof.
  split.
  - reflexivity.
  - apply (load_examples_count (Fake.env (lit "a" ++ nl ++ lit "b" ++ nl))
             (lit "data.txt") (lit "a" ++ nl ++ lit "b" ++ nl)
             (Fake.world [])).
    reflexivity.
Defined.

(* ====================================================================== *)
(** ** The prompts of a session, and an unreadable data file *)
(* ====================================================================== *)

(** X19.  In an interactive session the prompt of each turn is rendered
    from the whole conversation so far: the messages of the template, the
    lines typed before with the stripped replies they got, then the new
    line and the empty assistant message; these prompts, in order, are
    what the tokenizer is called on. *)
Theorem interactive_session_prompts {RNG : Type} (tokenizer : Tokenizer)
  (model : Model RNG) (templates : Templates) (template_name : str)
  (conv : Conversation) (lines tail : list str) (fuel : nat)
  (w : World RNG) :
  get_conv_template templates template_name = Ok conv ->
  never_raises model ->
  Forall (fun line => line <> []) lines ->
  input_ends tail ->
  stdin w = lines ++ tail ->
  (length lines < fuel)%nat ->
  exists replies conv' w',
    interactive_mode tokenizer model templates fuel template_name w
    = (Ok (Some conv'), w')
    /\ length replies = length lines
    /\ messages conv' = messages conv ++ turns conv lines replies
    /\ tokenize_calls (log w')
       = tokenize_calls (log w)
         ++ session_prompts templates conv lines replies.
Proof.
  intros Htpl Hok Hlines Hend Hin Hfuel.
  unfold interactive_mode. unfold bind at 1, of_outcome. rewrite Htpl.
  unfold bind at 1. rewrite print_run.
  destruct (interactive_loop_history tokenizer model templates lines tail
              Hok Hlines Hend fuel conv
              (logged w [EvStdout (lit "Start inference with interactive mode."
                                   ++ nl)]) Hin Hfuel)
    as (replies & conv' & w' & Hrun & Hlen & _ & _ & _ & Hmsgs & _ & _
        & Hprompts).
  exists replies, conv', w'. split; [exact Hrun |]. split; [exact Hlen |].
  split; [exact Hmsgs |].
  rewrite Hprompts. cbn [logged log]. rewrite tokenize_calls_app. cbn.
  rewrite app_nil_r. reflexivity.
Qed.

Lemma interactive_session_prompts_witness :
  get_conv_template Fake.templates (lit "vicuna")
  = Ok (Fake.fresh (lit "vicuna"))
  /\ never_raises (Fake.model (lit " reply </s>"))
  /\ Forall (fun line => line <> []) [lit "hi"; lit "more"]
  /\ input_ends []
  /\ stdin (Fake.world [lit "hi"; lit "more"]) = [lit "hi"; lit "more"] ++ []
  /\ (length [lit "hi"; lit "more"] < 3)%nat
  /\ exists replies conv' w',
      interactive_mode (Fake.tokenizer (lit "</s>"))
        (Fake.model (lit " reply </s>")) Fake.templates 3 (lit "vicuna")
        (Fake.world [lit "hi"; lit "more"])
      = (Ok (Some conv'), w')
      /\ length replies = length [lit "hi"; lit "more"]
      /\ messages conv'
         = messages (Fake.fresh (lit "vicuna"))
           ++ turns (Fake.fresh (lit "vicuna")) [lit "hi"; lit "more"]
                replies
      /\ tokenize_calls (log w')
         = tokenize_calls (log (Fake.world [lit "hi"; lit "more"]))
           ++ session_prompts Fake.templates (Fake.fresh (lit "vicuna"))
                [lit "hi"; lit "more"] replies.
Proof.
  assert (Hok : never_raises (Fake.model (lit " reply </s>"))).
  { intros ids config g. eexists _, _. reflexivity. }
  assert (Hlines : Forall (fun line : str => line <> [])
                     [lit "hi"; lit "more"]).
  { repeat constructor; discriminate. }
  split; [reflexivity |]. split; [exact Hok |]. split; [exact Hlines |].
  split; [left; reflexivity |]. split; [reflexivity |]. split; [cbn; lia |].
  apply (interactive_session_prompts (Fake.tokenizer (lit "</s>"))
           (Fake.model (lit " reply </s>")) Fake.templates (lit "vicuna")
           (Fake.fresh (lit "vicuna")) [lit "hi"; lit "more"] [] 3
           (Fake.world [lit "hi"; lit "more"])).
  - reflexivity.
  - exact Hok.
  - exact Hlines.
  - left. reflexivity.
  - reflexivity.
  - cbn. lia.
Defined.

(** X20.  [main] reads the data file before it looks at the mode: a data
    file that cannot be read aborts the run with the error of the read,
    in interactive mode as in batch mode, before the template is looked
    up, any line is asked for or anything is generated. *)
Theorem main_unreadable_data_file {RNG : Type} (tokenizer : Tokenizer)
  (model : Model RNG) (templates : Templates) (env : Env) (fuel : nat)
  (args : Args) (path : str) (e : exn) (w : World RNG) :
  data_file args = Some path ->
  fs_read env path = Raise e ->
  main tokenizer model templates env fuel args w
  = (Raise e, logged w [EvOpenR path]).
Proof.
  intros Hfile Hread. unfold main, load_examples. rewrite Hfile.
  unfold open_readlines, bind, emit, of_outcome. rewrite Hread.
  reflexivity.
Qed.

Lemma main_unreadable_data_file_witness :
  data_file {| template_name := lit "vicuna";
               data_file := Some (lit "missing.txt");
               interactive := true;
               predictions_file := lit "./predictions.json" |}
  = Some (lit "missing.txt")
  /\ fs_read {| fs_read := fun _ => Raise FileNotFoundError;
                fs_makedirs := fun _ => None;
                fs_open_w := fun _ => None;
     fs_encodable := fun _ => true |} (lit "missing.txt")
     = Raise FileNotFoundError
  /\ main (Fake.tokenizer (lit "</s>")) (Fake.model (lit " reply</s>"))
       Fake.templates
       {| fs_read := fun _ => Raise FileNotFoundError;
          fs_makedirs := fun _ => None;
          fs_open_w := fun _ => None;
     fs_encodable := fun _ => true |} 3
       {| template_name := lit "vicuna";
          data_file := Some (lit "missing.txt");
          interactive := true;
          predictions_file := lit "./predictions.json" |}
       (Fake.world [lit "hi"])
     = (Raise FileNotFoundError,
        logged (Fake.world [lit "hi"]) [EvOpenR (lit "missing.txt")]).
Proof.
  split; [reflexivity |]. split; [reflexivity |].
  apply (main_unreadable_data_file (Fake.tokenizer (lit "</s>"))
           (Fake.model (lit " reply</s>")) Fake.templates
           {| fs_read := fun _ => Raise FileNotFoundError;
              fs_makedirs := fun _ => None;
              fs_open_w := fun _ => None;
     fs_encodable := fun _ => true |} 3
           {| template_name := lit "vicuna";
              data_file := Some (lit "missing.txt");
              interactive := true;
              predictions_file := lit "./predictions.json" |}
           (lit "missing.txt") FileNotFoundError (Fake.world [lit "hi"]));
    reflexivity.
Defined.
